(** * Campus-safety backend: report lifecycle, moderation and rate limiting

    A shallow embedding of the report slice of the backend
    (db/schemas/Report.js, controllers/reports.controller.js,
    controllers/moderation.controller.js, middlewares/rateLimiter.js,
    middlewares/validateReports.js, config/env.js) together with the
    properties of the lifecycle that are proved or refuted about it.

    Conventions of the embedding:
    - a Mongo ObjectId is a [positive]; [.equals] is equality;
    - a JS [Date] is its numeric value, a [Z] of milliseconds;
    - integral JS numbers (severity, counters, limits) are [Z]; a number that
      may be [NaN] (the result of [parseInt]) is an [option Z];
      coordinates are rationals;
    - an absent ([undefined]) property is [None];
    - a handler is a state-passing function on [World], the collections of
      the database plus the emitted socket events and console lines. *)

From Stdlib Require Import ZArith QArith Ascii String.
From Stdlib Require Import Qround DecimalString.
From stdpp Require Import base option list strings gmap sorting.

Local Open Scope string_scope.
Local Open Scope list_scope.
Local Open Scope Z_scope.

Abbreviation ObjectId := positive (only parsing).
Abbreviation Date := Z (only parsing).

(** ** JavaScript helpers *)

Module Js.

(** Truthiness of a possibly absent string: [undefined] and the empty
    string are falsy. *)
Definition truthyStr (s : option string) : bool :=
  match s with
  | Some s => negb (String.eqb s "")
  | None => false
  end.

(** Truthiness of a possibly absent integral number: [undefined] and [0]
    are falsy. *)
Definition truthyNum (n : option Z) : bool :=
  match n with
  | Some n => negb (n =? 0)
  | None => false
  end.

(** Truthiness of a possibly absent array: every array is truthy. *)
Definition truthyArr {A} (l : option (list A)) : bool :=
  match l with
  | Some _ => true
  | None => false
  end.

(** [a || b] on strings and numbers, [b] being defined. *)
Definition orStr (a : option string) (b : string) : string :=
  match a with
  | Some s => if String.eqb s "" then b else s
  | None => b
  end.

Definition orNum (a : option Z) (b : Z) : Z :=
  match a with
  | Some n => if n =? 0 then b else n
  | None => b
  end.

Definition isWhite (c : Ascii.ascii) : bool :=
  let n := Ascii.nat_of_ascii c in
  ((9 <=? n)%nat && (n <=? 13)%nat) || (n =? 32)%nat.

Definition isDigit (c : Ascii.ascii) : bool :=
  let n := Ascii.nat_of_ascii c in
  (48 <=? n)%nat && (n <=? 57)%nat.

Fixpoint dropWhite (s : string) : string :=
  match s with
  | String c s' => if isWhite c then dropWhite s' else s
  | EmptyString => EmptyString
  end.

Fixpoint dropWhiteEnd (s : string) : string :=
  match s with
  | String c s' =>
      let t := dropWhiteEnd s' in
      if isWhite c && String.eqb t "" then EmptyString else String c t
  | EmptyString => EmptyString
  end.

(** [String.prototype.trim] on the ASCII white space. *)
Definition trim (s : string) : string := dropWhiteEnd (dropWhite s).

(** The digits of the longest decimal prefix, accumulated. *)
Fixpoint digits (s : string) (acc : option Z) : option Z :=
  match s with
  | String c s' =>
      if isDigit c
      then digits s' (Some (10 * default 0 acc
                            + Z.of_nat (Ascii.nat_of_ascii c) - 48))
      else acc
  | EmptyString => acc
  end.

(** [parseInt(s, 10)]: leading white space, an optional sign, the longest
    prefix of decimal digits; [None] is [NaN]. *)
Definition parseInt (s : string) : option Z :=
  match dropWhite s with
  | String "-"%char s' => Z.opp <$> digits s' None
  | String "+"%char s' => digits s' None
  | s' => digits s' None
  end.

End Js.

(** ** config/env.js *)

Module Env.

Record RateLimit := {
  reportsPerHour : option Z;
  windowMs : option Z;
}.

Record Notifications := {
  defaultRadius : option Z;
  minSeverityForPush : option Z;
}.

Record t := {
  nodeEnv : string;
  rateLimit : RateLimit;
  notifications : Notifications;
}.

(** [process.env.NAME || dflt] *)
Definition orDefault (processEnv : gmap string string) (name dflt : string)
  : string :=
  Js.orStr (processEnv !! name) dflt.

Definition env (processEnv : gmap string string) : t :=
  {| nodeEnv := orDefault processEnv "NODE_ENV" "development";
     rateLimit :=
       {| reportsPerHour :=
            Js.parseInt (orDefault processEnv "RATE_LIMIT_REPORTS_PER_HOUR" "5");
          windowMs :=
            Js.parseInt (orDefault processEnv "RATE_LIMIT_WINDOW_MS" "3600000") |};
     notifications :=
       {| defaultRadius :=
            Js.parseInt (orDefault processEnv "DEFAULT_NOTIFICATION_RADIUS" "500");
          minSeverityForPush :=
            Js.parseInt (orDefault processEnv "MINIMUM_SEVERITY_FOR_PUSH" "4") |} |}.

End Env.

(** ** db/schemas/User.js, Campus.js, Comment.js, AuditLog.js, Notification.js *)

Module UserSchema.

Record User := {
  _id : ObjectId;
  role : string;
  campusId : ObjectId;
  isVerified : bool;
  isActive : bool;
  isBanned : bool;
}.

Definition canModerate (u : User) : bool :=
  bool_decide (role u ∈ ["moderator"; "admin"; "super-admin"]).

Definition canAdmin (u : User) : bool :=
  bool_decide (role u ∈ ["admin"; "super-admin"]).

End UserSchema.

Module CampusSchema.

(** The campus-specific settings of the schema, with their defaults. *)
Record Settings := {
  notificationRadius : Z;
  minSeverityForPush : Z;
  reportsPerHour : Z;
  requireModeration : bool;
  allowAnonymous : bool;
}.

Definition defaultSettings : Settings :=
  {| notificationRadius := 500;
     minSeverityForPush := 4;
     reportsPerHour := 5;
     requireModeration := false;
     allowAnonymous := true |}.

Record Campus := {
  _id : ObjectId;
  name : string;
  code : string;
  settings : Settings;
  isActive : bool;
}.

End CampusSchema.

Module CommentSchema.

Record Comment := {
  _id : ObjectId;
  reportId : ObjectId;
  userId : ObjectId;
  content : string;
  isAnonymous : bool;
  isDeleted : bool;
  createdAt : Date;
}.

End CommentSchema.

(** The four content fields that the edit history and the audit log of an
    edit carry. *)
Module Fields.

Record t := {
  title : string;
  description : string;
  category : string;
  severity : Z;
}.

End Fields.

Module AuditLogSchema.

(** The free-form ([Mixed]) values the controllers store. *)
Inductive Mixed :=
| MEmpty
| MCreate (category : string) (severity : Z) (isAnonymous : bool)
| MVote (vote : string)
| MStatus (status : string)
| MFields (f : Fields.t).

Record Changes := {
  before : Mixed;
  after : Mixed;
}.

Record AuditLog := {
  reportId : option ObjectId;
  actorId : ObjectId;
  action : string;
  entityType : string;
  entityId : option ObjectId;
  payload : Mixed;
  changes : option Changes;
}.

End AuditLogSchema.

Module NotificationSchema.

Record Notification := {
  userId : ObjectId;
  reportId : option ObjectId;
  type : string;
  title : string;
  message : string;
  data : option ObjectId;
  priority : string;
}.

End NotificationSchema.

(** ** db/schemas/Report.js *)

Module ReportSchema.

Record Location := {
  type : string;
  coordinates : list Q;
}.

Record Votes := {
  confirms : list ObjectId;
  disputes : list ObjectId;
}.

Record EditEntry := {
  entryEditedAt : Date;
  changes : Fields.t;
}.

Record Report := {
  _id : ObjectId;
  reporterId : ObjectId;
  campusId : ObjectId;
  category : string;
  severity : Z;
  title : string;
  description : string;
  location : Location;
  mediaUrls : list string;
  isAnonymous : bool;
  status : string;
  resolvedBy : option ObjectId;
  resolvedAt : option Date;
  moderatorNotes : option string;
  assignedTo : option ObjectId;
  votes : Votes;
  commentsCount : Z;
  viewsCount : Z;
  spamReports : list ObjectId;
  isSpam : bool;
  isEdited : bool;
  editedAt : option Date;
  editHistory : list EditEntry;
  createdAt : Date;
}.

Definition categoryEnum : list string :=
  ["safety"; "emergency"; "theft"; "suspicious"; "suspicious_activity";
   "harassment"; "vandalism"; "medical"; "fire"; "hazard"; "assault";
   "other"].

Definition statusEnum : list string :=
  ["reported"; "verified"; "investigating"; "resolved"; "invalid"; "spam"].

(** The validator of [location.coordinates]. *)
Definition validCoordinates (coords : list Q) : bool :=
  match coords with
  | [lon; lat] =>
      Qle_bool (-180) lon && Qle_bool lon 180
      && Qle_bool (-90) lat && Qle_bool lat 90
  | _ => false
  end.

(** Field setters, [{| r with field := v |}]. *)
Definition set_content (t d c : string) (s : Z) (m : list string) (r : Report)
  : Report :=
  {| _id := _id r; reporterId := reporterId r; campusId := campusId r;
     category := c; severity := s; title := t; description := d;
     location := location r; mediaUrls := m; isAnonymous := isAnonymous r;
     status := status r; resolvedBy := resolvedBy r;
     resolvedAt := resolvedAt r; moderatorNotes := moderatorNotes r;
     assignedTo := assignedTo r; votes := votes r;
     commentsCount := commentsCount r; viewsCount := viewsCount r;
     spamReports := spamReports r; isSpam := isSpam r;
     isEdited := isEdited r; editedAt := editedAt r;
     editHistory := editHistory r; createdAt := createdAt r |}.

Definition set_title (v : string) (r : Report) : Report :=
  set_content v (description r) (category r) (severity r) (mediaUrls r) r.
Definition set_description (v : string) (r : Report) : Report :=
  set_content (title r) v (category r) (severity r) (mediaUrls r) r.
Definition set_category (v : string) (r : Report) : Report :=
  set_content (title r) (description r) v (severity r) (mediaUrls r) r.
Definition set_severity (v : Z) (r : Report) : Report :=
  set_content (title r) (description r) (category r) v (mediaUrls r) r.
Definition set_mediaUrls (v : list string) (r : Report) : Report :=
  set_content (title r) (description r) (category r) (severity r) v r.

Definition set_edit (e : bool) (at_ : option Date) (h : list EditEntry)
    (r : Report) : Report :=
  {| _id := _id r; reporterId := reporterId r; campusId := campusId r;
     category := category r; severity := severity r; title := title r;
     description := description r;
     location := location r; mediaUrls := mediaUrls r;
     isAnonymous := isAnonymous r;
     status := status r; resolvedBy := resolvedBy r;
     resolvedAt := resolvedAt r; moderatorNotes := moderatorNotes r;
     assignedTo := assignedTo r; votes := votes r;
     commentsCount := commentsCount r; viewsCount := viewsCount r;
     spamReports := spamReports r; isSpam := isSpam r;
     isEdited := e; editedAt := at_;
     editHistory := h; createdAt := createdAt r |}.

Definition set_moderation (st : string) (by_ : option ObjectId)
    (at_ : option Date) (notes : option string) (asg : option ObjectId)
    (r : Report) : Report :=
  {| _id := _id r; reporterId := reporterId r; campusId := campusId r;
     category := category r; severity := severity r; title := title r;
     description := description r;
     location := location r; mediaUrls := mediaUrls r;
     isAnonymous := isAnonymous r;
     status := st; resolvedBy := by_;
     resolvedAt := at_; moderatorNotes := notes;
     assignedTo := asg; votes := votes r;
     commentsCount := commentsCount r; viewsCount := viewsCount r;
     spamReports := spamReports r; isSpam := isSpam r;
     isEdited := isEdited r; editedAt := editedAt r;
     editHistory := editHistory r; createdAt := createdAt r |}.

Definition set_status (st : string) (r : Report) : Report :=
  set_moderation st (resolvedBy r) (resolvedAt r) (moderatorNotes r)
    (assignedTo r) r.
Definition set_resolved (by_ : ObjectId) (at_ : Date) (r : Report) : Report :=
  set_moderation (status r) (Some by_) (Some at_) (moderatorNotes r)
    (assignedTo r) r.
Definition set_moderatorNotes (n : string) (r : Report) : Report :=
  set_moderation (status r) (resolvedBy r) (resolvedAt r) (Some n)
    (assignedTo r) r.
Definition set_assignedTo (a : ObjectId) (r : Report) : Report :=
  set_moderation (status r) (resolvedBy r) (resolvedAt r) (moderatorNotes r)
    (Some a) r.

Definition set_engagement (v : Votes) (cc vc : Z) (sp : list ObjectId)
    (spam : bool) (r : Report) : Report :=
  {| _id := _id r; reporterId := reporterId r; campusId := campusId r;
     category := category r; severity := severity r; title := title r;
     description := description r;
     location := location r; mediaUrls := mediaUrls r;
     isAnonymous := isAnonymous r;
     status := status r; resolvedBy := resolvedBy r;
     resolvedAt := resolvedAt r; moderatorNotes := moderatorNotes r;
     assignedTo := assignedTo r; votes := v;
     commentsCount := cc; viewsCount := vc;
     spamReports := sp; isSpam := spam;
     isEdited := isEdited r; editedAt := editedAt r;
     editHistory := editHistory r; createdAt := createdAt r |}.

Definition set_votes (v : Votes) (r : Report) : Report :=
  set_engagement v (commentsCount r) (viewsCount r) (spamReports r) (isSpam r) r.
Definition set_commentsCount (n : Z) (r : Report) : Report :=
  set_engagement (votes r) n (viewsCount r) (spamReports r) (isSpam r) r.
Definition set_viewsCount (n : Z) (r : Report) : Report :=
  set_engagement (votes r) (commentsCount r) n (spamReports r) (isSpam r) r.
Definition set_spamReports (l : list ObjectId) (r : Report) : Report :=
  set_engagement (votes r) (commentsCount r) (viewsCount r) l (isSpam r) r.
Definition set_isSpam (b : bool) (r : Report) : Report :=
  set_engagement (votes r) (commentsCount r) (viewsCount r) (spamReports r) b r.

(** Virtuals. *)
Definition confirmCount (r : Report) : Z := Z.of_nat (length (confirms (votes r))).
Definition disputeCount (r : Report) : Z := Z.of_nat (length (disputes (votes r))).
Definition netVotes (r : Report) : Z :=
  Z.of_nat (length (confirms (votes r))) - Z.of_nat (length (disputes (votes r))).

(** [canEdit(userId, timeLimit = 30 * 60 * 1000)], at clock reading [now]. *)
Definition defaultTimeLimit : Z := 30 * 60 * 1000.

Definition canEdit (r : Report) (now : Date) (userId : ObjectId)
    (timeLimit : Z) : bool :=
  if negb (String.eqb (status r) "reported") then false
  else if negb (Pos.eqb (reporterId r) userId) then false
  else
    let timeSinceCreation := now - createdAt r in
    timeSinceCreation <? timeLimit.

(** [addVote(userId, voteType)], up to the [save]. *)
Definition addVote (userId : ObjectId) (voteType : string) (r : Report)
  : Report :=
  if String.eqb voteType "confirm" then
    let disputes' := filter (λ id, id ≠ userId) (disputes (votes r)) in
    let confirms' :=
      if bool_decide (userId ∈ confirms (votes r))
      then confirms (votes r)
      else confirms (votes r) ++ [userId] in
    set_votes {| confirms := confirms'; disputes := disputes' |} r
  else
    let confirms' := filter (λ id, id ≠ userId) (confirms (votes r)) in
    let disputes' :=
      if bool_decide (userId ∈ disputes (votes r))
      then disputes (votes r)
      else disputes (votes r) ++ [userId] in
    set_votes {| confirms := confirms'; disputes := disputes' |} r.

Definition removeVote (userId : ObjectId) (r : Report) : Report :=
  set_votes
    {| confirms := filter (λ id, id ≠ userId) (confirms (votes r));
       disputes := filter (λ id, id ≠ userId) (disputes (votes r)) |} r.

Definition incrementViews (r : Report) : Report :=
  set_viewsCount (viewsCount r + 1) r.

(** *** The query of [findNearby] *)

Record Filters := {
  f_category : option string;
  f_severity : option Z;
  f_status : option string;
  f_since : option Date;
}.

Inductive StatusCond :=
| StatusIs (s : string)
| StatusIn (l : list string).

Record Query := {
  q_campusId : ObjectId;
  q_near : option (Q * Q * Z);
  q_category : option string;
  q_severityGte : option Z;
  q_status : option StatusCond;
  q_createdAtGte : option Date;
}.

Definition findNearbyQuery (campusId : ObjectId) (longitude latitude : Q)
    (radiusMeters : Z) (filters : Filters) : Query :=
  {| q_campusId := campusId;
     q_near := Some (longitude, latitude, radiusMeters);
     q_category :=
       if Js.truthyStr (f_category filters) then f_category filters else None;
     q_severityGte :=
       if Js.truthyNum (f_severity filters) then f_severity filters else None;
     q_status :=
       Some (match f_status filters with
             | Some s =>
                 if String.eqb s ""
                 then StatusIn ["reported"; "verified"; "investigating"; "resolved"]
                 else StatusIs s
             | None =>
                 StatusIn ["reported"; "verified"; "investigating"; "resolved"]
             end);
     q_createdAtGte := f_since filters |}.

Section Find.

(** The geospatial predicate of the store, [$near] with [$maxDistance]:
    whether the stored point lies within the given number of meters of
    the point [(longitude, latitude)].  It belongs to the database. *)
Variable withinMeters : list Q → Q → Q → Z → bool.

Definition holds {A} (c : option A) (p : A → bool) : bool :=
  match c with
  | Some a => p a
  | None => true
  end.

Definition matches (q : Query) (r : Report) : bool :=
  Pos.eqb (campusId r) (q_campusId q)
  && holds (q_near q)
       (λ '(lon, lat, d), withinMeters (coordinates (location r)) lon lat d)
  && holds (q_category q) (λ c, String.eqb (category r) c)
  && holds (q_severityGte q) (λ s, s <=? severity r)
  && holds (q_status q)
       (λ c, match c with
             | StatusIs s => String.eqb (status r) s
             | StatusIn l => bool_decide (status r ∈ l)
             end)
  && holds (q_createdAtGte q) (λ d, d <=? createdAt r).

(** [{ createdAt: -1 }] *)
Definition newerFirst (a b : Report) : Prop := createdAt b ≤ createdAt a.

#[local] Instance newerFirst_dec a b : Decision (newerFirst a b).
Proof. unfold newerFirst. apply _. Defined.

(** [this.find(query).sort({ createdAt: -1 })] over the collection. *)
Definition findNearby (collection : gmap ObjectId Report)
    (campusId : ObjectId) (longitude latitude : Q) (radiusMeters : Z)
    (filters : Filters) : list Report :=
  merge_sort newerFirst
    (filter (λ r, matches
                    (findNearbyQuery campusId longitude latitude
                       radiusMeters filters) r = true)
       (snd <$> map_to_list collection)).

End Find.

End ReportSchema.

(** ** The world the handlers run in *)

Module Http.

Import ReportSchema.

Inductive Data :=
| DNone
| DReport (report : Report)
| DReports (reports : list Report) (count : Z)
| DVotes (confirmCount disputeCount netVotes : Z)
| DComment (comment : CommentSchema.Comment)
| DErrors (fields : list string).

Record Response := {
  code : Z;
  success : bool;
  message : string;
  data : Data;
}.

Definition json (code : Z) (success : bool) (message : string) (data : Data)
  : Response :=
  {| code := code; success := success; message := message; data := data |}.

(** A request: the user the bearer token resolves to (if any), the client
    address, the clock reading taken while it is served, [params.id] and
    the body (or query). *)
Record Request (B : Type) := {
  tokenUser : option UserSchema.User;
  ip : string;
  now : Date;
  id : ObjectId;
  body : B;
}.
Arguments tokenUser {B} _.
Arguments ip {B} _.
Arguments now {B} _.
Arguments id {B} _.
Arguments body {B} _.

End Http.

Module Store.

Import ReportSchema.

Inductive Room :=
| CampusRoom (campusId : ObjectId)
| ReportRoom (reportId : ObjectId)
| ModeratorRoom (campusId : ObjectId)
| AdminRoom (campusId : ObjectId).

Inductive EventData :=
| ENewReport (report : Report)
| EEdited (title description category : string) (severity : Z)
    (mediaUrls : list string) (isEdited : bool) (editedAt : option Date)
| EModerated (status : string) (moderatorNotes : option string)
    (resolvedBy : option ObjectId) (resolvedAt : option Date)
    (assignedTo : option ObjectId)
| ENewComment (comment : CommentSchema.Comment).

Record Emit := {
  room : Room;
  event : string;
  reportId : option ObjectId;
  payload : EventData;
}.

Inductive Line :=
| LogEmitted (what : string) (target : ObjectId)
| LogHighSeverity (reportId : ObjectId)
| LogInfo (what : string)
| LogError (what : string).

Record World := {
  reports : gmap ObjectId Report;
  users : gmap ObjectId UserSchema.User;
  campuses : gmap ObjectId CampusSchema.Campus;
  comments : list CommentSchema.Comment;
  auditLogs : list AuditLogSchema.AuditLog;
  notifications : list NotificationSchema.Notification;
  io : bool;
  emitted : list Emit;
  console : list Line;
  limiterHits : gmap string (Z * Date);
  nextId : ObjectId;
}.

Definition set_reports (f : gmap ObjectId Report → gmap ObjectId Report)
    (w : World) : World :=
  {| reports := f (reports w); users := users w; campuses := campuses w;
     comments := comments w; auditLogs := auditLogs w;
     notifications := notifications w; io := io w; emitted := emitted w;
     console := console w; limiterHits := limiterHits w;
     nextId := nextId w |}.

Definition set_comments
    (f : list CommentSchema.Comment → list CommentSchema.Comment)
    (w : World) : World :=
  {| reports := reports w; users := users w; campuses := campuses w;
     comments := f (comments w); auditLogs := auditLogs w;
     notifications := notifications w; io := io w; emitted := emitted w;
     console := console w; limiterHits := limiterHits w;
     nextId := nextId w |}.

Definition set_auditLogs
    (f : list AuditLogSchema.AuditLog → list AuditLogSchema.AuditLog)
    (w : World) : World :=
  {| reports := reports w; users := users w; campuses := campuses w;
     comments := comments w; auditLogs := f (auditLogs w);
     notifications := notifications w; io := io w; emitted := emitted w;
     console := console w; limiterHits := limiterHits w;
     nextId := nextId w |}.

Definition set_notifications
    (f : list NotificationSchema.Notification
         → list NotificationSchema.Notification)
    (w : World) : World :=
  {| reports := reports w; users := users w; campuses := campuses w;
     comments := comments w; auditLogs := auditLogs w;
     notifications := f (notifications w); io := io w;
     emitted := emitted w;
     console := console w; limiterHits := limiterHits w;
     nextId := nextId w |}.

Definition set_emitted (f : list Emit → list Emit) (w : World) : World :=
  {| reports := reports w; users := users w; campuses := campuses w;
     comments := comments w; auditLogs := auditLogs w;
     notifications := notifications w; io := io w;
     emitted := f (emitted w);
     console := console w; limiterHits := limiterHits w;
     nextId := nextId w |}.

Definition set_console (f : list Line → list Line) (w : World) : World :=
  {| reports := reports w; users := users w; campuses := campuses w;
     comments := comments w; auditLogs := auditLogs w;
     notifications := notifications w; io := io w; emitted := emitted w;
     console := f (console w); limiterHits := limiterHits w;
     nextId := nextId w |}.

Definition set_limiterHits
    (f : gmap string (Z * Date) → gmap string (Z * Date)) (w : World)
  : World :=
  {| reports := reports w; users := users w; campuses := campuses w;
     comments := comments w; auditLogs := auditLogs w;
     notifications := notifications w; io := io w; emitted := emitted w;
     console := console w; limiterHits := f (limiterHits w);
     nextId := nextId w |}.

Definition set_nextId (f : ObjectId → ObjectId) (w : World) : World :=
  {| reports := reports w; users := users w; campuses := campuses w;
     comments := comments w; auditLogs := auditLogs w;
     notifications := notifications w; io := io w; emitted := emitted w;
     console := console w; limiterHits := limiterHits w;
     nextId := f (nextId w) |}.

(** *** The monad of handlers: state and exceptions *)

Inductive Result (A : Type) :=
| Ok (a : A)
| Thrown (error : string).
Arguments Ok {A} _.
Arguments Thrown {A} _.

Definition M (A : Type) : Type := World → Result A * World.

#[global] Instance M_ret : MRet M := λ A a w, (Ok a, w).

#[global] Instance M_bind : MBind M := λ A B f m w,
  match m w with
  | (Ok a, w') => f a w'
  | (Thrown e, w') => (Thrown e, w')
  end.

Definition throw {A} (e : string) : M A := λ w, (Thrown e, w).

(** [try { m } catch (error) { h error }] *)
Definition tryCatch {A} (m : M A) (h : string → M A) : M A := λ w,
  match m w with
  | (Ok a, w') => (Ok a, w')
  | (Thrown e, w') => h e w'
  end.

Definition get : M World := λ w, (Ok w, w).
Definition modify (f : World → World) : M unit := λ w, (Ok tt, f w).

Definition consoleLog (l : Line) : M unit :=
  modify (set_console (λ c, c ++ [l])).

Definition freshId : M ObjectId := λ w,
  (Ok (nextId w), set_nextId Pos.succ w).

End Store.

(** ** The models' persistence operations and the socket service *)

Module Models.

Import ReportSchema Store.

Definition validCategory (c : string) : bool := bool_decide (c ∈ categoryEnum).
Definition validSeverity (s : Z) : bool := (1 <=? s) && (s <=? 5).
Definition validTitle (t : string) : bool :=
  negb (String.eqb t "") && (String.length t <=? 200)%nat.
Definition validDescription (d : string) : bool :=
  negb (String.eqb d "") && (String.length d <=? 2000)%nat.
Definition validMediaUrls (m : list string) : bool := (length m <=? 10)%nat.
Definition validStatus (s : string) : bool := bool_decide (s ∈ statusEnum).
Definition validModeratorNotes (n : option string) : bool :=
  match n with
  | Some s => (String.length s <=? 1000)%nat
  | None => true
  end.

(** [save] validates the paths that were modified. *)
Definition validOrSame {A} `{EqDecision A} (ok : A → bool) (old new : A)
  : bool :=
  bool_decide (old = new) || ok new.

Definition validateModified (old r : Report) : bool :=
  validOrSame validTitle (title old) (title r)
  && validOrSame validDescription (description old) (description r)
  && validOrSame validCategory (category old) (category r)
  && validOrSame validSeverity (severity old) (severity r)
  && validOrSame validMediaUrls (mediaUrls old) (mediaUrls r)
  && validOrSame validStatus (status old) (status r)
  && validOrSame validModeratorNotes (moderatorNotes old) (moderatorNotes r).

Definition Report_findById (id : ObjectId) : M (option Report) :=
  w ← get; mret (reports w !! id).

Definition Report_save (r : Report) : M unit :=
  w ← get;
  match reports w !! _id r with
  | Some old =>
      if validateModified old r
      then modify (set_reports (<[_id r := r]>))
      else throw "ValidationError"
  | None => throw "DocumentNotFoundError"
  end.

(** The document [Report.create] is given by the controller. *)
Record NewReport := {
  n_reporterId : ObjectId;
  n_campusId : ObjectId;
  n_category : option string;
  n_severity : option Z;
  n_title : option string;
  n_description : option string;
  n_coordinates : list Q;
  n_mediaUrls : list string;
  n_isAnonymous : bool;
}.

(** [Report.create(doc)]: required paths, validators, schema defaults, a
    fresh [_id] and the creation timestamp. *)
Definition Report_create (now : Date) (doc : NewReport) : M Report :=
  match n_category doc, n_severity doc, n_title doc, n_description doc with
  | Some c, Some s, Some t, Some d =>
      if validCategory c && validSeverity s && validTitle (Js.trim t)
         && validDescription d && validCoordinates (n_coordinates doc)
         && validMediaUrls (n_mediaUrls doc)
      then
        id ← freshId;
        let r :=
          {| _id := id; reporterId := n_reporterId doc;
             campusId := n_campusId doc; category := c; severity := s;
             title := Js.trim t; description := d;
             location := {| type := "Point";
                            coordinates := n_coordinates doc |};
             mediaUrls := n_mediaUrls doc;
             isAnonymous := n_isAnonymous doc; status := "reported";
             resolvedBy := None; resolvedAt := None;
             moderatorNotes := None; assignedTo := None;
             votes := {| confirms := []; disputes := [] |};
             commentsCount := 0; viewsCount := 0; spamReports := [];
             isSpam := false; isEdited := false; editedAt := None;
             editHistory := []; createdAt := now |} in
        modify (set_reports (<[id := r]>)) ;;
        mret r
      else throw "ValidationError"
  | _, _, _, _ => throw "ValidationError"
  end.

Definition Report_addVote (userId : ObjectId) (voteType : string)
    (r : Report) : M Report :=
  let r' := addVote userId voteType r in
  Report_save r' ;; mret r'.

Definition Report_incrementViews (r : Report) : M Report :=
  let r' := incrementViews r in
  Report_save r' ;; mret r'.

Definition User_findById (id : ObjectId) : M (option UserSchema.User) :=
  w ← get; mret (users w !! id).

(** [AuditLog.logAction(data)], [payload] defaulting to the empty object
    and [changes] to [null]. *)
Definition AuditLog_logAction (actorId : ObjectId) (action entityType : string)
    (entityId : ObjectId) (payload : option AuditLogSchema.Mixed)
    (changes : option AuditLogSchema.Changes) : M unit :=
  modify (set_auditLogs (λ l, l ++
    [ {| AuditLogSchema.reportId := None;
         AuditLogSchema.actorId := actorId;
         AuditLogSchema.action := action;
         AuditLogSchema.entityType := entityType;
         AuditLogSchema.entityId := Some entityId;
         AuditLogSchema.payload := default AuditLogSchema.MEmpty payload;
         AuditLogSchema.changes := changes |} ])).

Definition Notification_createNotification
    (n : NotificationSchema.Notification) : M unit :=
  modify (set_notifications (λ l, l ++ [n])).

Definition validContent (c : string) : bool :=
  (1 <=? String.length c)%nat && (String.length c <=? 500)%nat.

Definition Comment_create (now : Date) (reportId userId : ObjectId)
    (content : string) (isAnonymous : bool) : M CommentSchema.Comment :=
  if negb (validContent (Js.trim content)) then throw "ValidationError" else
  id ← freshId;
  let c :=
    {| CommentSchema._id := id; CommentSchema.reportId := reportId;
       CommentSchema.userId := userId;
       CommentSchema.content := Js.trim content;
       CommentSchema.isAnonymous := isAnonymous;
       CommentSchema.isDeleted := false;
       CommentSchema.createdAt := now |} in
  modify (set_comments (λ l, l ++ [c])) ;;
  mret c.

End Models.

(** services/socketService.js: every emitter returns at once while the
    socket server is not initialised. *)
Module SocketService.

Import Store.

Definition emitTo (room : Room) (event : string) (reportId : option ObjectId)
    (payload : EventData) : M unit :=
  modify (set_emitted (λ l, l ++
    [ {| room := room; event := event; reportId := reportId;
         payload := payload |} ])).

Definition emitNewReport (campusId : ObjectId) (report : ReportSchema.Report)
  : M unit :=
  w ← get;
  if negb (io w) then mret tt
  else
    emitTo (CampusRoom campusId) "new_report" None (ENewReport report) ;;
    consoleLog (LogEmitted "new report to campus" campusId).

Definition emitReportUpdate (campusId reportId : ObjectId)
    (updates : EventData) : M unit :=
  w ← get;
  if negb (io w) then mret tt
  else
    emitTo (CampusRoom campusId) "report_update" (Some reportId) updates ;;
    emitTo (ReportRoom reportId) "report_update" (Some reportId) updates ;;
    consoleLog (LogEmitted "report update" reportId).

Definition emitNewComment (reportId : ObjectId)
    (comment : CommentSchema.Comment) : M unit :=
  w ← get;
  if negb (io w) then mret tt
  else
    emitTo (ReportRoom reportId) "new_comment" (Some reportId)
      (ENewComment comment) ;;
    consoleLog (LogEmitted "new comment to report" reportId).

End SocketService.

(** ** middlewares/validate.js and middlewares/validateReports.js *)

Module Validate.

Import ReportSchema Http Store.

Record NearbyQuery := {
  lat : option Q;
  lon : option Q;
  radius : option Z;
  nq_category : option string;
  nq_severity : option Z;
  nq_status : option string;
  since : option Date;
  limit : option Z;
}.

Record BodyLocation := {
  l_type : option string;
  l_coordinates : option (list Q);
}.

Record CreateBody := {
  c_category : option string;
  c_severity : option Z;
  c_title : option string;
  c_description : option string;
  c_location : option BodyLocation;
  c_mediaUrls : option (list string);
  c_isAnonymous : option bool;
}.

Record UpdateBody := {
  u_title : option string;
  u_description : option string;
  u_category : option string;
  u_severity : option Z;
  u_mediaUrls : option (list string);
}.

Record VoteBody := { vote : option string }.

Record CommentBody := {
  content : option string;
  cb_isAnonymous : option bool;
}.

(** The rules of Joi used by the schemas; [None] is a validation error,
    [Some v] the converted value. *)
Definition joiString (lo hi : nat) (s : string) : option string :=
  let t := Js.trim s in
  if (lo <=? String.length t)%nat && (String.length t <=? hi)%nat
  then Some t else None.

Definition joiValid (allowed : list string) (s : string) : option string :=
  if bool_decide (s ∈ allowed) then Some s else None.

Definition joiNumber (lo hi : Z) (n : Z) : option Z :=
  if (lo <=? n) && (n <=? hi) then Some n else None.

Definition joiRange (lo hi : Q) (q : Q) : option Q :=
  if Qle_bool lo q && Qle_bool q hi then Some q else None.

Definition optional {A} (rule : A → option A) (v : option A)
  : option (option A) :=
  match v with
  | Some x => Some <$> rule x
  | None => Some None
  end.

Definition required {A} (rule : A → option A) (v : option A)
  : option (option A) :=
  match v with
  | Some x => Some <$> rule x
  | None => None
  end.

Definition withDefault {A} (d : A) (rule : A → option A) (v : option A)
  : option (option A) :=
  match v with
  | Some x => Some <$> rule x
  | None => Some (Some d)
  end.

Definition provided {A} (v : option A) : bool :=
  match v with
  | Some _ => true
  | None => false
  end.

Section Schemas.

(** Joi's [string().uri()] rule. *)
Variable isUri : string → bool.

Definition joiUris (max : nat) (l : list string) : option (list string) :=
  if forallb isUri l && (length l <=? max)%nat then Some l else None.

Definition getNearbySchema (q : NearbyQuery) : option NearbyQuery :=
  la ← required (joiRange (-90) 90) (lat q);
  lo ← required (joiRange (-180) 180) (lon q);
  ra ← withDefault 1000 (joiNumber 100 10000) (radius q);
  ca ← optional (joiValid categoryEnum) (nq_category q);
  se ← optional (joiNumber 1 5) (nq_severity q);
  st ← optional (joiValid statusEnum) (nq_status q);
  li ← withDefault 100 (joiNumber 1 500) (limit q);
  Some {| lat := la; lon := lo; radius := ra; nq_category := ca;
          nq_severity := se; nq_status := st; since := since q;
          limit := li |}.

Definition locationSchema (l : BodyLocation) : option BodyLocation :=
  ty ← withDefault "Point" (joiValid ["Point"]) (l_type l);
  co ← required (λ c, if (length c =? 2)%nat then Some c else None)
         (l_coordinates l);
  Some {| l_type := ty; l_coordinates := co |}.

Definition createReportSchema (b : CreateBody) : option CreateBody :=
  ca ← required (joiValid categoryEnum) (c_category b);
  se ← required (joiNumber 1 5) (c_severity b);
  ti ← required (joiString 5 200) (c_title b);
  de ← required (joiString 10 2000) (c_description b);
  lo ← required locationSchema (c_location b);
  me ← withDefault [] (joiUris 10) (c_mediaUrls b);
  an ← withDefault false Some (c_isAnonymous b);
  Some {| c_category := ca; c_severity := se; c_title := ti;
          c_description := de; c_location := lo; c_mediaUrls := me;
          c_isAnonymous := an |}.

Definition updateReportSchema (b : UpdateBody) : option UpdateBody :=
  ti ← optional (joiString 5 200) (u_title b);
  de ← optional (joiString 10 2000) (u_description b);
  ca ← optional (joiValid categoryEnum) (u_category b);
  se ← optional (joiNumber 1 5) (u_severity b);
  me ← optional (joiUris 10) (u_mediaUrls b);
  (* .min(1): at least one field must be provided *)
  if provided ti || provided de || provided ca || provided se
     || provided me
  then Some {| u_title := ti; u_description := de; u_category := ca;
               u_severity := se; u_mediaUrls := me |}
  else None.

Definition voteSchema (b : VoteBody) : option VoteBody :=
  v ← required (joiValid ["confirm"; "dispute"]) (vote b);
  Some {| vote := v |}.

Definition commentSchema (b : CommentBody) : option CommentBody :=
  c ← required (joiString 1 500) (content b);
  a ← withDefault false Some (cb_isAnonymous b);
  Some {| content := c; cb_isAnonymous := a |}.

End Schemas.

Definition set_body {B} (b : B) (req : Request B) : Request B :=
  {| tokenUser := tokenUser req; ip := ip req; now := now req;
     id := id req; body := b |}.

(** [validate(schema, property)]: a 400 listing the errors, or the request
    with the property replaced by the validated value. *)
Definition validate {B} (schema : B → option B) (property : string)
    (req : Request B) : M (Response + Request B) :=
  consoleLog (LogInfo (String.append "[Validation] Validating " property)) ;;
  match schema (body req) with
  | None =>
      consoleLog (LogError "[Validation] Validation failed") ;;
      mret (inl (json 400 false "Validation failed" (DErrors [property])))
  | Some value => mret (inr (set_body value req))
  end.

End Validate.

(** ** controllers/reports.controller.js *)

Module Reports.

Import UserSchema ReportSchema Http Store Models SocketService Validate.

Definition truthyQ (q : option Q) : bool :=
  match q with
  | Some x => negb (Qeq_bool x 0)
  | None => false
  end.

(** [cursor.limit(n)]: [0] is no limit, a negative [n] limits to [-n]. *)
Definition limitTo {A} (n : Z) (l : list A) : list A :=
  if n =? 0 then l else take (Z.abs_nat n) l.

(** [if (v) report.field = v] *)
Definition assignStr (v : option string) (set : string → Report → Report)
    (r : Report) : Report :=
  if Js.truthyStr v then set (default "" v) r else r.

Definition assignNum (v : option Z) (set : Z → Report → Report)
    (r : Report) : Report :=
  if Js.truthyNum v then set (default 0 v) r else r.

Definition assignArr (v : option (list string))
    (set : list string → Report → Report) (r : Report) : Report :=
  match v with
  | Some l => set l r
  | None => r
  end.

(** [a >= b] on numbers, false as soon as one side is [undefined] or
    [NaN]. *)
Definition geNum (a b : option Z) : bool :=
  match a, b with
  | Some x, Some y => y <=? x
  | _, _ => false
  end.

Definition serverError (what message : string) : string → M Response :=
  λ _, consoleLog (LogError what) ;; mret (json 500 false message DNone).

(** [{ title: report.title, description: report.description,
      category: report.category, severity: report.severity }] *)
Definition contentOf (report : Report) : Fields.t :=
  {| Fields.title := title report;
     Fields.description := description report;
     Fields.category := category report;
     Fields.severity := severity report |}.

(** The part of [updateReport] between the [canEdit] guard and
    [report.save()]: the field updates, the edit flag and time, and the
    entry pushed on the edit history. *)
Definition applyUpdate (b : UpdateBody) (now : Date) (report : Report)
  : Report :=
  let title := u_title b in
  let description := u_description b in
  let category := u_category b in
  let severity := u_severity b in
  let mediaUrls := u_mediaUrls b in
  let report := assignStr title (λ t, set_title (Js.trim t)) report in
  let report := assignStr description set_description report in
  let report := assignStr category set_category report in
  let report := assignNum severity set_severity report in
  let report := assignArr mediaUrls set_mediaUrls report in
  let report :=
    set_edit true (Some now) (editHistory report) report in
  set_edit (isEdited report) (editedAt report)
    (editHistory report ++
     [ {| entryEditedAt := now;
          changes :=
            {| Fields.title := Js.orStr title (ReportSchema.title report);
               Fields.description :=
                 Js.orStr description (ReportSchema.description report);
               Fields.category :=
                 Js.orStr category (ReportSchema.category report);
               Fields.severity :=
                 Js.orNum severity (ReportSchema.severity report) |} |} ])
    report.

(** The two steps of [reportSpam] on the document: recording the flag,
    and the automatic marking at the threshold. *)
Definition addSpamReport (userId : ObjectId) (report : Report) : Report :=
  set_spamReports (spamReports report ++ [userId]) report.

Definition markAsSpam (report : Report) : Report :=
  let report := set_isSpam true report in
  set_status "spam" report.

Section Controller.

Variable env : Env.t.
Variable withinMeters : list Q → Q → Q → Z → bool.

Definition getNearbyReports (user : User) (req : Request NearbyQuery)
  : M Response :=
  tryCatch
    (let q := body req in
     let radius := default 1000 (radius q) in
     let limit := default 100 (limit q) in
     if negb (truthyQ (lat q)) || negb (truthyQ (lon q)) then
       mret (json 400 false "Latitude and longitude are required" DNone)
     else
       let latitude := default 0%Q (lat q) in
       let longitude := default 0%Q (lon q) in
       let filters :=
         {| f_category :=
              if Js.truthyStr (nq_category q) then nq_category q else None;
            f_severity :=
              if Js.truthyNum (nq_severity q) then nq_severity q else None;
            f_status :=
              if Js.truthyStr (nq_status q) then nq_status q else None;
            f_since := since q |} in
       w ← get;
       let reports :=
         limitTo limit
           (findNearby withinMeters (Store.reports w) (UserSchema.campusId user)
              longitude latitude radius filters) in
       mret (json 200 true "" (DReports reports (Z.of_nat (length reports)))))
    (serverError "Get nearby reports error:" "Failed to get nearby reports").

Definition getReportById (user : User) (req : Request unit) : M Response :=
  tryCatch
    (report ← Report_findById (id req);
     match report with
     | None => mret (json 404 false "Report not found" DNone)
     | Some report =>
         report ← Report_incrementViews report;
         mret (json 200 true "" (DReport report))
     end)
    (serverError "Get report by ID error:" "Failed to get report").

Definition createReport (user : User) (req : Request CreateBody)
  : M Response :=
  tryCatch
    (let b := body req in
     let mediaUrls := default [] (c_mediaUrls b) in
     let isAnonymous := default false (c_isAnonymous b) in
     match c_location b ≫= l_coordinates with
     | Some coordinates =>
         if negb (length coordinates =? 2)%nat then
           mret (json 400 false
                   "Valid location (GeoJSON Point) is required" DNone)
         else
           report ← Report_create (now req)
             {| n_reporterId := UserSchema._id user;
                n_campusId := UserSchema.campusId user;
                n_category := c_category b;
                n_severity := c_severity b;
                n_title := c_title b;
                n_description := c_description b;
                n_coordinates := coordinates;
                n_mediaUrls := mediaUrls;
                n_isAnonymous := isAnonymous |};
           AuditLog_logAction (UserSchema._id user) "create_report"
             "report" (_id report)
             (Some (AuditLogSchema.MCreate (category report)
                      (severity report) isAnonymous))
             None ;;
           emitNewReport (UserSchema.campusId user) report ;;
           (if geNum (c_severity b)
                 (Env.minSeverityForPush (Env.notifications env))
            then consoleLog (LogHighSeverity (_id report))
            else mret tt) ;;
           mret (json 201 true "Report created successfully"
                   (DReport report))
     | None =>
         mret (json 400 false
                 "Valid location (GeoJSON Point) is required" DNone)
     end)
    (serverError "Create report error:" "Failed to create report").

Definition updateReport (user : User) (req : Request UpdateBody)
  : M Response :=
  tryCatch
    (report ← Report_findById (id req);
     match report with
     | None => mret (json 404 false "Report not found" DNone)
     | Some report =>
         if negb (canEdit report (now req) (UserSchema._id user)
                    defaultTimeLimit)
         then
           mret (json 403 false
                   "Cannot edit report (time limit exceeded or not owner)"
                   DNone)
         else
           let oldValues := contentOf report in
           let report := applyUpdate (body req) (now req) report in
           Report_save report ;;
           emitReportUpdate (UserSchema.campusId user) (_id report)
             (EEdited (ReportSchema.title report)
                (ReportSchema.description report)
                (ReportSchema.category report)
                (ReportSchema.severity report)
                (ReportSchema.mediaUrls report) true (editedAt report)) ;;
           AuditLog_logAction (UserSchema._id user) "edit_report" "report"
             (_id report) None
             (Some
                {| AuditLogSchema.before := AuditLogSchema.MFields oldValues;
                   AuditLogSchema.after :=
                     AuditLogSchema.MFields (contentOf report) |}) ;;
           mret (json 200 true "Report updated successfully"
                   (DReport report))
     end)
    (serverError "Update report error:" "Failed to update report").

Definition deleteReport (user : User) (req : Request unit) : M Response :=
  tryCatch
    (report ← Report_findById (id req);
     match report with
     | None => mret (json 404 false "Report not found" DNone)
     | Some report =>
         if negb (Pos.eqb (reporterId report) (UserSchema._id user))
            && negb (canAdmin user)
         then
           mret (json 403 false "You can only delete your own reports"
                   DNone)
         else
           let report := set_status "invalid" report in
           Report_save report ;;
           AuditLog_logAction (UserSchema._id user) "delete_report"
             "report" (_id report) None None ;;
           mret (json 200 true "Report deleted successfully" DNone)
     end)
    (serverError "Delete report error:" "Failed to delete report").

Definition voteReport (user : User) (req : Request VoteBody) : M Response :=
  tryCatch
    (let vote := vote (body req) in
     if negb (bool_decide (vote ∈ [Some "confirm"; Some "dispute"])) then
       mret (json 400 false "Vote must be 'confirm' or 'dispute'" DNone)
     else
       report ← Report_findById (id req);
       match report with
       | None => mret (json 404 false "Report not found" DNone)
       | Some report =>
           report ← Report_addVote (UserSchema._id user)
                      (default "" vote) report;
           AuditLog_logAction (UserSchema._id user) "vote_report" "report"
             (_id report) (Some (AuditLogSchema.MVote (default "" vote)))
             None ;;
           mret (json 200 true "Vote recorded successfully"
                   (DVotes (confirmCount report) (disputeCount report)
                      (netVotes report)))
       end)
    (serverError "Vote report error:" "Failed to vote").

Definition addComment (user : User) (req : Request CommentBody)
  : M Response :=
  tryCatch
    (let content := content (body req) in
     let isAnonymous := default false (cb_isAnonymous (body req)) in
     if negb (Js.truthyStr content)
        || (String.length (Js.trim (default "" content)) =? 0)%nat
     then
       mret (json 400 false "Comment content is required" DNone)
     else
       report ← Report_findById (id req);
       match report with
       | None => mret (json 404 false "Report not found" DNone)
       | Some report =>
           comment ← Comment_create (now req) (id req)
                       (UserSchema._id user)
                       (Js.trim (default "" content)) isAnonymous;
           let report :=
             set_commentsCount (commentsCount report + 1) report in
           Report_save report ;;
           emitNewComment (id req) comment ;;
           (if negb (Pos.eqb (reporterId report) (UserSchema._id user))
            then
              Notification_createNotification
                {| NotificationSchema.userId := reporterId report;
                   NotificationSchema.reportId := Some (id req);
                   NotificationSchema.type := "comment_reply";
                   NotificationSchema.title := "New comment on your report";
                   NotificationSchema.message :=
                     String.append "Someone commented on your report: "
                       (ReportSchema.title report);
                   NotificationSchema.data :=
                     Some (CommentSchema._id comment);
                   NotificationSchema.priority := "low" |}
            else mret tt) ;;
           mret (json 201 true "Comment added successfully"
                   (DComment comment))
       end)
    (serverError "Add comment error:" "Failed to add comment").

Definition reportSpam (user : User) (req : Request unit) : M Response :=
  tryCatch
    (report ← Report_findById (id req);
     match report with
     | None => mret (json 404 false "Report not found" DNone)
     | Some report =>
         report ←
           (if negb (bool_decide (UserSchema._id user ∈ spamReports report))
            then
              let report := addSpamReport (UserSchema._id user) report in
              Report_save report ;; mret report
            else mret report);
         AuditLog_logAction (UserSchema._id user) "report_spam" "report"
           (_id report) None None ;;
         (if (5 <=? Z.of_nat (length (spamReports report)))
             && negb (isSpam report)
          then Report_save (markAsSpam report)
          else mret tt) ;;
         mret (json 200 true "Spam report submitted successfully" DNone)
     end)
    (serverError "Report spam error:" "Failed to report spam").

End Controller.

End Reports.

(** ** controllers/moderation.controller.js *)

Module Moderation.

Import UserSchema ReportSchema Http Store Models SocketService.

Record StatusBody := {
  status : option string;
  moderatorNotes : option string;
  assignedTo : option ObjectId;
}.

(** The audit action chosen from the requested status. *)
Definition actionOf (status : option string) : string :=
  if bool_decide (status = Some "verified") then "verify_report"
  else if bool_decide (status = Some "invalid") then "invalidate_report"
  else "resolve_report".

(** The [// Update fields] part of [updateReportStatus] that needs no
    lookup: the status, the resolution stamp and the notes. *)
Definition applyStatus (status moderatorNotes : option string)
    (userId : ObjectId) (now : Date) (report : Report) : Report :=
  let report :=
    if Js.truthyStr status then
      let report := set_status (default "" status) report in
      if bool_decide (status = Some "resolved")
      then set_resolved userId now report
      else report
    else report in
  if Js.truthyStr moderatorNotes
  then set_moderatorNotes (default "" moderatorNotes) report
  else report.

(** The assignment is kept only when the assignee is security staff. *)
Definition applyAssignment (assignedTo : option ObjectId) (report : Report)
  : M Report :=
  match assignedTo with
  | Some assignee =>
      assignedUser ← User_findById assignee;
      match assignedUser with
      | Some assignedUser =>
          if String.eqb (role assignedUser) "security"
          then mret (set_assignedTo assignee report)
          else mret report
      | None => mret report
      end
  | None => mret report
  end.

Definition updateReportStatus (user : User) (req : Request StatusBody)
  : M Response :=
  tryCatch
    (let status := status (body req) in
     let moderatorNotes := moderatorNotes (body req) in
     let assignedTo := assignedTo (body req) in
     report ← Report_findById (id req);
     match report with
     | None => mret (json 404 false "Report not found" DNone)
     | Some report =>
         if negb (Pos.eqb (ReportSchema.campusId report)
                    (UserSchema.campusId user))
            && negb (String.eqb (role user) "super-admin")
         then mret (json 403 false "Access denied to this campus" DNone)
         else
           let oldStatus := ReportSchema.status report in
           let report :=
             applyStatus status moderatorNotes (UserSchema._id user)
               (now req) report in
           report ← applyAssignment assignedTo report;
           Report_save report ;;
           AuditLog_logAction (UserSchema._id user) (actionOf status)
             "report" (_id report) None
             (Some {| AuditLogSchema.before :=
                        AuditLogSchema.MStatus oldStatus;
                      AuditLogSchema.after :=
                        AuditLogSchema.MStatus (ReportSchema.status report) |}) ;;
           (if negb (String.eqb oldStatus (ReportSchema.status report))
               && negb (Pos.eqb (reporterId report) (UserSchema._id user))
            then
              Notification_createNotification
                {| NotificationSchema.userId := reporterId report;
                   NotificationSchema.reportId := Some (_id report);
                   NotificationSchema.type := "moderator_action";
                   NotificationSchema.title := "Report Status Updated";
                   NotificationSchema.message :=
                     String.append "Your report has been "
                       (default "undefined" status);
                   NotificationSchema.data := None;
                   NotificationSchema.priority :=
                     if bool_decide (status = Some "resolved")
                     then "medium" else "low" |}
            else mret tt) ;;
           emitReportUpdate (UserSchema.campusId user) (_id report)
             (EModerated (ReportSchema.status report)
                (ReportSchema.moderatorNotes report) (resolvedBy report)
                (resolvedAt report) (ReportSchema.assignedTo report)) ;;
           mret (json 200 true "Report updated successfully"
                   (DReport report))
     end)
    (Reports.serverError "Update report status error:"
       "Failed to update report").

End Moderation.

(** ** middlewares/auth.js *)

Module Auth.

Import UserSchema Http Store.

(** [authenticate], from the point where the token has been resolved to a
    user: an unknown user is a 401, an inactive or banned one a 403. *)
Definition authenticate {B} (req : Request B) : Response + User :=
  match tokenUser req with
  | None => inl (json 401 false "User not found" DNone)
  | Some user =>
      if negb (isActive user)
      then inl (json 403 false "Account is deactivated" DNone)
      else if isBanned user
      then inl (json 403 false "Account is banned" DNone)
      else inr user
  end.

Definition requireRole (allowedRoles : list string) (user : User)
  : option Response :=
  if negb (bool_decide (role user ∈ allowedRoles))
  then Some (json 403 false "Insufficient permissions" DNone)
  else None.

Definition requireVerifiedEmail (user : User) : option Response :=
  if negb (isVerified user)
  then Some (json 403 false "Email verification required" DNone)
  else None.

End Auth.

(** ** middlewares/rateLimiter.js *)

Module RateLimiter.

Import Http Store.

Record Options := {
  windowMs : Z;
  max : Z;
  message : string;
}.

(** The middleware [rateLimit(options)] of express-rate-limit, with the
    options the source leaves at their defaults: requests are counted per
    client address ([req.ip]) in a window of [windowMs] that opens with
    the first counted request of the address; once the count exceeds [max]
    the request is answered 429 with [message]. *)
Definition keyGenerator {B} (req : Request B) : string := ip req.

Definition increment (o : Options) (key : string) (now : Date)
    (hits : gmap string (Z * Date)) : Z * gmap string (Z * Date) :=
  match hits !! key with
  | Some (n, resetTime) =>
      if now <? resetTime
      then (n + 1, <[key := (n + 1, resetTime)]> hits)
      else (1, <[key := (1, now + windowMs o)]> hits)
  | None => (1, <[key := (1, now + windowMs o)]> hits)
  end.

Definition rateLimit {B} (o : Options) (req : Request B)
  : M (option Response) :=
  w ← get;
  let '(totalHits, hits) :=
    increment o (keyGenerator req) (now req) (limiterHits w) in
  modify (set_limiterHits (λ _, hits)) ;;
  if max o <? totalHits
  then mret (Some (json 429 false (message o) DNone))
  else mret None.

Definition reportLimiter (env : Env.t) : Options :=
  {| windowMs := 60 * 60 * 1000;
     max :=
       if String.eqb (Env.nodeEnv env) "development" then 100
       else Js.orNum (Env.reportsPerHour (Env.rateLimit env)) 5;
     message :=
       "You have reached the maximum number of reports per hour. Please try again later." |}.

End RateLimiter.

(** ** routes/reports.routes.js and routes/moderation.routes.js *)

Module Routes.

Import UserSchema Http Store Validate Auth RateLimiter.

Section Routes.

Variable env : Env.t.
Variable withinMeters : list Q → Q → Q → Z → bool.
Variable isUri : string → bool.

(** [router.get("/nearby", authenticate, validate(getNearbySchema,
    "query"), getNearbyReports)] *)
Definition getNearby (req : Request NearbyQuery) : M Response :=
  match authenticate req with
  | inl res => mret res
  | inr user =>
      v ← validate getNearbySchema "query" req;
      match v with
      | inl res => mret res
      | inr req => Reports.getNearbyReports withinMeters user req
      end
  end.

(** [router.get("/:id", authenticate, getReportById)] *)
Definition getReport (req : Request unit) : M Response :=
  match authenticate req with
  | inl res => mret res
  | inr user => Reports.getReportById user req
  end.

(** [router.post("/", authenticate, requireVerifiedEmail, reportLimiter,
    validate(createReportSchema), createReport)] *)
Definition postReport (req : Request CreateBody) : M Response :=
  match authenticate req with
  | inl res => mret res
  | inr user =>
      match requireVerifiedEmail user with
      | Some res => mret res
      | None =>
          limited ← rateLimit (reportLimiter env) req;
          match limited with
          | Some res => mret res
          | None =>
              v ← validate (createReportSchema isUri) "body" req;
              match v with
              | inl res => mret res
              | inr req => Reports.createReport env user req
              end
          end
      end
  end.

(** [router.patch("/:id", authenticate, validate(updateReportSchema),
    updateReport)] *)
Definition patchReport (req : Request UpdateBody) : M Response :=
  match authenticate req with
  | inl res => mret res
  | inr user =>
      v ← validate (updateReportSchema isUri) "body" req;
      match v with
      | inl res => mret res
      | inr req => Reports.updateReport user req
      end
  end.

(** [router.delete("/:id", authenticate, deleteReport)] *)
Definition deleteReport (req : Request unit) : M Response :=
  match authenticate req with
  | inl res => mret res
  | inr user => Reports.deleteReport user req
  end.

(** [router.post("/:id/vote", authenticate, validate(voteSchema),
    voteReport)] *)
Definition postVote (req : Request VoteBody) : M Response :=
  match authenticate req with
  | inl res => mret res
  | inr user =>
      v ← validate voteSchema "body" req;
      match v with
      | inl res => mret res
      | inr req => Reports.voteReport user req
      end
  end.

(** [router.post("/:id/comment", authenticate, validate(commentSchema),
    addComment)] *)
Definition postComment (req : Request CommentBody) : M Response :=
  match authenticate req with
  | inl res => mret res
  | inr user =>
      v ← validate commentSchema "body" req;
      match v with
      | inl res => mret res
      | inr req => Reports.addComment user req
      end
  end.

(** [router.post("/:id/report-spam", authenticate, reportSpam)] *)
Definition postReportSpam (req : Request unit) : M Response :=
  match authenticate req with
  | inl res => mret res
  | inr user => Reports.reportSpam user req
  end.

(** [router.use(authenticate, requireRole(["moderator", "admin",
    "super-admin"]))] and [router.patch("/reports/:id",
    updateReportStatus)] *)
Definition patchModerationReport (req : Request Moderation.StatusBody)
  : M Response :=
  match authenticate req with
  | inl res => mret res
  | inr user =>
      match requireRole ["moderator"; "admin"; "super-admin"] user with
      | Some res => mret res
      | None => Moderation.updateReportStatus user req
      end
  end.

(** *** Sequences of requests *)

Inductive Op :=
| Create (req : Request CreateBody)
| Edit (req : Request UpdateBody)
| Retract (req : Request unit)
| Vote (req : Request VoteBody)
| Comment (req : Request CommentBody)
| FlagSpam (req : Request unit)
| View (req : Request unit)
| Nearby (req : Request NearbyQuery)
| ModeratorUpdate (req : Request Moderation.StatusBody).

Definition step (op : Op) : M Response :=
  match op with
  | Create req => postReport req
  | Edit req => patchReport req
  | Retract req => deleteReport req
  | Vote req => postVote req
  | Comment req => postComment req
  | FlagSpam req => postReportSpam req
  | View req => getReport req
  | Nearby req => getNearby req
  | ModeratorUpdate req => patchModerationReport req
  end.

Fixpoint run (ops : list Op) (w : World) : World :=
  match ops with
  | [] => w
  | op :: ops => run ops (step op w).2
  end.

End Routes.

(** The world of a server that has just started: users and campuses exist,
    nothing has been reported yet. *)
Definition initial (users : gmap ObjectId User)
    (campuses : gmap ObjectId CampusSchema.Campus) (io : bool)
    (nextId : ObjectId) : World :=
  {| reports := ∅; users := users; campuses := campuses; comments := [];
     auditLogs := []; notifications := []; io := io; emitted := [];
     console := []; limiterHits := ∅; nextId := nextId |}.

End Routes.

(** * Specification-side definitions *)

Import UserSchema ReportSchema Http Store Models Validate Routes.

Ltac munfold :=
  unfold tryCatch, Reports.serverError, Report_findById, Report_addVote,
    Report_incrementViews, User_findById, AuditLog_logAction,
    Notification_createNotification, SocketService.emitReportUpdate,
    SocketService.emitNewReport, SocketService.emitNewComment,
    SocketService.emitTo, consoleLog, freshId, get, modify, throw,
    mbind, M_bind, mret, M_ret.


(** ** How a request changes a stored report *)

(** The net effect of [reportSpam] on the document. *)
Definition flagged (userId : ObjectId) (r : Report) : Report :=
  let r1 :=
    if bool_decide (userId ∈ spamReports r) then r
    else Reports.addSpamReport userId r in
  if (5 <=? Z.of_nat (length (spamReports r1))) && negb (isSpam r1)
  then Reports.markAsSpam r1 else r1.

(** The net effect of [updateReportStatus] on the document; [assignee] is
    the requested assignee when it is security staff. *)
Definition moderated (status notes : option string) (assignee : option ObjectId)
    (userId : ObjectId) (now : Date) (r : Report) : Report :=
  let r1 := Moderation.applyStatus status notes userId now r in
  match assignee with
  | Some a => set_assignedTo a r1
  | None => r1
  end.

Inductive Change : Report → Report → Prop :=
| ch_edit b now r : Change r (Reports.applyUpdate b now r)
| ch_retract r : Change r (set_status "invalid" r)
| ch_vote u v r : Change r (addVote u v r)
| ch_comment r : Change r (set_commentsCount (commentsCount r + 1) r)
| ch_view r : Change r (incrementViews r)
| ch_flag u r : Change r (flagged u r)
| ch_moderate st notes asg u now r :
    validStatus (status (moderated st notes asg u now r)) = true
    ∨ status (moderated st notes asg u now r) = status r →
    Change r (moderated st notes asg u now r).

(** A document as [Report.create] stores it. *)
Definition Created (r : Report) : Prop :=
  status r = "reported" ∧ resolvedBy r = None ∧ resolvedAt r = None
  ∧ votes r = {| confirms := []; disputes := [] |}
  ∧ spamReports r = [] ∧ isSpam r = false
  ∧ isEdited r = false ∧ editHistory r = []
  ∧ commentsCount r = 0 ∧ viewsCount r = 0.

(** The collection is well keyed and the next identifier is fresh. *)
Definition wellKeyed (w : World) : Prop :=
  ∀ id r, reports w !! id = Some r → _id r = id ∧ (id < nextId w)%positive.

(** What a request may do to the collection of reports. *)
Inductive Evolves (w w' : World) : Prop :=
| ev_same :
    reports w' = reports w → (nextId w ≤ nextId w')%positive → Evolves w w'
| ev_change id r r' :
    reports w !! id = Some r → Change r r' →
    reports w' = <[id := r']> (reports w) →
    (nextId w ≤ nextId w')%positive → Evolves w w'
| ev_create r' :
    Created r' → _id r' = nextId w →
    reports w' = <[nextId w := r']> (reports w) →
    (nextId w < nextId w')%positive → Evolves w w'.


(** The requested assignee, when that user exists and is security staff. *)
Definition securityAssignee (w : World) (assignedTo : option ObjectId)
  : option ObjectId :=
  a ← assignedTo;
  u ← users w !! a;
  if String.eqb (role u) "security" then Some a else None.


Definition moderationAccess (user : User) (r : Report) : bool :=
  negb (negb (Pos.eqb (ReportSchema.campusId r) (UserSchema.campusId user))
        && negb (String.eqb (role user) "super-admin")).

(** The notification a status change sends to the reporter. *)
Definition statusNotification (st : option string) (r' : Report)
  : NotificationSchema.Notification :=
  {| NotificationSchema.userId := reporterId r';
     NotificationSchema.reportId := Some (_id r');
     NotificationSchema.type := "moderator_action";
     NotificationSchema.title := "Report Status Updated";
     NotificationSchema.message :=
       String.append "Your report has been " (default "undefined" st);
     NotificationSchema.data := None;
     NotificationSchema.priority :=
       if bool_decide (st = Some "resolved") then "medium" else "low" |}.

Definition statusAudit (user : User) (st : option string) (r r' : Report)
  : AuditLogSchema.AuditLog :=
  {| AuditLogSchema.reportId := None;
     AuditLogSchema.actorId := UserSchema._id user;
     AuditLogSchema.action := Moderation.actionOf st;
     AuditLogSchema.entityType := "report";
     AuditLogSchema.entityId := Some (_id r');
     AuditLogSchema.payload := AuditLogSchema.MEmpty;
     AuditLogSchema.changes :=
       Some {| AuditLogSchema.before := AuditLogSchema.MStatus (status r);
               AuditLogSchema.after := AuditLogSchema.MStatus (status r') |} |}.


Definition votesDisjoint (r : Report) : Prop :=
  ∀ u, ¬ (u ∈ confirms (votes r) ∧ u ∈ disputes (votes r)).

(** Unfolds the document transformations down to record constructions. *)
Ltac unfold_changes :=
  unfold flagged, moderated, Reports.applyUpdate, Reports.assignStr,
    Reports.assignNum, Reports.assignArr, Reports.addSpamReport,
    Reports.markAsSpam, Moderation.applyStatus, addVote, incrementViews,
    set_title, set_description, set_category, set_severity, set_mediaUrls,
    set_status, set_resolved, set_moderatorNotes, set_assignedTo, set_votes,
    set_commentsCount, set_viewsCount, set_spamReports, set_isSpam in *.


(** ** Sample data for the worked examples *)

Module Sample.

Definition student (id : ObjectId) : User :=
  {| UserSchema._id := id; role := "student"; UserSchema.campusId := 100;
     isVerified := true; isActive := true; isBanned := false |}.

Definition alice : User := student 1.
Definition bob : User := student 2.


Definition request {B} (user : User) (now : Date) (id : ObjectId) (body : B)
  : Request B :=
  {| tokenUser := Some user; ip := "10.0.0.1"; now := now; id := id;
     body := body |}.

Definition incident (severity : Z) : CreateBody :=
  {| c_category := Some "safety"; c_severity := Some severity;
     c_title := Some "Suspicious person near library";
     c_description := Some "Someone is trying the doors of parked cars";
     c_location :=
       Some {| l_type := None;
               l_coordinates := Some [(-12241 # 100)%Q; (3778 # 100)%Q] |};
     c_mediaUrls := None; c_isAnonymous := None |}.

Definition campus (minSeverityForPush reportsPerHour : Z)
  : CampusSchema.Campus :=
  {| CampusSchema._id := 100; CampusSchema.name := "North Campus";
     CampusSchema.code := "NORTH";
     CampusSchema.settings :=
       {| CampusSchema.notificationRadius := 500;
          CampusSchema.minSeverityForPush := minSeverityForPush;
          CampusSchema.reportsPerHour := reportsPerHour;
          CampusSchema.requireModeration := false;
          CampusSchema.allowAnonymous := true |};
     CampusSchema.isActive := true |}.

Definition anywhere : list Q → Q → Q → Z → bool := λ _ _ _ _, true.
Definition anyUri : string → bool := λ _, true.

(** A production environment with no variable of its own set. *)
Definition production : Env.t := Env.env {[ "NODE_ENV" := "production" ]}.

(** The server just started; identifiers are handed out from 1000. *)
Definition start : World := initial ∅ ∅ true 1000.

(** Alice has reported an incident of severity 3 at time 0; the report
    got the identifier 1000. *)
Definition reported : World :=
  run production anywhere anyUri [Create (request alice 0 1 (incident 3))]
    start.

End Sample.

(** ** Spam flags *)

(** The flags of a report are distinct users, and the report is marked as
    spam exactly when there are five of them or more. *)
Definition spamConsistent (r : Report) : Prop :=
  NoDup (spamReports r)
  ∧ isSpam r = bool_decide (5 ≤ length (spamReports r))%nat.

(** The reports after the users [actors] have flagged one after the other. *)
Definition flaggedBy (actors : list User) (r : Report) : Report :=
  foldl (λ r user, flagged (UserSchema._id user) r) r actors.

(** ** Resolution stamp *)


(** What the stored versions of one report have in common as requests are
    served: the transitive closure of [Change]. *)
Definition Later : Report → Report → Prop := rtc Change.

(** ** Edits *)





(** The fields of a report that an edit is not to touch. *)
Definition sameOutsideContent (r r' : Report) : Prop :=
  _id r' = _id r ∧ reporterId r' = reporterId r
  ∧ ReportSchema.campusId r' = ReportSchema.campusId r
  ∧ location r' = location r ∧ isAnonymous r' = isAnonymous r
  ∧ status r' = status r ∧ resolvedBy r' = resolvedBy r
  ∧ resolvedAt r' = resolvedAt r ∧ moderatorNotes r' = moderatorNotes r
  ∧ assignedTo r' = assignedTo r ∧ votes r' = votes r
  ∧ commentsCount r' = commentsCount r ∧ viewsCount r' = viewsCount r
  ∧ spamReports r' = spamReports r ∧ isSpam r' = isSpam r
  ∧ createdAt r' = createdAt r.


(** * Properties of the whole request cycle *)

(** ** Relations every request respects *)

(** A computation respects [R] when the world it leaves is [R]-related to
    the world it started in, whether it returns or throws. *)
Definition respects (R : relation World) {A} (m : M A) : Prop :=
  ∀ w, R w (m w).2.

(** The token user of the request of an operation. *)
Definition opUser (op : Op) : option User :=
  match op with
  | Create req => tokenUser req
  | Edit req => tokenUser req
  | Retract req => tokenUser req
  | Vote req => tokenUser req
  | Comment req => tokenUser req
  | FlagSpam req => tokenUser req
  | View req => tokenUser req
  | Nearby req => tokenUser req
  | ModeratorUpdate req => tokenUser req
  end.

(** The logs of the world only grow: what was written stays, in place. *)
Definition Grows (w w' : World) : Prop :=
  auditLogs w `prefix_of` auditLogs w'
  ∧ notifications w `prefix_of` notifications w'
  ∧ comments w `prefix_of` comments w'
  ∧ emitted w `prefix_of` emitted w'
  ∧ console w `prefix_of` console w'.

(** The fields of a report that identify it and that no request changes. *)
Definition sameIdentity (r r' : Report) : Prop :=
  _id r' = _id r ∧ reporterId r' = reporterId r
  ∧ ReportSchema.campusId r' = ReportSchema.campusId r
  ∧ location r' = location r ∧ isAnonymous r' = isAnonymous r
  ∧ createdAt r' = createdAt r.

(** ** Retracting, viewing and commenting *)

(** The audit entry an action on a report writes when it gives no payload
    and no changes. *)
Definition plainAudit (user : User) (action : string) (id : ObjectId)
  : AuditLogSchema.AuditLog :=
  {| AuditLogSchema.reportId := None;
     AuditLogSchema.actorId := UserSchema._id user;
     AuditLogSchema.action := action;
     AuditLogSchema.entityType := "report";
     AuditLogSchema.entityId := Some id;
     AuditLogSchema.payload := AuditLogSchema.MEmpty;
     AuditLogSchema.changes := None |}.

(** The world after a successful retraction of [r] by [user]. *)
Definition retracted (user : User) (r : Report) (w : World) : World :=
  set_auditLogs (λ l, l ++ [plainAudit user "delete_report" (_id r)])
    (set_reports (<[_id r := set_status "invalid" r]>) w).


(** The comment [addComment] creates, and the notification it sends to the
    reporter. *)
Definition newComment (user : User) (req : Request CommentBody) (w : World)
  : CommentSchema.Comment :=
  {| CommentSchema._id := nextId w;
     CommentSchema.reportId := id req;
     CommentSchema.userId := UserSchema._id user;
     CommentSchema.content := Js.trim (default "" (content (body req)));
     CommentSchema.isAnonymous := default false (cb_isAnonymous (body req));
     CommentSchema.isDeleted := false;
     CommentSchema.createdAt := now req |}.

Definition commentNotification (req : Request CommentBody) (r : Report)
    (commentId : ObjectId) : NotificationSchema.Notification :=
  {| NotificationSchema.userId := reporterId r;
     NotificationSchema.reportId := Some (id req);
     NotificationSchema.type := "comment_reply";
     NotificationSchema.title := "New comment on your report";
     NotificationSchema.message :=
       String.append "Someone commented on your report: " (title r);
     NotificationSchema.data := Some commentId;
     NotificationSchema.priority := "low" |}.

(** ** db/schemas/Comment.js: methods and statics *)

Module Comments.

Import CommentSchema.

(** [{ reportId, isDeleted: false }] *)
Definition visibleOn (reportId : ObjectId) (c : Comment) : bool :=
  Pos.eqb (CommentSchema.reportId c) reportId && negb (isDeleted c).

(** [{ createdAt: 1 }] *)
Definition earlierFirst (a b : Comment) : Prop := createdAt a ≤ createdAt b.

#[local] Instance earlierFirst_dec a b : Decision (earlierFirst a b).
Proof. unfold earlierFirst. apply _. Defined.

Definition findByReport (reportId : ObjectId) (collection : list Comment)
  : list Comment :=
  merge_sort earlierFirst
    (filter (λ c, visibleOn reportId c = true) collection).

Definition countByReport (reportId : ObjectId) (collection : list Comment)
  : nat :=
  length (filter (λ c, visibleOn reportId c = true) collection).

Definition defaultTimeLimit : Z := 10 * 60 * 1000.

Definition canEdit (c : Comment) (now : Date) (userId : ObjectId)
    (timeLimit : Z) : bool :=
  if isDeleted c then false
  else if negb (Pos.eqb (CommentSchema.userId c) userId) then false
  else now - createdAt c <? timeLimit.

End Comments.

(** The comment counts of the stored reports are the same in both worlds. *)
Definition sameCounts (w w' : World) : Prop :=
  ∀ i, commentsCount <$> reports w' !! i = commentsCount <$> reports w !! i.

(** The counter of every stored report is the number of its visible
    comments, and every comment is on a stored report. *)
Definition counted (w : World) : Prop :=
  (∀ i r, reports w !! i = Some r →
     commentsCount r = Z.of_nat (Comments.countByReport i (comments w)))
  ∧ ∀ c, c ∈ comments w → is_Some (reports w !! CommentSchema.reportId c).

(** An invariant as a relation between the worlds before and after. *)
Definition keeps (I : World → Prop) : relation World := λ w w', I w → I w'.

(** The comments are the same in both worlds. *)
Definition sameComments (w w' : World) : Prop := comments w' = comments w.

(** The invariant of the store: well keyed, and counted. *)
Definition tallied (w : World) : Prop := wellKeyed w ∧ counted w.

(** ** Votes *)

(** Nobody is listed twice among the voters of a report, in one list or
    across the two. *)
Definition oneVoteEach (r : Report) : Prop :=
  NoDup (confirms (votes r) ++ disputes (votes r)).

(** What a vote of [u] adds to the count of the side voted for, and takes
    from the other side. *)
Definition gain (u : ObjectId) (side : list ObjectId) : Z :=
  if bool_decide (u ∈ side) then 0 else 1.

Definition loss (u : ObjectId) (side : list ObjectId) : Z :=
  if bool_decide (u ∈ side) then 1 else 0.

(** ** services/socketService.js: the sockets and their rooms *)

Module Sockets.

(** The names of the rooms: [campus:<id>], [report:<id>] and
    [<role>:<campus>]. *)
Inductive Channel :=
| Campus (campusId : ObjectId)
| Report (reportId : ObjectId)
| Role (role : string) (campusId : ObjectId).

#[global] Instance Channel_eq_dec : EqDecision Channel.
Proof. solve_decision. Defined.

(** The name of the room an emitter sends to. *)
Definition channel (room : Room) : Channel :=
  match room with
  | CampusRoom c => Campus c
  | ReportRoom r => Report r
  | ModeratorRoom c => Role "moderator" c
  | AdminRoom c => Role "admin" c
  end.

Record Socket := {
  userId : ObjectId;
  campusId : ObjectId;
  role : string;
  rooms : list Channel;
}.

(** [socket.join(room)] and [socket.leave(room)]: the rooms of a socket
    are a set. *)
Definition join (c : Channel) (s : Socket) : Socket :=
  {| userId := userId s; campusId := campusId s; role := role s;
     rooms := if bool_decide (c ∈ rooms s) then rooms s else rooms s ++ [c] |}.

Definition leave (c : Channel) (s : Socket) : Socket :=
  {| userId := userId s; campusId := campusId s; role := role s;
     rooms := filter (λ x, x ≠ c) (rooms s) |}.

(** The middleware of [io.use], from the point where the token has been
    resolved to a user: [None] is the refusal of the connection. *)
Definition handshake (user : option User) : option Socket :=
  match user with
  | None => None
  | Some user =>
      if negb (isActive user) then None
      else Some {| userId := UserSchema._id user;
                   campusId := UserSchema.campusId user;
                   role := UserSchema.role user; rooms := [] |}
  end.

(** [io.on("connection", ...)], up to the registration of the listeners. *)
Definition connection (s : Socket) : Socket :=
  let s := join (Campus (campusId s)) s in
  if bool_decide (role s ∈ ["moderator"; "admin"; "super-admin"])
  then join (Role (role s) (campusId s)) s
  else s.

(** The messages a client sends, and what the listeners do to the rooms
    of its socket. *)
Inductive Message :=
| UpdateLocation
| Typing (reportId : ObjectId)
| JoinReport (reportId : ObjectId)
| LeaveReport (reportId : ObjectId).

Definition on (s : Socket) (m : Message) : Socket :=
  match m with
  | UpdateLocation => s
  | Typing _ => s
  | JoinReport r => join (Report r) s
  | LeaveReport r => leave (Report r) s
  end.

(** A client connects as [user] and then sends [messages]. *)
Definition session (user : option User) (messages : list Message)
  : option Socket :=
  s ← handshake user; Some (foldl on (connection s) messages).

(** [io.to(room).emit(...)] reaches the sockets that are in the room. *)
Definition receives (s : Socket) (room : Room) : bool :=
  bool_decide (channel room ∈ rooms s).

(** The rooms [emitModeratorAction(campusId, action)] emits to. *)
Definition moderatorActionRooms (campusId : ObjectId) : list Room :=
  [ModeratorRoom campusId; AdminRoom campusId].

(** The events a computation has emitted, from the world it started in. *)
Definition emittedBy {A} (m : M A) (w : World) : list Emit :=
  drop (length (emitted w)) (emitted (m w).2).

End Sockets.

(** ** utils/otp.js *)

Module Otp.





End Otp.

(** ** db/schemas/AuditLog.js: the enumerations and the statics *)

Module AuditLogs.

Import AuditLogSchema.


Definition entityTypeEnum : list string :=
  ["report"; "user"; "campus"; "comment"; "system"].

(** The entries are kept in the order of their creation, so
    [sort({ createdAt: -1 })] is the reverse of the collection. *)
Definition newestFirst (l : list AuditLog) : list AuditLog := reverse l.


(** [getUserActions(userId, limit = 100)] *)
Definition getUserActions (userId : ObjectId) (limit : option Z)
    (collection : list AuditLog) : list AuditLog :=
  Reports.limitTo (default 100 limit)
    (newestFirst (filter (λ e, actorId e = userId) collection)).

End AuditLogs.


(** ** Stored reports and the validators of the schema *)

(** The validators of the schema of reports hold of the document. *)
Definition schemaValid (r : Report) : Prop :=
  validTitle (title r) = true ∧ validDescription (description r) = true
  ∧ validCategory (category r) = true ∧ validSeverity (severity r) = true
  ∧ validMediaUrls (mediaUrls r) = true ∧ validStatus (status r) = true
  ∧ validModeratorNotes (moderatorNotes r) = true
  ∧ validCoordinates (coordinates (location r)) = true.

(** What a request may do to the collection of reports, with what the
    persistence layer checked on the way: nothing, a [save] of a stored
    document that passed the validation of its modified paths, or a
    [create] of a valid document. *)
Definition Saved (w w' : World) : Prop :=
  reports w' = reports w
  ∨ (∃ r r', reports w !! _id r = Some r ∧ _id r' = _id r
             ∧ validateModified r r' = true ∧ location r' = location r
             ∧ reports w' = <[_id r := r']> (reports w))
  ∨ (∃ r', Created r' ∧ schemaValid r'
           ∧ reports w' = <[nextId w := r']> (reports w)).

(** ** db/schemas/Notification.js: the enumerations and the validators *)

Module Notifications.

Import NotificationSchema.

Definition typeEnum : list string :=
  ["new_report"; "report_update"; "report_resolved"; "comment_reply";
   "vote_threshold"; "moderator_action"; "system_alert";
   "campus_announcement"].

Definition priorityEnum : list string := ["low"; "medium"; "high"; "urgent"].

(** The validation [Notification.create] runs. *)
Definition valid (n : Notification) : bool :=
  bool_decide (type n ∈ typeEnum)
  && negb (String.eqb (title n) "") && (String.length (title n) <=? 200)%nat
  && negb (String.eqb (message n) "")
  && (String.length (message n) <=? 500)%nat
  && bool_decide (priority n ∈ priorityEnum).

End Notifications.

(** The notifications are the same in both worlds. *)
Definition sameNotifications (w w' : World) : Prop :=
  notifications w' = notifications w.

(** The invariant of the store and of the notifications. *)
Definition wellFormed (w : World) : Prop :=
  wellKeyed w
  ∧ (∀ i r, reports w !! i = Some r → schemaValid r)
  ∧ Forall (λ n, Notifications.valid n = true) (notifications w).

(** ** utils/password.js *)

Module Password.










End Password.

(** ** utils/jwt.js, and the token stage of the middlewares *)

Module Jwt.

(** What [jwt.verify] throws. *)
Inductive VerifyError := TokenExpiredError | JsonWebTokenError.

(** The claims the server reads from a payload. *)
Record Payload := {
  id : ObjectId;
  type : string;
}.

(** A signed token: its payload, the registered claims [iss], [aud] and
    [exp] (in seconds), and the secret it was signed with. *)
Record Token := {
  payload : Payload;
  iss : option string;
  aud : option string;
  exp : Z;
  key : string;
}.

(** [jwt.sign(payload, secret, { expiresIn, issuer, audience })] at clock
    reading [now], in seconds. *)
Definition sign (now : Z) (payload : Payload) (secret : string)
    (expiresIn : Z) (issuer audience : option string) : Token :=
  {| payload := payload; iss := issuer; aud := audience;
     exp := now + expiresIn; key := secret |}.

(** [jwt.verify(token, secret, { issuer, audience })]: the signature, the
    expiry, the audience and the issuer, in this order. *)
Definition verify (now : Z) (token : Token) (secret issuer audience : string)
  : VerifyError + Payload :=
  if negb (String.eqb (key token) secret) then inl JsonWebTokenError
  else if exp token <=? now then inl TokenExpiredError
  else if negb (bool_decide (aud token = Some audience))
  then inl JsonWebTokenError
  else if negb (bool_decide (iss token = Some issuer))
  then inl JsonWebTokenError
  else inr (payload token).

Section Utils.

(** [env.jwt]: the secret, and the two expiries in seconds. *)
Variable secret : string.
Variable accessExpiry refreshExpiry : Z.

Definition generateAccessToken (now : Z) (user : User) : Token :=
  sign now {| id := UserSchema._id user; type := "access" |} secret
    accessExpiry (Some "campus-safety") (Some "campus-safety-api").

Definition generateRefreshToken (now : Z) (user : User) : Token :=
  sign now {| id := UserSchema._id user; type := "refresh" |} secret
    refreshExpiry (Some "campus-safety") (Some "campus-safety-api").

Definition generateTokenPair (now : Z) (user : User) : Token * Token :=
  (generateAccessToken now user, generateRefreshToken now user).

(** [verifyToken(token)]: [inl] is the message of the error thrown. *)
Definition verifyToken (now : Z) (token : Token) : string + Payload :=
  match verify now token secret "campus-safety" "campus-safety-api" with
  | inr decoded => inr decoded
  | inl TokenExpiredError => inl "Token has expired"
  | inl JsonWebTokenError => inl "Invalid token"
  end.

Definition generateVerificationToken (now : Z) (userId : ObjectId) : Token :=
  sign now {| id := userId; type := "email-verification" |} secret
    (24 * 60 * 60) (Some "campus-safety") None.

Definition generateResetToken (now : Z) (userId : ObjectId) : Token :=
  sign now {| id := userId; type := "password-reset" |} secret
    (60 * 60) (Some "campus-safety") None.

Definition verifySpecialToken (now : Z) (token : Token)
    (expectedType : string) : string + Payload :=
  match verifyToken now token with
  | inr decoded =>
      if negb (String.eqb (type decoded) expectedType)
      then inl "Invalid token type"
      else inr decoded
  | inl e => inl e
  end.

(** [authenticate] of middlewares/auth.js up to the lookup of the user,
    [token] being the bearer token of the request, if any. *)
Definition bearer (now : Z) (users : gmap ObjectId User)
    (token : option Token) : Response + option User :=
  match token with
  | None => inl (json 401 false "No token provided" DNone)
  | Some token =>
      match verifyToken now token with
      | inl message => inl (json 401 false message DNone)
      | inr decoded =>
          if negb (String.eqb (type decoded) "access")
          then inl (json 401 false "Invalid token type" DNone)
          else inr (users !! id decoded)
      end
  end.

(** The whole of [authenticate]. *)
Definition authenticate (now : Z) (users : gmap ObjectId User)
    (token : option Token) : Response + User :=
  match bearer now users token with
  | inl res => inl res
  | inr user =>
      Auth.authenticate
        {| tokenUser := user; ip := ""; Http.now := 0; Http.id := 1;
           body := tt |}
  end.

(** The middleware of [io.use] of services/socketService.js, from the
    token of the handshake. *)
Definition handshake (now : Z) (users : gmap ObjectId User)
    (token : option Token) : option Sockets.Socket :=
  match token with
  | None => None
  | Some token =>
      match verifyToken now token with
      | inl _ => None
      | inr decoded => Sockets.handshake (users !! id decoded)
      end
  end.

(** [refresh] of controllers/auth.controller.js: [inl] is the answer 401
    with its message, [inr] the new pair of tokens. *)
Definition refresh (now : Z) (users : gmap ObjectId User)
    (refreshToken : option Token) : string + Token * Token :=
  match refreshToken with
  | None => inl "Invalid token"
  | Some token =>
      match verifyToken now token with
      | inl message => inl message
      | inr decoded =>
          if negb (String.eqb (type decoded) "refresh")
          then inl "Invalid token type"
          else
            match users !! id decoded with
            | Some user =>
                if negb (isActive user) || isBanned user
                then inl "Invalid user"
                else inr (generateTokenPair now user)
            | None => inl "Invalid user"
            end
      end
  end.

End Utils.

End Jwt.

(** ** controllers/admin.controller.js and routes/admin.routes.js: users *)

Module Admin.

(** The roles of the schema of users. *)
Definition roleEnum : list string :=
  ["student"; "moderator"; "admin"; "security"; "super-admin"].

(** A stored user, with the two fields of a ban. *)
Record Account := {
  user : User;
  bannedReason : option string;
  bannedAt : option Date;
}.

(** The body of [PATCH /admin/users/:id]. *)
Record Body := {
  b_role : option string;
  b_isActive : option bool;
  b_isBanned : option bool;
  b_bannedReason : option string;
}.

(** The audit entry of an update, with its payload. *)
Record Entry := {
  actorId : ObjectId;
  action : string;
  entityType : string;
  entityId : ObjectId;
  p_role : option string;
  p_isActive : option bool;
  p_isBanned : option bool;
}.

Record State := {
  accounts : gmap ObjectId Account;
  log : list Entry;
}.

(** An answer: the status, the message and, on success, the user. *)
Record Reply := {
  code : Z;
  message : string;
  data : option User;
}.

Definition refusal (res : Response) : Reply :=
  {| code := Http.code res; message := Http.message res; data := None |}.

Definition set_role (v : string) (u : User) : User :=
  {| UserSchema._id := UserSchema._id u; role := v;
     UserSchema.campusId := UserSchema.campusId u;
     isVerified := isVerified u; isActive := isActive u;
     isBanned := isBanned u |}.

Definition set_isActive (v : bool) (u : User) : User :=
  {| UserSchema._id := UserSchema._id u; role := role u;
     UserSchema.campusId := UserSchema.campusId u;
     isVerified := isVerified u; isActive := v; isBanned := isBanned u |}.

Definition set_isBanned (v : bool) (u : User) : User :=
  {| UserSchema._id := UserSchema._id u; role := role u;
     UserSchema.campusId := UserSchema.campusId u;
     isVerified := isVerified u; isActive := isActive u; isBanned := v |}.

(** The [// Update fields] part of [updateUser]. *)
Definition applyBody (now : Date) (b : Body) (a : Account) : Account :=
  let u := user a in
  let u := if Js.truthyStr (b_role b) then set_role (default "" (b_role b)) u
           else u in
  let u := match b_isActive b with
           | Some v => set_isActive v u
           | None => u
           end in
  match b_isBanned b with
  | Some v =>
      {| user := set_isBanned v u; bannedReason := b_bannedReason b;
         bannedAt := if v then Some now else None |}
  | None =>
      {| user := u; bannedReason := bannedReason a; bannedAt := bannedAt a |}
  end.

(** [updateUser]; [save] validates the role when it was modified. *)
Definition updateUser (actor : User) (now : Date) (id : ObjectId) (b : Body)
    (s : State) : Reply * State :=
  match accounts s !! id with
  | None => ({| code := 404; message := "User not found"; data := None |}, s)
  | Some a =>
      if negb (Pos.eqb (UserSchema.campusId (user a))
                 (UserSchema.campusId actor))
         && negb (String.eqb (role actor) "super-admin")
      then ({| code := 403; message := "Access denied"; data := None |}, s)
      else
        let a' := applyBody now b a in
        if negb (bool_decide (role (user a') = role (user a))
                 || bool_decide (role (user a') ∈ roleEnum))
        then ({| code := 500; message := "Failed to update user";
                 data := None |}, s)
        else
          ({| code := 200; message := "User updated successfully";
              data := Some (user a') |},
           {| accounts := <[id := a']> (accounts s);
              log := log s ++
                [ {| actorId := UserSchema._id actor;
                     action := "change_user_role"; entityType := "user";
                     entityId := UserSchema._id (user a');
                     p_role := b_role b; p_isActive := b_isActive b;
                     p_isBanned := b_isBanned b |} ] |})
  end.

(** [router.use(authenticate, requireRole(["admin", "super-admin"]))] and
    [router.patch("/users/:id", updateUser)]: the token names the actor,
    who is looked up at every request. *)
Definition patchUser (actorId : ObjectId) (now : Date) (id : ObjectId)
    (b : Body) (s : State) : Reply * State :=
  match Auth.authenticate
          {| tokenUser := user <$> accounts s !! actorId; ip := "";
             Http.now := now; Http.id := id; body := b |} with
  | inl res => (refusal res, s)
  | inr actor =>
      match Auth.requireRole ["admin"; "super-admin"] actor with
      | Some res => (refusal res, s)
      | None => updateUser actor now id b s
      end
  end.

Definition promote : Body :=
  {| b_role := Some "super-admin"; b_isActive := None; b_isBanned := None;
     b_bannedReason := None |}.

Definition ban : Body :=
  {| b_role := None; b_isActive := None; b_isBanned := Some true;
     b_bannedReason := None |}.

End Admin.

(** ** More sample data *)

Module Cases.

Definition banned : User :=
  {| UserSchema._id := 3; role := "student"; UserSchema.campusId := 100;
     isVerified := true; isActive := true; isBanned := true |}.


Definition superAdmin : User :=
  {| UserSchema._id := 8; role := "super-admin"; UserSchema.campusId := 100;
     isVerified := true; isActive := true; isBanned := false |}.

Definition serve (ops : list Op) (w : World) : World :=
  run Sample.production Sample.anywhere Sample.anyUri ops w.

Definition handle (op : Op) (w : World) : Result Response * World :=
  step Sample.production Sample.anywhere Sample.anyUri op w.

(** The first request of every sample run: Alice reports an incident. *)
Definition report : Op :=
  Create (Sample.request Sample.alice 0 1 (Sample.incident 3)).

Definition hello : CommentBody :=
  {| content := Some " hello "; cb_isAnonymous := None |}.

Definition confirm : VoteBody := {| vote := Some "confirm" |}.

(** Bob has confirmed the report of Alice and commented on it. *)
Definition discussed : World :=
  serve [ report;
          Vote (Sample.request Sample.bob 60000 1000 confirm);
          Comment (Sample.request Sample.bob 61000 1000 hello) ]
    Sample.start.

Definition assignOnly : Moderation.StatusBody :=
  {| Moderation.status := None; Moderation.moderatorNotes := None;
     Moderation.assignedTo := Some 1%positive |}.

End Cases.

Module MoreCases.

Definition admin : Admin.Account :=
  {| Admin.user :=
       {| UserSchema._id := 10; role := "admin"; UserSchema.campusId := 100;
          isVerified := true; isActive := true; isBanned := false |};
     Admin.bannedReason := None; Admin.bannedAt := None |}.

Definition outsider : Admin.Account :=
  {| Admin.user :=
       {| UserSchema._id := 20; role := "student"; UserSchema.campusId := 200;
          isVerified := true; isActive := true; isBanned := false |};
     Admin.bannedReason := None; Admin.bannedAt := None |}.

Definition registry : Admin.State :=
  {| Admin.accounts := {[ 10%positive := admin; 20%positive := outsider ]};
     Admin.log := [] |}.



End MoreCases.
(** * Properties *)

(** ** Strings *)






(** ** The persistence layer *)

Lemma Report_save_ok w r old :
  reports w !! _id r = Some old →
  validateModified old r = true →
  Report_save r w = (Ok (), set_reports (<[_id r := r]>) w).
Proof.
  intros Hold Hv. unfold Report_save. munfold. rewrite Hold, Hv. reflexivity.
Qed.

Lemma Report_save_invalid w r old :
  reports w !! _id r = Some old →
  validateModified old r = false →
  Report_save r w = (Thrown "ValidationError", w).
Proof.
  intros Hold Hv. unfold Report_save. munfold. rewrite Hold, Hv. reflexivity.
Qed.

Lemma validOrSame_same {A} `{EqDecision A} (ok : A → bool) (x y : A) :
  x = y → validOrSame ok x y = true.
Proof.
  intros ->. unfold validOrSame. rewrite bool_decide_eq_true_2 by reflexivity.
  reflexivity.
Qed.

Lemma validOrSame_valid {A} `{EqDecision A} (ok : A → bool) (x y : A) :
  ok y = true → validOrSame ok x y = true.
Proof. intros Hy. unfold validOrSame. rewrite Hy. apply orb_true_r. Qed.

(** A save that touches no validated content path passes as soon as the
    status and the notes are unchanged or valid. *)
Lemma validateModified_frame old r :
  title r = title old → description r = description old →
  category r = category old → severity r = severity old →
  mediaUrls r = mediaUrls old →
  status r = status old ∨ validStatus (status r) = true →
  moderatorNotes r = moderatorNotes old
  ∨ validModeratorNotes (moderatorNotes r) = true →
  validateModified old r = true.
Proof.
  intros Ht Hd Hc Hs Hm Hst Hn. unfold validateModified.
  rewrite !validOrSame_same by done. cbn.
  apply andb_true_intro; split.
  - destruct Hst; [apply validOrSame_same | apply validOrSame_valid]; done.
  - destruct Hn; [apply validOrSame_same | apply validOrSame_valid]; done.
Qed.

Lemma assignStr_id v set r :
  (∀ s r, _id (set s r) = _id r) → _id (Reports.assignStr v set r) = _id r.
Proof. intros H. unfold Reports.assignStr. case_match; auto. Qed.

Lemma applyUpdate_id b now r : _id (Reports.applyUpdate b now r) = _id r.
Proof.
  unfold Reports.applyUpdate, Reports.assignStr, Reports.assignNum,
    Reports.assignArr.
  repeat case_match; reflexivity.
Qed.

Lemma addVote_id u v r : _id (addVote u v r) = _id r.
Proof. unfold addVote. repeat case_match; reflexivity. Qed.

Lemma flagged_id u r : _id (flagged u r) = _id r.
Proof. unfold flagged. repeat case_match; reflexivity. Qed.

Lemma applyStatus_id st notes u now r :
  _id (Moderation.applyStatus st notes u now r) = _id r.
Proof. unfold Moderation.applyStatus. repeat case_match; reflexivity. Qed.

Lemma moderated_id st notes asg u now r : _id (moderated st notes asg u now r) = _id r.
Proof.
  unfold moderated. destruct asg; cbn; apply applyStatus_id.
Qed.

Lemma Change_id r r' : Change r r' → _id r' = _id r.
Proof.
  destruct 1; auto using applyUpdate_id, addVote_id, flagged_id, moderated_id.
Qed.

Lemma Evolves_wellKeyed w w' : wellKeyed w → Evolves w w' → wellKeyed w'.
Proof.
  intros Hw [Hsame Hn | id r r' Hr Hch Hrep Hn | r' Hc Hid Hrep Hn] i x Hx.
  - rewrite Hsame in Hx. destruct (Hw i x Hx). split; [done|lia].
  - rewrite Hrep in Hx. destruct (decide (id = i)) as [->|Hne].
    + rewrite lookup_insert_eq in Hx. simplify_eq.
      destruct (Hw i r Hr). split; [|lia]. by rewrite (Change_id _ _ Hch).
    + rewrite lookup_insert_ne in Hx by done. destruct (Hw i x Hx). split; [done|lia].
  - rewrite Hrep in Hx. destruct (decide (nextId w = i)) as [<-|Hne].
    + rewrite lookup_insert_eq in Hx. simplify_eq. split; [done|lia].
    + rewrite lookup_insert_ne in Hx by done. destruct (Hw i x Hx). split; [done|lia].
Qed.

Lemma Report_save_cases w r old :
  _id r = _id old →
  reports w !! _id old = Some old →
  (validateModified old r = true
   ∧ Report_save r w = (Ok (), set_reports (<[_id old := r]>) w))
  ∨ Report_save r w = (Thrown "ValidationError", w).
Proof.
  intros Hid Hold. rewrite <- Hid in *. destruct (validateModified old r) eqn:Hv.
  - left. split; [done|]. by apply Report_save_ok with old.
  - right. by apply Report_save_invalid with old.
Qed.

Lemma Evolves_refl w : Evolves w w.
Proof. by apply ev_same. Qed.

#[local] Hint Resolve Evolves_refl : core.

(** Loads the report of a request, or finishes when there is none. *)
Ltac load Hw r Hr :=
  match goal with
  | |- context [reports ?w !! id ?req] =>
      destruct (reports w !! id req) as [r|] eqn:Hr;
      [ let Hid := fresh "Hid" in
        destruct (Hw _ _ Hr) as [Hid _]; rewrite <- Hid in *
      | try (by apply ev_same) ]
  end.

Lemma deleteReport_evolves user req w :
  wellKeyed w → Evolves w (Reports.deleteReport user req w).2.
Proof.
  intros Hw. unfold Reports.deleteReport. munfold. load Hw r Hr.
  destruct (negb _ && negb _); [by apply ev_same|].
  destruct (Report_save_cases w (set_status "invalid" r) r eq_refl Hr)
    as [[_ ->]| ->]; [|by apply ev_same].
  cbn. by eapply ev_change; [done | apply ch_retract | |].
Qed.

Lemma getReportById_evolves user req w :
  wellKeyed w → Evolves w (Reports.getReportById user req w).2.
Proof.
  intros Hw. unfold Reports.getReportById. munfold. load Hw r Hr.
  destruct (Report_save_cases w (incrementViews r) r eq_refl Hr)
    as [[_ ->]| ->]; [|by apply ev_same].
  cbn. by eapply ev_change; [done | apply ch_view | |].
Qed.

Lemma voteReport_evolves user req w :
  wellKeyed w → Evolves w (Reports.voteReport user req w).2.
Proof.
  intros Hw. unfold Reports.voteReport. munfold.
  destruct (negb _); [by apply ev_same|]. load Hw r Hr.
  destruct (Report_save_cases w
              (addVote (UserSchema._id user) (default "" (vote (body req))) r)
              r (addVote_id _ _ _) Hr)
    as [[_ ->]| ->]; [|by apply ev_same].
  cbn. by eapply ev_change; [done | apply ch_vote | |].
Qed.

Lemma validateModified_addSpamReport u r :
  validateModified r (Reports.addSpamReport u r) = true.
Proof. apply validateModified_frame; auto. Qed.

Lemma validateModified_markAsSpam r :
  validateModified r (Reports.markAsSpam r) = true.
Proof. apply validateModified_frame; auto. Qed.

(** [reportSpam] on a stored report: it answers 200 and stores the flagged
    document; only the collection of reports and the audit log change. *)
Lemma reportSpam_found user req w r :
  reports w !! id req = Some r →
  _id r = id req →
  ∃ w', Reports.reportSpam user req w =
          (Ok (json 200 true "Spam report submitted successfully" DNone), w')
        ∧ reports w' = <[id req := flagged (UserSchema._id user) r]> (reports w)
        ∧ nextId w' = nextId w.
Proof.
  intros Hr Hid. unfold Reports.reportSpam. munfold. rewrite <- Hid in *.
  rewrite Hr. unfold flagged.
  destruct (bool_decide (UserSchema._id user ∈ spamReports r)); cbn [negb].
  - destruct ((5 <=? Z.of_nat (length (spamReports r))) && negb (isSpam r)).
    + rewrite (Report_save_ok _ (Reports.markAsSpam r) r)
        by (done || apply validateModified_markAsSpam).
      eexists; split; [reflexivity|]. done.
    + eexists; split; [reflexivity|]. cbn. by rewrite insert_id.
  - set (r1 := Reports.addSpamReport (UserSchema._id user) r).
    rewrite (Report_save_ok _ r1 r) by (done || apply validateModified_addSpamReport).
    destruct ((5 <=? Z.of_nat (length (spamReports r1))) && negb (isSpam r1)).
    + rewrite (Report_save_ok _ (Reports.markAsSpam r1) r1).
      * eexists; split; [reflexivity|]. cbn. by rewrite insert_insert_eq.
      * cbn. apply lookup_insert_eq.
      * apply validateModified_markAsSpam.
    + eexists; split; [reflexivity|]. done.
Qed.

Lemma reportSpam_evolves user req w :
  wellKeyed w → Evolves w (Reports.reportSpam user req w).2.
Proof.
  intros Hw. destruct (reports w !! id req) as [r|] eqn:Hr.
  - destruct (Hw _ _ Hr) as [Hid _].
    destruct (reportSpam_found user req w r Hr Hid) as (w' & -> & Hrep & Hn).
    eapply ev_change; [done | apply ch_flag | done | cbn; lia].
  - unfold Reports.reportSpam. munfold. rewrite Hr. by apply ev_same.
Qed.

Lemma addComment_evolves user req w :
  wellKeyed w → Evolves w (Reports.addComment user req w).2.
Proof.
  intros Hw. unfold Reports.addComment, Comment_create. munfold.
  destruct (negb (Js.truthyStr _) || _); [by apply ev_same|]. load Hw r Hr.
  destruct (negb (validContent _)); [by apply ev_same|].
  set (r' := set_commentsCount _ r).
  match goal with
  | |- context [Report_save r' ?w0] =>
      destruct (Report_save_cases w0 r' r eq_refl Hr) as [[_ ->]| ->]
  end.
  - cbn. destruct (io w); destruct (negb (_ =? _)%positive); cbn;
      (eapply ev_change; [done | apply ch_comment | done | cbn; lia]).
  - apply ev_same; cbn; [done | lia].
Qed.

(** [updateReport] on a stored report. *)
Lemma updateReport_forbidden user req w r :
  reports w !! id req = Some r →
  canEdit r (now req) (UserSchema._id user) defaultTimeLimit = false →
  Reports.updateReport user req w =
    (Ok (json 403 false
           "Cannot edit report (time limit exceeded or not owner)" DNone), w).
Proof.
  intros Hr Hc. unfold Reports.updateReport. munfold. by rewrite Hr, Hc.
Qed.

Lemma updateReport_invalid user req w r :
  reports w !! id req = Some r →
  _id r = id req →
  canEdit r (now req) (UserSchema._id user) defaultTimeLimit = true →
  validateModified r (Reports.applyUpdate (body req) (now req) r) = false →
  Reports.updateReport user req w =
    (Ok (json 500 false "Failed to update report" DNone),
     set_console (λ c, c ++ [LogError "Update report error:"]) w).
Proof.
  intros Hr Hid Hc Hv. unfold Reports.updateReport. munfold.
  rewrite Hr, Hc. cbn [negb].
  rewrite (Report_save_invalid _ _ r); [done | | done].
  by rewrite applyUpdate_id, Hid.
Qed.

Lemma updateReport_allowed user req w r :
  reports w !! id req = Some r →
  _id r = id req →
  canEdit r (now req) (UserSchema._id user) defaultTimeLimit = true →
  validateModified r (Reports.applyUpdate (body req) (now req) r) = true →
  ∃ w', Reports.updateReport user req w =
          (Ok (json 200 true "Report updated successfully"
                 (DReport (Reports.applyUpdate (body req) (now req) r))), w')
        ∧ reports w' =
            <[id req := Reports.applyUpdate (body req) (now req) r]> (reports w)
        ∧ nextId w' = nextId w
        ∧ notifications w' = notifications w
        ∧ auditLogs w' = auditLogs w ++
            [ {| AuditLogSchema.reportId := None;
                 AuditLogSchema.actorId := UserSchema._id user;
                 AuditLogSchema.action := "edit_report";
                 AuditLogSchema.entityType := "report";
                 AuditLogSchema.entityId := Some (id req);
                 AuditLogSchema.payload := AuditLogSchema.MEmpty;
                 AuditLogSchema.changes :=
                   Some {| AuditLogSchema.before :=
                             AuditLogSchema.MFields (Reports.contentOf r);
                           AuditLogSchema.after :=
                             AuditLogSchema.MFields
                               (Reports.contentOf
                                  (Reports.applyUpdate (body req) (now req) r)) |} |} ].
Proof.
  intros Hr Hid Hc Hv. unfold Reports.updateReport. munfold.
  rewrite Hr, Hc. cbn [negb].
  rewrite (Report_save_ok _ _ r); [ | by rewrite applyUpdate_id, Hid | done].
  rewrite applyUpdate_id, Hid.
  destruct (io w) eqn:Hio; cbn; rewrite Hio; cbn;
    (eexists; split; [reflexivity|]); done.
Qed.

Lemma updateReport_evolves user req w :
  wellKeyed w → Evolves w (Reports.updateReport user req w).2.
Proof.
  intros Hw. destruct (reports w !! id req) as [r|] eqn:Hr.
  - destruct (Hw _ _ Hr) as [Hid _].
    destruct (canEdit r (now req) (UserSchema._id user) defaultTimeLimit) eqn:Hc.
    + destruct (validateModified r (Reports.applyUpdate (body req) (now req) r))
        eqn:Hv.
      * destruct (updateReport_allowed user req w r Hr Hid Hc Hv)
          as (w' & -> & Hrep & Hn & _).
        eapply ev_change; [done | apply ch_edit | done | cbn; lia].
      * rewrite (updateReport_invalid user req w r Hr Hid Hc Hv).
        by apply ev_same.
    + rewrite (updateReport_forbidden user req w r Hr Hc). by apply ev_same.
  - unfold Reports.updateReport. munfold. rewrite Hr. by apply ev_same.
Qed.

Lemma getNearbyReports_state near user req w :
  (Reports.getNearbyReports near user req w).2 = w.
Proof.
  unfold Reports.getNearbyReports. munfold. by destruct (negb _ || negb _).
Qed.

(** [Report.create] either throws, leaving the world as it is, or stores a
    fresh document under the next identifier. *)
Lemma Report_create_cases now doc w :
  (∃ e, Report_create now doc w = (Thrown e, w))
  ∨ (∃ r, Report_create now doc w
          = (Ok r, set_reports (<[nextId w := r]>) (set_nextId Pos.succ w))
        ∧ Created r ∧ _id r = nextId w
        ∧ reporterId r = n_reporterId doc
        ∧ ReportSchema.campusId r = n_campusId doc
        ∧ Some (category r) = n_category doc
        ∧ Some (severity r) = n_severity doc
        ∧ createdAt r = now).
Proof.
  unfold Report_create. munfold.
  destruct (n_category doc), (n_severity doc), (n_title doc),
    (n_description doc); try (left; eauto; fail).
  destruct (_ && _); [|left; eauto].
  right. eexists. split; [reflexivity|]. by repeat split.
Qed.

Lemma signal_lines (pre : list Line) (b : bool) (id0 i : ObjectId) :
  (∀ j, LogHighSeverity j ∉ pre) →
  LogHighSeverity i ∈ pre ++ (if b then [LogHighSeverity id0] else [])
  ↔ 201 = 201 ∧ b = true ∧ i = id0.
Proof.
  intros Hpre. rewrite elem_of_app. split.
  - intros [Hin|Hin]; [by apply Hpre in Hin|].
    destruct b; [|by apply elem_of_nil in Hin].
    apply list_elem_of_singleton in Hin. by simplify_eq.
  - intros (_ & -> & ->). right. by apply list_elem_of_singleton.
Qed.

(** The console lines [createReport] writes: the line announcing the
    notification fan-out appears exactly when the report was created and its
    severity reaches the threshold of the environment. *)
Lemma createReport_effect env user req w :
  ∃ resp w' lines,
    Reports.createReport env user req w = (Ok resp, w')
    ∧ console w' = console w ++ lines
    ∧ (∀ id, LogHighSeverity id ∈ lines ↔
         code resp = 201
         ∧ Reports.geNum (c_severity (body req))
             (Env.minSeverityForPush (Env.notifications env)) = true
         ∧ id = nextId w)
    ∧ limiterHits w' = limiterHits w
    ∧ Evolves w w'
    ∧ (code resp = 201 →
       ∃ r, data resp = DReport r ∧ reports w' = <[nextId w := r]> (reports w)
            ∧ Created r ∧ _id r = nextId w
            ∧ Some (severity r) = c_severity (body req)
            ∧ ReportSchema.campusId r = UserSchema.campusId user).
Proof.
  unfold Reports.createReport. unfold tryCatch, Reports.serverError.
  destruct (c_location (body req) ≫= l_coordinates) as [coords|] eqn:Hloc.
  - destruct (negb (length coords =? 2)%nat).
    + do 2 eexists. exists []. split; [reflexivity|].
      rewrite app_nil_r. split; [done|]. split; [|by repeat split].
      intros i. split; [by intros ?%elem_of_nil | by intros [? _]].
    + unfold mbind at 1. unfold M_bind at 1.
      match goal with
      | |- context [Report_create ?n ?d w] =>
          destruct (Report_create_cases n d w)
            as [[e ->]|(r & -> & Hc & Hid & _ & Hcamp & _ & Hsev & _)]
      end.
      * munfold. do 2 eexists. exists [LogError "Create report error:"].
        split; [reflexivity|]. split; [done|]. split.
        { intros i. split; [by intros ?%list_elem_of_singleton | by intros [? _]]. }
        split; [done|]. split; [by apply ev_same | done].
      * munfold. cbn in Hsev, Hcamp. rewrite <- Hsev.
        destruct (Reports.geNum (Some (severity r)) _) eqn:Hsig;
          destruct (io w) eqn:Hio; cbn; rewrite ?Hio; cbn;
          (eexists _, _,
             ((if io w
               then [LogEmitted "new report to campus" (UserSchema.campusId user)]
               else [])
              ++ (if Reports.geNum (Some (severity r))
                       (Env.minSeverityForPush (Env.notifications env))
                  then [LogHighSeverity (_id r)] else []));
           rewrite Hio, Hsig; split; [reflexivity|]; cbn;
           rewrite <- ?app_assoc, ?app_nil_r;
           split; [reflexivity|]; rewrite Hid;
           split;
           [ intros i;
             first [ apply (signal_lines [_] true) | apply (signal_lines [_] false)
                   | apply (signal_lines [] true) | apply (signal_lines [] false) ];
             intros j; rewrite ?elem_of_cons, elem_of_nil;
             (tauto || (intros [?|?]; done))
           | split; [done|]; split;
             [ eapply ev_create; [done | done | done | cbn; lia]
             | intros _; by exists r ] ]).
  - do 2 eexists. exists []. split; [reflexivity|].
    rewrite app_nil_r. split; [done|]. split; [|by repeat split].
    intros i. split; [by intros ?%elem_of_nil | by intros [? _]].
Qed.

Lemma applyAssignment_eq assignedTo r w :
  Moderation.applyAssignment assignedTo r w =
    (Ok (match securityAssignee w assignedTo with
         | Some a => set_assignedTo a r
         | None => r
         end), w).
Proof.
  unfold Moderation.applyAssignment, securityAssignee. munfold.
  destruct assignedTo as [a|]; [|done]. cbn.
  destruct (users w !! a) as [u|]; [|done]. cbn.
  by destruct (String.eqb (role u) "security").
Qed.

Lemma updateReportStatus_denied user req w r :
  reports w !! id req = Some r →
  moderationAccess user r = false →
  Moderation.updateReportStatus user req w =
    (Ok (json 403 false "Access denied to this campus" DNone), w).
Proof.
  intros Hr Ha. unfold Moderation.updateReportStatus. munfold. rewrite Hr.
  unfold moderationAccess in Ha. apply negb_false_iff in Ha. by rewrite Ha.
Qed.

Lemma updateReportStatus_invalid user req w r :
  reports w !! id req = Some r →
  _id r = id req →
  moderationAccess user r = true →
  validateModified r
    (moderated (Moderation.status (body req))
       (Moderation.moderatorNotes (body req))
       (securityAssignee w (Moderation.assignedTo (body req)))
       (UserSchema._id user) (now req) r) = false →
  Moderation.updateReportStatus user req w =
    (Ok (json 500 false "Failed to update report" DNone),
     set_console (λ c, c ++ [LogError "Update report status error:"]) w).
Proof.
  intros Hr Hid Ha Hv. unfold Moderation.updateReportStatus. munfold.
  rewrite Hr.
  unfold moderationAccess in Ha. apply negb_true_iff in Ha. rewrite Ha.
  rewrite applyAssignment_eq.
  change (match securityAssignee w _ with
          | Some a => set_assignedTo a _ | None => _ end)
    with (moderated (Moderation.status (body req))
            (Moderation.moderatorNotes (body req))
            (securityAssignee w (Moderation.assignedTo (body req)))
            (UserSchema._id user) (now req) r).
  rewrite (Report_save_invalid _ _ r); [done | | done].
  by rewrite moderated_id, Hid.
Qed.

Lemma updateReportStatus_found user req w r :
  let st := Moderation.status (body req) in
  let r' :=
    moderated st (Moderation.moderatorNotes (body req))
      (securityAssignee w (Moderation.assignedTo (body req)))
      (UserSchema._id user) (now req) r in
  reports w !! id req = Some r →
  _id r = id req →
  moderationAccess user r = true →
  validateModified r r' = true →
  ∃ w', Moderation.updateReportStatus user req w =
          (Ok (json 200 true "Report updated successfully" (DReport r')), w')
        ∧ reports w' = <[id req := r']> (reports w)
        ∧ nextId w' = nextId w
        ∧ auditLogs w' = auditLogs w ++ [statusAudit user st r r']
        ∧ notifications w' = notifications w ++
            (if negb (String.eqb (ReportSchema.status r) (ReportSchema.status r'))
                && negb (Pos.eqb (reporterId r') (UserSchema._id user))
             then [statusNotification st r'] else []).
Proof.
  intros st r' Hr Hid Ha Hv. unfold Moderation.updateReportStatus. munfold.
  rewrite Hr.
  unfold moderationAccess in Ha. apply negb_true_iff in Ha. rewrite Ha.
  rewrite applyAssignment_eq.
  fold st. change (match securityAssignee w _ with
                       | Some a => set_assignedTo a _ | None => _ end) with r'.
  rewrite (Report_save_ok _ _ r); [ | by unfold r'; rewrite moderated_id, Hid | done].
  assert (_id r' = id req) as Hid' by (by unfold r'; rewrite moderated_id).
  clearbody r' st.
  destruct (negb (String.eqb (ReportSchema.status r) (ReportSchema.status r'))
            && negb (Pos.eqb (reporterId r') (UserSchema._id user))) eqn:Hn;
    destruct (io w) eqn:Hio; cbn; rewrite ?Hio; cbn;
    (eexists; split; [reflexivity|]); cbn;
    unfold statusAudit, statusNotification; rewrite ?Hid', ?app_nil_r; done.
Qed.

Lemma validateModified_status old r :
  validateModified old r = true →
  validStatus (status r) = true ∨ status r = status old.
Proof.
  unfold validateModified. rewrite !andb_true_iff.
  intros [[_ Hst] _]. unfold validOrSame in Hst.
  apply orb_true_iff in Hst as [Heq%bool_decide_eq_true|Hok]; auto.
Qed.

Lemma updateReportStatus_evolves user req w :
  wellKeyed w → Evolves w (Moderation.updateReportStatus user req w).2.
Proof.
  intros Hw. destruct (reports w !! id req) as [r|] eqn:Hr.
  - destruct (Hw _ _ Hr) as [Hid _].
    destruct (moderationAccess user r) eqn:Ha.
    + destruct (validateModified r
                  (moderated (Moderation.status (body req))
                     (Moderation.moderatorNotes (body req))
                     (securityAssignee w (Moderation.assignedTo (body req)))
                     (UserSchema._id user) (now req) r)) eqn:Hv.
      * destruct (updateReportStatus_found user req w r Hr Hid Ha Hv)
          as (w' & -> & Hrep & Hn & _).
        eapply ev_change; [done | | done | cbn; lia].
        apply ch_moderate. by apply validateModified_status.
      * rewrite (updateReportStatus_invalid user req w r Hr Hid Ha Hv).
        by apply ev_same.
    + rewrite (updateReportStatus_denied user req w r Hr Ha). by apply ev_same.
  - unfold Moderation.updateReportStatus. munfold. rewrite Hr. by apply ev_same.
Qed.

(** ** The middlewares and the routes *)

Lemma validate_effect {B} (schema : B → option B) property (req : Request B) w :
  ∃ v, validate schema property req w =
         (Ok v, set_console
                  (λ c, c ++ LogInfo (String.append "[Validation] Validating " property)
                          :: match schema (body req) with
                             | None => [LogError "[Validation] Validation failed"]
                             | Some _ => []
                             end) w)
       ∧ match schema (body req) with
         | None => ∃ res, v = inl res ∧ code res = 400
         | Some b => v = inr (set_body b req)
         end.
Proof.
  unfold validate. munfold. destruct (schema (body req)); cbn.
  - eexists. split; [reflexivity|]. done.
  - eexists. split.
    + unfold set_console. cbn. rewrite <- app_assoc. reflexivity.
    + eexists. split; reflexivity.
Qed.

Lemma Evolves_reports_eq w w1 w' :
  reports w1 = reports w → nextId w1 = nextId w → Evolves w1 w' → Evolves w w'.
Proof.
  intros Hrep Hn [Hs Hn' | id r r' Hr Hch Hs Hn' | r' Hc Hid Hs Hn'].
  - apply ev_same; congruence.
  - eapply ev_change; [by rewrite <- Hrep | done | congruence | congruence].
  - eapply ev_create; [done | congruence | congruence | congruence].
Qed.

Lemma rateLimit_effect {B} o (req : Request B) w :
  ∃ res, RateLimiter.rateLimit o req w =
           (Ok res,
            set_limiterHits
              (λ _, (RateLimiter.increment o (ip req) (now req)
                       (limiterHits w)).2) w)
         ∧ res =
             if RateLimiter.max o
                <? (RateLimiter.increment o (ip req) (now req)
                      (limiterHits w)).1
             then Some (json 429 false (RateLimiter.message o) DNone)
             else None.
Proof.
  unfold RateLimiter.rateLimit, RateLimiter.keyGenerator. munfold.
  destruct (RateLimiter.increment o (ip req) (now req) (limiterHits w))
    as [n hits]. cbn.
  destruct (RateLimiter.max o <? n); eexists; split; reflexivity.
Qed.

Section StepEvolves.

Variable env : Env.t.
Variable withinMeters : list Q → Q → Q → Z → bool.
Variable isUri : string → bool.

(** After the validation middleware the handler runs on a world that
    differs by console lines only. *)
Ltac through_validate Hv :=
  unfold mbind, M_bind;
  match goal with
  | |- context [validate ?s ?p ?req ?w1] =>
      let v := fresh "v" in
      destruct (validate_effect s p req w1) as (v & -> & Hv);
      destruct (s (body req));
      [ subst v | let res := fresh "res" in
                  destruct Hv as (res & -> & _); by apply ev_same ]
  end.

Lemma step_evolves op w :
  wellKeyed w → Evolves w (step env withinMeters isUri op w).2.
Proof.
  intros Hw. destruct op as [req|req|req|req|req|req|req|req|req]; cbn.
  - (* Create *)
    unfold postReport. destruct (Auth.authenticate req) as [res|user];
      [by apply ev_same|].
    destruct (Auth.requireVerifiedEmail user); [by apply ev_same|].
    unfold mbind at 1. unfold M_bind at 1.
    destruct (rateLimit_effect (RateLimiter.reportLimiter env) req w)
      as (lim & -> & ->).
    destruct (_ <? _); [by apply ev_same|].
    through_validate Hv.
    match goal with
    | |- context [Reports.createReport env user ?q ?w1] =>
        destruct (createReport_effect env user q w1)
          as (resp & w' & lines & -> & _ & _ & _ & Hev & _)
    end.
    eapply Evolves_reports_eq; [| |exact Hev]; done.
  - (* Edit *)
    unfold patchReport. destruct (Auth.authenticate req) as [res|user];
      [by apply ev_same|].
    through_validate Hv.
    eapply Evolves_reports_eq; [| |by apply updateReport_evolves]; done.
  - (* Retract *)
    unfold deleteReport. destruct (Auth.authenticate req) as [res|user];
      [by apply ev_same|]. by apply deleteReport_evolves.
  - (* Vote *)
    unfold postVote. destruct (Auth.authenticate req) as [res|user];
      [by apply ev_same|].
    through_validate Hv.
    eapply Evolves_reports_eq; [| |by apply voteReport_evolves]; done.
  - (* Comment *)
    unfold postComment. destruct (Auth.authenticate req) as [res|user];
      [by apply ev_same|].
    through_validate Hv.
    eapply Evolves_reports_eq; [| |by apply addComment_evolves]; done.
  - (* FlagSpam *)
    unfold postReportSpam. destruct (Auth.authenticate req) as [res|user];
      [by apply ev_same|]. by apply reportSpam_evolves.
  - (* View *)
    unfold getReport. destruct (Auth.authenticate req) as [res|user];
      [by apply ev_same|]. by apply getReportById_evolves.
  - (* Nearby *)
    unfold getNearby. destruct (Auth.authenticate req) as [res|user];
      [by apply ev_same|].
    through_validate Hv.
    rewrite getNearbyReports_state. by apply ev_same.
  - (* ModeratorUpdate *)
    unfold patchModerationReport.
    destruct (Auth.authenticate req) as [res|user]; [by apply ev_same|].
    destruct (Auth.requireRole _ user); [by apply ev_same|].
    by apply updateReportStatus_evolves.
Qed.

End StepEvolves.

(** ** Invariants of the stored reports *)

Section Reachable.

Variable env : Env.t.
Variable withinMeters : list Q → Q → Q → Z → bool.
Variable isUri : string → bool.

Lemma initial_wellKeyed users campuses io n : wellKeyed (initial users campuses io n).
Proof. intros id r Hr. cbn in Hr. by rewrite lookup_empty in Hr. Qed.

Lemma run_wellKeyed ops w :
  wellKeyed w → wellKeyed (run env withinMeters isUri ops w).
Proof.
  revert w. induction ops as [|op ops IH]; intros w Hw; [done|].
  cbn. apply IH. eapply Evolves_wellKeyed; [done|]. by apply step_evolves.
Qed.

(** A property that holds of a created document and is kept by every
    change holds of every stored report, whatever requests were served. *)
Lemma Evolves_invariant (P : Report → Prop) w w' :
  (∀ r, Created r → P r) →
  (∀ r r', Change r r' → P r → P r') →
  Evolves w w' →
  (∀ id r, reports w !! id = Some r → P r) →
  ∀ id r, reports w' !! id = Some r → P r.
Proof.
  intros Hc Hch [Hs _ | i r0 r' Hr Hchg Hs _ | r' Hcr _ Hs _] HP id r Hl;
    rewrite Hs in Hl.
  - eauto.
  - destruct (decide (i = id)) as [->|Hne].
    + rewrite lookup_insert_eq in Hl. simplify_eq. eauto.
    + rewrite lookup_insert_ne in Hl by done. eauto.
  - destruct (decide (nextId w = id)) as [<-|Hne].
    + rewrite lookup_insert_eq in Hl. simplify_eq. eauto.
    + rewrite lookup_insert_ne in Hl by done. eauto.
Qed.

Lemma run_invariant (P : Report → Prop) ops w :
  (∀ r, Created r → P r) →
  (∀ r r', Change r r' → P r → P r') →
  wellKeyed w →
  (∀ id r, reports w !! id = Some r → P r) →
  ∀ id r, reports (run env withinMeters isUri ops w) !! id = Some r → P r.
Proof.
  intros Hc Hch. revert w. induction ops as [|op ops IH]; intros w Hw HP;
    [done|].
  cbn. apply IH.
  - eapply Evolves_wellKeyed; [done|]. by apply step_evolves.
  - eapply Evolves_invariant; [done | done | by apply step_evolves | done].
Qed.

Lemma reachable_invariant (P : Report → Prop) users campuses io n ops :
  (∀ r, Created r → P r) →
  (∀ r r', Change r r' → P r → P r') →
  ∀ id r,
    reports (run env withinMeters isUri ops (initial users campuses io n)) !! id
    = Some r → P r.
Proof.
  intros Hc Hch. apply run_invariant; [done | done | apply initial_wellKeyed |].
  intros id r Hr. cbn in Hr. by rewrite lookup_empty in Hr.
Qed.

End Reachable.

(** ** Votes *)

Lemma addVote_votes u v r :
  votes (addVote u v r) =
    if String.eqb v "confirm" then
      {| confirms := if bool_decide (u ∈ confirms (votes r))
                     then confirms (votes r) else confirms (votes r) ++ [u];
         disputes := filter (λ id, id ≠ u) (disputes (votes r)) |}
    else
      {| confirms := filter (λ id, id ≠ u) (confirms (votes r));
         disputes := if bool_decide (u ∈ disputes (votes r))
                     then disputes (votes r) else disputes (votes r) ++ [u] |}.
Proof. unfold addVote. by destruct (String.eqb v "confirm"). Qed.

Lemma addVote_disjoint u v r : votesDisjoint r → votesDisjoint (addVote u v r).
Proof.
  intros Hd x. rewrite addVote_votes.
  destruct (String.eqb v "confirm"); cbn; rewrite list_elem_of_filter;
    case_bool_decide; rewrite ?elem_of_app, ?list_elem_of_singleton;
    intros [H1 H2]; specialize (Hd x); tauto.
Qed.

Lemma Change_votes r r' :
  Change r r' → votes r' = votes r ∨ ∃ u v, r' = addVote u v r.
Proof.
  destruct 1; try (right; eauto; fail); left; unfold_changes;
    repeat case_match; reflexivity.
Qed.

Lemma Change_votesDisjoint r r' : Change r r' → votesDisjoint r → votesDisjoint r'.
Proof.
  intros [Hv|(u & v & ->)]%Change_votes Hd.
  - unfold votesDisjoint. by rewrite Hv.
  - by apply addVote_disjoint.
Qed.

Lemma Created_votesDisjoint r : Created r → votesDisjoint r.
Proof.
  intros (_ & _ & _ & Hv & _) u. rewrite Hv. cbn. by intros [?%elem_of_nil _].
Qed.

Lemma filter_ne_absent (u : ObjectId) (l : list ObjectId) : u ∉ l → filter (λ id, id ≠ u) l = l.
Proof.
  induction l as [|x l IH]; [done|]. intros Hn.
  apply not_elem_of_cons in Hn as [Hne Hn].
  rewrite filter_cons_True by done. by rewrite IH.
Qed.

Lemma filter_ne_idem (u : ObjectId) (l : list ObjectId) :
  filter (λ id, id ≠ u) (filter (λ id, id ≠ u) l) = filter (λ id, id ≠ u) l.
Proof.
  apply filter_ne_absent. rewrite list_elem_of_filter. by intros [? _].
Qed.

(** Voting the same way twice is voting once. *)
Lemma addVote_idem u v r : addVote u v (addVote u v r) = addVote u v r.
Proof.
  assert (∀ l : list ObjectId,
            u ∈ (if bool_decide (u ∈ l) then l else l ++ [u])) as Hin.
  { intros l. case_bool_decide; [done|].
    apply elem_of_app. right. by apply list_elem_of_singleton. }
  unfold addVote. destruct (String.eqb v "confirm"); cbn;
    rewrite filter_ne_idem; by rewrite (bool_decide_eq_true_2 _ (Hin _)).
Qed.

(** A vote by a user who already holds that vote changes nothing. *)
Lemma addVote_held u v r :
  votesDisjoint r →
  u ∈ (if String.eqb v "confirm" then confirms (votes r) else disputes (votes r)) →
  addVote u v r = r.
Proof.
  intros Hd Hin. unfold addVote. destruct (String.eqb v "confirm").
  - rewrite bool_decide_eq_true_2 by done.
    rewrite filter_ne_absent by (intros ?; by apply (Hd u)).
    by destruct r as [? ? ? ? ? ? ? ? ? ? ? ? ? ? ? [? ?] ? ? ? ? ? ? ? ?].
  - rewrite bool_decide_eq_true_2 by done.
    rewrite filter_ne_absent by (intros ?; by apply (Hd u)).
    by destruct r as [? ? ? ? ? ? ? ? ? ? ? ? ? ? ? [? ?] ? ? ? ? ? ? ? ?].
Qed.

Lemma validateModified_addVote u v r : validateModified r (addVote u v r) = true.
Proof.
  apply validateModified_frame; unfold addVote; case_match; auto.
Qed.

Lemma voteReport_found user req w r v :
  reports w !! id req = Some r →
  _id r = id req →
  vote (body req) = Some v →
  v ∈ ["confirm"; "dispute"] →
  ∃ w' resp, Reports.voteReport user req w = (Ok resp, w')
    ∧ code resp = 200
    ∧ data resp =
        DVotes (confirmCount (addVote (UserSchema._id user) v r))
          (disputeCount (addVote (UserSchema._id user) v r))
          (netVotes (addVote (UserSchema._id user) v r))
    ∧ reports w' = <[id req := addVote (UserSchema._id user) v r]> (reports w).
Proof.
  intros Hr Hid Hv Hin. unfold Reports.voteReport. munfold.
  rewrite Hv. rewrite bool_decide_eq_true_2.
  2:{ rewrite !elem_of_cons in Hin. rewrite !elem_of_cons.
      destruct Hin as [->|[->|[]%elem_of_nil]]; auto. }
  cbn [negb]. rewrite Hr. cbn [default].
  rewrite (Report_save_ok _ _ r);
    [ | by rewrite addVote_id, Hid | apply validateModified_addVote ].
  rewrite addVote_id, Hid. by eexists _, _.
Qed.

Lemma voteSchema_valid b v :
  vote b = Some v → v ∈ ["confirm"; "dispute"] →
  voteSchema b = Some {| vote := Some v |}.
Proof.
  intros Hv Hin. unfold voteSchema, required, joiValid. rewrite Hv. cbn.
  by rewrite bool_decide_eq_true_2.
Qed.

Lemma postVote_found req user v w r :
  Auth.authenticate req = inr user →
  vote (body req) = Some v → v ∈ ["confirm"; "dispute"] →
  reports w !! id req = Some r → _id r = id req →
  ∃ resp w', postVote req w = (Ok resp, w')
    ∧ code resp = 200
    ∧ reports w' = <[id req := addVote (UserSchema._id user) v r]> (reports w).
Proof.
  intros Ha Hv Hin Hr Hid. unfold postVote. rewrite Ha.
  unfold mbind, M_bind.
  match goal with
  | |- context [validate ?s ?p req ?w1] =>
      destruct (validate_effect s p req w1) as (x & -> & Hx)
  end.
  rewrite (voteSchema_valid _ v Hv Hin) in Hx. subst x.
  match goal with
  | |- context [Reports.voteReport user ?q ?w1] =>
      destruct (voteReport_found user q w1 r v) as (w' & resp & -> & ? & _ & ?);
        try done
  end.
  by exists resp, w'.
Qed.

(** C2.  Whatever requests have been served since the server started, no
    user is in both the confirms and the disputes of a stored report.  A
    vote of an authenticated user stores the report with the actor removed
    from the opposite set and added to the requested set only if absent;
    repeating the same vote leaves the stored report, hence both sets, as
    they are. *)
Theorem vote_sets_disjoint_and_idempotent
    env withinMeters isUri users campuses io n ops req user v r :
  let w := run env withinMeters isUri ops (initial users campuses io n) in
  let actor := UserSchema._id user in
  let w1 := (step env withinMeters isUri (Vote req) w).2 in
  let w2 := (step env withinMeters isUri (Vote req) w1).2 in
  Auth.authenticate req = inr user →
  vote (body req) = Some v →
  v ∈ ["confirm"; "dispute"] →
  reports w !! id req = Some r →
  votesDisjoint r
  ∧ reports w1 !! id req = Some (addVote actor v r)
  ∧ votes (addVote actor v r) =
      (if String.eqb v "confirm" then
         {| confirms := if bool_decide (actor ∈ confirms (votes r))
                        then confirms (votes r)
                        else confirms (votes r) ++ [actor];
            disputes := filter (λ id, id ≠ actor) (disputes (votes r)) |}
       else
         {| confirms := filter (λ id, id ≠ actor) (confirms (votes r));
            disputes := if bool_decide (actor ∈ disputes (votes r))
                        then disputes (votes r)
                        else disputes (votes r) ++ [actor] |})
  ∧ votesDisjoint (addVote actor v r)
  ∧ reports w2 !! id req = Some (addVote actor v r)
  ∧ (actor ∈ (if String.eqb v "confirm" then confirms (votes r)
              else disputes (votes r)) →
     addVote actor v r = r).
Proof.
  intros w actor w1 w2 Ha Hv Hin Hr.
  assert (wellKeyed w) as Hw by apply run_wellKeyed, initial_wellKeyed.
  assert (votesDisjoint r) as Hd.
  { eapply (reachable_invariant env withinMeters isUri votesDisjoint);
      [apply Created_votesDisjoint | apply Change_votesDisjoint | exact Hr]. }
  destruct (Hw _ _ Hr) as [Hid _].
  destruct (postVote_found req user v w r Ha Hv Hin Hr Hid)
    as (resp & w' & Hstep & _ & Hrep).
  assert (reports w1 !! id req = Some (addVote actor v r)) as Hr1.
  { unfold w1. cbn. rewrite Hstep. cbn. rewrite Hrep. apply lookup_insert_eq. }
  assert (wellKeyed w1) as Hw1.
  { eapply Evolves_wellKeyed; [exact Hw|]. apply step_evolves, Hw. }
  destruct (postVote_found req user v w1 _ Ha Hv Hin Hr1)
    as (resp2 & w2' & Hstep2 & _ & Hrep2).
  { by rewrite addVote_id. }
  repeat split.
  - exact Hd.
  - exact Hr1.
  - apply addVote_votes.
  - by apply addVote_disjoint.
  - unfold w2. cbn. rewrite Hstep2. cbn. rewrite Hrep2, lookup_insert_eq.
    by rewrite addVote_idem.
  - by apply addVote_held.
Qed.

Lemma vote_sets_disjoint_and_idempotent_witness :
  let w := Sample.reported in
  let req := Sample.request Sample.bob 60000 1000 {| vote := Some "confirm" |} in
  ∃ r, reports w !! 1000%positive = Some r
       ∧ votesDisjoint r
       ∧ confirms (votes (addVote 2 "confirm" r)) = [2%positive]
       ∧ reports
           (step Sample.production Sample.anywhere Sample.anyUri (Vote req)
              (step Sample.production Sample.anywhere Sample.anyUri (Vote req)
                 w).2).2 !! 1000%positive
         = Some (addVote 2 "confirm" r).
Proof.
  intros w req.
  destruct (reports w !! 1000%positive) as [r|] eqn:Hr; [|by vm_compute in Hr].
  exists r.
  destruct (vote_sets_disjoint_and_idempotent Sample.production Sample.anywhere
              Sample.anyUri ∅ ∅ true 1000
              [Create (Sample.request Sample.alice 0 1 (Sample.incident 3))]
              req Sample.bob "confirm" r)
    as (Hd & _ & _ & _ & H2 & _).
  - reflexivity.
  - reflexivity.
  - apply elem_of_cons; by left.
  - exact Hr.
  - repeat split; [exact Hd | | exact H2].
    vm_compute in Hr. injection Hr as <-. reflexivity.
Defined.

(** ** Spam flags *)

Lemma Created_spamConsistent r : Created r → spamConsistent r.
Proof.
  intros (_ & _ & _ & _ & Hs & Hi & _). split; rewrite Hs; [constructor|done].
Qed.

(** One flag on a consistent report. *)
Lemma flagged_spec u r :
  spamConsistent r →
  spamConsistent (flagged u r)
  ∧ (∀ x, x ∈ spamReports (flagged u r) ↔ x ∈ spamReports r ∨ x = u)
  ∧ (length (spamReports r) ≤ length (spamReports (flagged u r)))%nat
  ∧ status (flagged u r) =
      (if bool_decide (length (spamReports r) < 5
                       ≤ length (spamReports (flagged u r)))%nat
       then "spam" else status r)
  ∧ (u ∈ spamReports r → flagged u r = r)
  ∧ (u ∉ spamReports r →
     spamReports (flagged u r) = spamReports r ++ [u]).
Proof.
  intros [Hnd Hspam]. unfold flagged.
  destruct (bool_decide (u ∈ spamReports r)) eqn:Hin.
  - apply bool_decide_eq_true in Hin.
    assert ((5 <=? Z.of_nat (length (spamReports r))) && negb (isSpam r) = false)
      as ->.
    { rewrite Hspam. case_bool_decide; cbn; [apply andb_false_r|].
      apply andb_false_iff. left. apply Z.leb_gt. lia. }
    split; [done|]. split.
    { intros x. split; [auto|]. by intros [?| ->]. }
    split; [done|]. split.
    { rewrite bool_decide_eq_false_2; [done|lia]. }
    split; done.
  - apply bool_decide_eq_false in Hin.
    set (r1 := Reports.addSpamReport u r).
    assert (spamReports r1 = spamReports r ++ [u]) as Hs1 by done.
    assert (isSpam r1 = isSpam r) as Hi1 by done.
    assert (status r1 = status r) as Hst1 by done.
    clearbody r1.
    assert (NoDup (spamReports r ++ [u])) as Hnd1.
    { apply NoDup_app. split; [done|]. split; [|apply NoDup_singleton].
      intros x Hx ->%list_elem_of_singleton. done. }
    assert (length (spamReports r ++ [u]) = S (length (spamReports r)))
      as Hlen by (rewrite length_app; cbn; lia).
    assert (∀ x, x ∈ spamReports r ++ [u] ↔ x ∈ spamReports r ∨ x = u) as Hmem.
    { intros x. by rewrite elem_of_app, list_elem_of_singleton. }
    destruct ((5 <=? Z.of_nat (length (spamReports r1))) && negb (isSpam r1))
      eqn:Hmark.
    + apply andb_true_iff in Hmark as [Hge Hno].
      apply Z.leb_le in Hge. apply negb_true_iff in Hno.
      rewrite Hi1, Hspam in Hno. apply bool_decide_eq_false in Hno.
      rewrite Hs1, Hlen in Hge.
      change (spamReports (Reports.markAsSpam r1)) with (spamReports r1).
      change (status (Reports.markAsSpam r1)) with "spam".
      rewrite Hs1, Hlen. split.
      { unfold spamConsistent.
        change (isSpam (Reports.markAsSpam r1)) with true.
        change (spamReports (Reports.markAsSpam r1)) with (spamReports r1).
        rewrite Hs1, Hlen. split; [done|].
        symmetry. apply bool_decide_eq_true. lia. }
      split; [done|]. split; [lia|]. split.
      { rewrite bool_decide_eq_true_2; [done|lia]. }
      split; done.
    + rewrite Hs1, Hlen, Hst1. split.
      { split; [by rewrite Hs1|]. rewrite Hs1, Hlen.
        apply andb_false_iff in Hmark as [Hlt|Hsp].
        - apply Z.leb_gt in Hlt. rewrite Hs1, Hlen in Hlt.
          rewrite Hi1, Hspam. rewrite !bool_decide_eq_false_2; [done|lia|lia].
        - apply negb_false_iff in Hsp. rewrite Hsp.
          rewrite Hi1, Hspam in Hsp. apply bool_decide_eq_true in Hsp.
          symmetry. apply bool_decide_eq_true. lia. }
      split; [done|]. split; [lia|]. split; [|split; done].
      rewrite bool_decide_eq_false_2; [done|].
      intros [Hlt Hge]. apply andb_false_iff in Hmark as [Hm|Hm].
      * apply Z.leb_gt in Hm. rewrite Hs1, Hlen in Hm. lia.
      * apply negb_false_iff in Hm. rewrite Hi1, Hspam in Hm.
        apply bool_decide_eq_true in Hm. lia.
Qed.

Lemma Change_spam r r' :
  Change r r' →
  (spamReports r' = spamReports r ∧ isSpam r' = isSpam r)
  ∨ ∃ u, r' = flagged u r.
Proof.
  destruct 1; try (right; eauto; fail); left; unfold_changes;
    repeat case_match; done.
Qed.

Lemma Change_spamConsistent r r' :
  Change r r' → spamConsistent r → spamConsistent r'.
Proof.
  intros [[Hs Hi]|(u & ->)]%Change_spam Hc.
  - unfold spamConsistent. by rewrite Hs, Hi.
  - by apply flagged_spec.
Qed.

(** A sequence of flags on a consistent report. *)
Lemma flaggedBy_spec actors r :
  spamConsistent r →
  spamConsistent (flaggedBy actors r)
  ∧ (∀ x, x ∈ spamReports (flaggedBy actors r)
          ↔ x ∈ spamReports r ∨ x ∈ (UserSchema._id <$> actors))
  ∧ (length (spamReports r) ≤ length (spamReports (flaggedBy actors r)))%nat
  ∧ status (flaggedBy actors r) =
      (if bool_decide (length (spamReports r) < 5
                       ≤ length (spamReports (flaggedBy actors r)))%nat
       then "spam" else status r)
  ∧ ((∀ x, x ∈ (UserSchema._id <$> actors) → x ∈ spamReports r) →
     flaggedBy actors r = r).
Proof.
  revert r. induction actors as [|a actors IH]; intros r Hc.
  - cbn. split; [done|]. split.
    { intros x. split; [auto|]. by intros [?|?%elem_of_nil]. }
    split; [done|]. split; [|done].
    rewrite bool_decide_eq_false_2; [done|lia].
  - destruct (flagged_spec (UserSchema._id a) r Hc)
      as (Hc1 & Hin1 & Hle1 & Hst1 & Hsame1 & _).
    destruct (IH _ Hc1) as (Hc2 & Hin2 & Hle2 & Hst2 & Hsame2).
    change (flaggedBy (a :: actors) r)
      with (flaggedBy actors (flagged (UserSchema._id a) r)).
    split; [done|]. split.
    { intros x. rewrite Hin2, Hin1. cbn. rewrite elem_of_cons. tauto. }
    split; [lia|]. split.
    { rewrite Hst2, Hst1. repeat case_bool_decide; try done; lia. }
    intros Hall.
    assert (UserSchema._id a ∈ spamReports r) as Ha.
    { apply Hall. cbn. apply elem_of_cons. by left. }
    rewrite (Hsame1 Ha). rewrite (Hsame1 Ha) in Hsame2. apply Hsame2.
    intros x Hx. apply Hall. cbn. apply elem_of_cons. by right.
Qed.

Lemma postReportSpam_found req user w r :
  Auth.authenticate req = inr user →
  reports w !! id req = Some r → _id r = id req →
  ∃ w', postReportSpam req w =
          (Ok (json 200 true "Spam report submitted successfully" DNone), w')
    ∧ reports w' = <[id req := flagged (UserSchema._id user) r]> (reports w).
Proof.
  intros Ha Hr Hid. unfold postReportSpam. rewrite Ha.
  destruct (reportSpam_found user req w r Hr Hid) as (w' & -> & Hrep & _).
  by exists w'.
Qed.

Section Flags.

Variable env : Env.t.
Variable withinMeters : list Q → Q → Q → Z → bool.
Variable isUri : string → bool.

(** Serving the flags of [actors] on report [i] stores [flaggedBy actors]. *)
Lemma run_flags reqs actors i w r :
  wellKeyed w →
  Forall2 (λ req user, id req = i ∧ Auth.authenticate req = inr user)
    reqs actors →
  reports w !! i = Some r →
  reports (run env withinMeters isUri (FlagSpam <$> reqs) w) !! i
  = Some (flaggedBy actors r).
Proof.
  intros Hw Hall. revert w r Hw.
  induction Hall as [|req user reqs actors [Hi Ha] _ IH]; intros w r Hw Hr;
    [done|].
  cbn. destruct (Hw _ _ Hr) as [Hid _]. subst i.
  destruct (postReportSpam_found req user w r Ha Hr Hid) as (w' & Hstep & Hrep).
  apply IH.
  - eapply Evolves_wellKeyed; [exact Hw|].
    apply (step_evolves env withinMeters isUri (FlagSpam req)), Hw.
  - rewrite Hstep. cbn. rewrite Hrep. apply lookup_insert_eq.
Qed.

End Flags.

(** Take any report stored after any requests since the server
    started, and let authenticated users flag it as spam one after the
    other.  The flags stored are distinct users, those who had flagged
    before and those who flag now; the report is marked as spam exactly
    when they are five or more, and its status becomes [spam] exactly when
    their number goes from below five to five or more; otherwise the status
    stays.  So the flag of a fifth distinct user marks the report, the flag
    of a fourth does not, and flags of users already recorded leave the
    report as it is. *)
Theorem spam_flag_threshold
    env withinMeters isUri users campuses io n ops reqs actors i r :
  let w := run env withinMeters isUri ops (initial users campuses io n) in
  let w' := run env withinMeters isUri (FlagSpam <$> reqs) w in
  Forall2 (λ req user, id req = i ∧ Auth.authenticate req = inr user)
    reqs actors →
  reports w !! i = Some r →
  ∃ r',
    reports w' !! i = Some r'
    ∧ NoDup (spamReports r')
    ∧ (∀ u, u ∈ spamReports r'
            ↔ u ∈ spamReports r ∨ u ∈ (UserSchema._id <$> actors))
    ∧ isSpam r' = bool_decide (5 ≤ length (spamReports r'))%nat
    ∧ status r' =
        (if bool_decide (length (spamReports r) < 5
                         ≤ length (spamReports r'))%nat
         then "spam" else status r)
    ∧ (∀ a, actors = [a] → UserSchema._id a ∉ spamReports r →
         length (spamReports r) = 4%nat →
         isSpam r = false ∧ isSpam r' = true ∧ status r' = "spam")
    ∧ (∀ a, actors = [a] → UserSchema._id a ∉ spamReports r →
         length (spamReports r) = 3%nat →
         isSpam r' = false ∧ status r' = status r)
    ∧ ((∀ u, u ∈ (UserSchema._id <$> actors) → u ∈ spamReports r) →
       r' = r).
Proof.
  intros w w' Hall Hr.
  assert (wellKeyed w) as Hw by apply run_wellKeyed, initial_wellKeyed.
  assert (spamConsistent r) as Hc.
  { eapply (reachable_invariant env withinMeters isUri spamConsistent);
      [apply Created_spamConsistent | apply Change_spamConsistent | exact Hr]. }
  exists (flaggedBy actors r).
  destruct (flaggedBy_spec actors r Hc) as ([Hnd Hspam] & Hin & Hle & Hst & Hsame).
  split; [by apply run_flags|].
  split; [done|]. split; [done|]. split; [done|]. split; [done|].
  split; [|split; [|done]].
  - intros a -> Hnew Hlen.
    destruct (flagged_spec (UserSchema._id a) r Hc)
      as ([_ Hs1] & _ & _ & Hst1 & _ & Happ).
    specialize (Happ Hnew). cbn. rewrite Hs1, Hst1, Happ, length_app, Hlen.
    destruct Hc as [_ ->]. rewrite Hlen. done.
  - intros a -> Hnew Hlen.
    destruct (flagged_spec (UserSchema._id a) r Hc)
      as ([_ Hs1] & _ & _ & Hst1 & _ & Happ).
    specialize (Happ Hnew). cbn. rewrite Hs1, Hst1, Happ, length_app, Hlen.
    done.
Qed.

Lemma spam_flag_threshold_witness :
  let flaggers := Sample.student <$> [11; 12; 13; 14; 15]%positive in
  let reqs := (λ u, Sample.request u 90000 1000 ()) <$> flaggers in
  let w' :=
    run Sample.production Sample.anywhere Sample.anyUri (FlagSpam <$> reqs)
      Sample.reported in
  ∃ r r',
    reports Sample.reported !! 1000%positive = Some r
    ∧ reports w' !! 1000%positive = Some r'
    ∧ isSpam r' = bool_decide (5 ≤ length (spamReports r'))%nat
    ∧ status r' =
        (if bool_decide (length (spamReports r) < 5
                         ≤ length (spamReports r'))%nat
         then "spam" else status r).
Proof.
  intros flaggers reqs w'.
  destruct (reports Sample.reported !! 1000%positive) as [r|] eqn:Hr;
    [|by vm_compute in Hr].
  destruct (spam_flag_threshold Sample.production Sample.anywhere Sample.anyUri
              ∅ ∅ true 1000
              [Create (Sample.request Sample.alice 0 1 (Sample.incident 3))]
              reqs flaggers 1000 r)
    as (r' & Hr' & _ & _ & Hspam & Hst & _).
  - repeat constructor.
  - exact Hr.
  - exists r, r'. split; [reflexivity|]. split; [exact Hr'|].
    split; [exact Hspam|exact Hst].
Defined.

(** ** Reports are never removed *)

Lemma Evolves_later w w' id r :
  wellKeyed w → Evolves w w' → reports w !! id = Some r →
  ∃ r', reports w' !! id = Some r' ∧ Later r r'.
Proof.
  intros Hw [Hs _ | i r0 r' Hr0 Hch Hs _ | r' _ _ Hs _] Hr.
  - exists r. rewrite Hs. split; [done|apply rtc_refl].
  - rewrite Hs. destruct (decide (i = id)) as [->|Hne].
    + rewrite lookup_insert_eq. simplify_eq. exists r'.
      split; [done|by apply rtc_once].
    + rewrite lookup_insert_ne by done. exists r. split; [done|apply rtc_refl].
  - rewrite Hs. destruct (Hw _ _ Hr) as [_ Hlt].
    rewrite lookup_insert_ne by lia. exists r. split; [done|apply rtc_refl].
Qed.

Section Later.

Variable env : Env.t.
Variable withinMeters : list Q → Q → Q → Z → bool.
Variable isUri : string → bool.

Lemma run_later ops w id r :
  wellKeyed w → reports w !! id = Some r →
  ∃ r', reports (run env withinMeters isUri ops w) !! id = Some r' ∧ Later r r'.
Proof.
  revert w r. induction ops as [|op ops IH]; intros w r Hw Hr.
  - exists r. split; [done|apply rtc_refl].
  - cbn.
    pose proof (step_evolves env withinMeters isUri op w Hw) as Hev.
    destruct (Evolves_later _ _ _ _ Hw Hev Hr) as (r1 & Hr1 & Hl1).
    destruct (IH _ r1 (Evolves_wellKeyed _ _ Hw Hev) Hr1) as (r2 & Hr2 & Hl2).
    exists r2. split; [done|]. by eapply rtc_trans.
Qed.

End Later.

(** ** Resolution stamp *)






(** ** Edits *)



Lemma optional_None {A} (rule : A → option A) v x :
  optional rule v = Some x → (x = None ↔ v = None).
Proof.
  unfold optional. destruct v as [z|]; [|by intros [= <-]].
  destruct (rule z) as [y'|]; cbn; [|done]. by intros [= <-].
Qed.

Section UpdateSchema.

Variable isUri : string → bool.

Lemma updateReportSchema_inv b b' :
  updateReportSchema isUri b = Some b' →
  optional (joiString 5 200) (u_title b) = Some (u_title b')
  ∧ optional (joiString 10 2000) (u_description b) = Some (u_description b')
  ∧ optional (joiValid categoryEnum) (u_category b) = Some (u_category b')
  ∧ optional (joiNumber 1 5) (u_severity b) = Some (u_severity b')
  ∧ optional (joiUris isUri 10) (u_mediaUrls b) = Some (u_mediaUrls b').
Proof.
  unfold updateReportSchema.
  destruct (optional (joiString 5 200) (u_title b)) as [ti|]; [|done].
  destruct (optional (joiString 10 2000) (u_description b)) as [de|]; [|done].
  destruct (optional (joiValid categoryEnum) (u_category b)) as [ca|]; [|done].
  destruct (optional (joiNumber 1 5) (u_severity b)) as [se|]; [|done].
  destruct (optional (joiUris isUri 10) (u_mediaUrls b)) as [me|]; [|done].
  cbn. destruct (_ || _); [|done]. by intros [= <-].
Qed.


Lemma updateReportSchema_omitted b b' :
  updateReportSchema isUri b = Some b' →
  (u_title b = None → u_title b' = None)
  ∧ (u_description b = None → u_description b' = None)
  ∧ (u_category b = None → u_category b' = None)
  ∧ (u_severity b = None → u_severity b' = None)
  ∧ (u_mediaUrls b = None → u_mediaUrls b' = None).
Proof.
  intros (Ht & Hd & Hc & Hs & Hm)%updateReportSchema_inv.
  repeat split; intros Hn; eapply optional_None; eauto.
Qed.

End UpdateSchema.






Section EditRoute.

Variable isUri : string → bool.


End EditRoute.


(** ** Relations every request respects *)

Section Respects.

Context (R : relation World) `{!PreOrder R}.

Lemma respects_ret {A} (a : A) : respects R (mret a).
Proof. intros w. cbn. reflexivity. Qed.

Lemma respects_get : respects R get.
Proof. intros w. cbn. reflexivity. Qed.

Lemma respects_throw {A} e : respects R (@throw A e).
Proof. intros w. cbn. reflexivity. Qed.

Lemma respects_modify f : (∀ w, R w (f w)) → respects R (modify f).
Proof. intros Hf w. cbn. apply Hf. Qed.

Lemma respects_bind {A B} (m : M A) (f : A → M B) :
  respects R m → (∀ a, respects R (f a)) → respects R (m ≫= f).
Proof.
  intros Hm Hf w. specialize (Hm w). unfold mbind, M_bind.
  destruct (m w) as [[a|e] w1]; cbn in *; [|done].
  etrans; [exact Hm|apply Hf].
Qed.

Lemma respects_tryCatch {A} (m : M A) (h : string → M A) :
  respects R m → (∀ e, respects R (h e)) → respects R (tryCatch m h).
Proof.
  intros Hm Hh w. specialize (Hm w). unfold tryCatch.
  destruct (m w) as [[a|e] w1]; cbn in *; [done|].
  etrans; [exact Hm|apply Hh].
Qed.

End Respects.

Global Instance Grows_preorder : PreOrder Grows.
Proof.
  split.
  - intros w. by repeat split.
  - intros w1 w2 w3 (?&?&?&?&?) (?&?&?&?&?).
    repeat split; by etrans.
Qed.

Lemma freshId_respects R `{!PreOrder R} :
  (∀ w, R w (set_nextId Pos.succ w)) → respects R freshId.
Proof. intros H w. apply H. Qed.

(** Breaks a handler down to [modify] steps, leaving for each the goal that
    the step is in the relation. *)
Ltac respects_step :=
  lazymatch goal with
  | |- respects _ (mret _) => apply respects_ret; try apply _
  | |- respects _ get => apply respects_get; try apply _
  | |- respects _ (throw _) => apply respects_throw; try apply _
  | |- respects _ freshId => apply freshId_respects; [try apply _ | intros ?]
  | |- respects _ (modify _) => apply respects_modify; intros ?
  | |- respects _ (_ ≫= _) => apply respects_bind; [try apply _ | | intros ?]
  | |- respects _ (tryCatch _ _) =>
      apply respects_tryCatch; [try apply _ | | intros ?]
  | |- respects _ (if ?c then _ else _) => destruct c
  | |- respects _ (match ?x with _ => _ end) => destruct x
  | |- respects _ (let _ := _ in _) => lazy zeta
  | |- respects _ ?m =>
      progress unfold Reports.serverError, Report_findById, Report_save,
        Report_create, Report_addVote, Report_incrementViews, User_findById,
        AuditLog_logAction, Notification_createNotification, Comment_create,
        SocketService.emitReportUpdate, SocketService.emitNewReport,
        SocketService.emitNewComment, SocketService.emitTo, consoleLog,
        Moderation.applyAssignment, validate, RateLimiter.rateLimit
  end.

Ltac respects_auto := repeat respects_step.



Section GrowsStep.

Variable env : Env.t.
Variable withinMeters : list Q → Q → Q → Z → bool.
Variable isUri : string → bool.


End GrowsStep.

(** ** The authentication and role gates *)

Section Gates.

Variable env : Env.t.
Variable withinMeters : list Q → Q → Q → Z → bool.
Variable isUri : string → bool.

(** Every route starts with [authenticate]: a request whose token resolves
    to no user is answered 401, one whose user is deactivated or banned is
    answered 403, and in both cases the world is left exactly as it was,
    whatever the operation and its body. *)
Theorem rejected_accounts_change_nothing op w :
  (∀ user, opUser op = Some user →
           isActive user = false ∨ isBanned user = true) →
  ∃ resp,
    step env withinMeters isUri op w = (Ok resp, w)
    ∧ success resp = false
    ∧ code resp = match opUser op with Some _ => 403 | None => 401 end.
Proof.
  intros Hrej.
  assert (∀ B (req : Request B),
            (∀ user, tokenUser req = Some user →
                     isActive user = false ∨ isBanned user = true) →
            ∃ resp, Auth.authenticate req = inl resp
                    ∧ success resp = false
                    ∧ code resp = match tokenUser req with Some _ => 403 | None => 401 end)
    as Hauth.
  { intros B req H. unfold Auth.authenticate.
    destruct (tokenUser req) as [user|]; [|by eexists].
    destruct (H user eq_refl) as [Ha|Hb].
    - rewrite Ha. by eexists.
    - rewrite Hb. destruct (isActive user); by eexists. }
  destruct op as [req|req|req|req|req|req|req|req|req]; cbn in *;
    destruct (Hauth _ req Hrej) as (resp & Ha & Hs & Hc);
    unfold postReport, patchReport, deleteReport, postVote, postComment,
      postReportSpam, getReport, getNearby, patchModerationReport;
    rewrite Ha; by exists resp.
Qed.

(** The moderation route lets through exactly the users that
    [canModerate]: any other authenticated user is answered 403 and the
    world is left as it was. *)
Theorem moderation_requires_moderator
    (req : Request Moderation.StatusBody) user w :
  Auth.authenticate req = inr user →
  canModerate user = false →
  step env withinMeters isUri (ModeratorUpdate req) w
  = (Ok (json 403 false "Insufficient permissions" DNone), w).
Proof.
  intros Ha Hm. cbn. unfold patchModerationReport. rewrite Ha.
  unfold Auth.requireRole. unfold canModerate in Hm. by rewrite Hm.
Qed.

(** For a user that [canModerate] the role gate is passed: the answer is
    the one of the handler. *)
Lemma moderation_admits_moderator (req : Request Moderation.StatusBody) user w :
  Auth.authenticate req = inr user →
  canModerate user = true →
  step env withinMeters isUri (ModeratorUpdate req) w
  = Moderation.updateReportStatus user req w.
Proof.
  intros Ha Hm. cbn. unfold patchModerationReport. rewrite Ha.
  unfold Auth.requireRole. unfold canModerate in Hm. by rewrite Hm.
Qed.

(** ** Logs are append-only *)



End Gates.

(** ** Reports are kept, and keep their identity *)

Lemma sameOutsideContent_refl r : sameOutsideContent r r.
Proof. by repeat split. Qed.

Lemma sameOutsideContent_trans r1 r2 r3 :
  sameOutsideContent r1 r2 → sameOutsideContent r2 r3 →
  sameOutsideContent r1 r3.
Proof.
  unfold sameOutsideContent. intros H1 H2.
  repeat match goal with H : _ ∧ _ |- _ => destruct H end.
  repeat split; congruence.
Qed.

Lemma assignStr_frame v set r :
  (∀ s r, sameOutsideContent r (set s r)) →
  sameOutsideContent r (Reports.assignStr v set r).
Proof.
  intros H. unfold Reports.assignStr.
  destruct (Js.truthyStr v); [apply H|apply sameOutsideContent_refl].
Qed.

Lemma assignNum_frame v set r :
  (∀ s r, sameOutsideContent r (set s r)) →
  sameOutsideContent r (Reports.assignNum v set r).
Proof.
  intros H. unfold Reports.assignNum.
  destruct (Js.truthyNum v); [apply H|apply sameOutsideContent_refl].
Qed.

Lemma assignArr_frame v set r :
  (∀ s r, sameOutsideContent r (set s r)) →
  sameOutsideContent r (Reports.assignArr v set r).
Proof.
  intros H. unfold Reports.assignArr.
  destruct v; [apply H|apply sameOutsideContent_refl].
Qed.

(** An edit touches the content and the edit tracking only. *)
Lemma applyUpdate_frame b now r :
  sameOutsideContent r (Reports.applyUpdate b now r).
Proof.
  unfold Reports.applyUpdate. lazy zeta.
  set (r1 := Reports.assignStr (u_title b) _ r).
  set (r2 := Reports.assignStr (u_description b) _ r1).
  set (r3 := Reports.assignStr (u_category b) _ r2).
  set (r4 := Reports.assignNum (u_severity b) _ r3).
  set (r5 := Reports.assignArr (u_mediaUrls b) _ r4).
  assert (sameOutsideContent r r1) as H1
    by (apply assignStr_frame; intros; by repeat split).
  assert (sameOutsideContent r1 r2) as H2
    by (apply assignStr_frame; intros; by repeat split).
  assert (sameOutsideContent r2 r3) as H3
    by (apply assignStr_frame; intros; by repeat split).
  assert (sameOutsideContent r3 r4) as H4
    by (apply assignNum_frame; intros; by repeat split).
  assert (sameOutsideContent r4 r5) as H5
    by (apply assignArr_frame; intros; by repeat split).
  clearbody r1 r2 r3 r4 r5.
  repeat (eapply sameOutsideContent_trans; [eassumption|]).
  by repeat split.
Qed.

Lemma sameOutsideContent_identity r r' :
  sameOutsideContent r r' → sameIdentity r r'.
Proof.
  unfold sameOutsideContent, sameIdentity. intros H.
  repeat match goal with H : _ ∧ _ |- _ => destruct H end.
  by repeat split.
Qed.

Lemma Change_sameIdentity r r' : Change r r' → sameIdentity r r'.
Proof.
  destruct 1 as [b now r| r | u v r | r | r | u r | st notes asg u now r _].
  - apply sameOutsideContent_identity, applyUpdate_frame.
  - by repeat split.
  - unfold addVote. destruct (String.eqb v "confirm"); by repeat split.
  - by repeat split.
  - by repeat split.
  - unfold flagged. lazy zeta.
    destruct (bool_decide (u ∈ spamReports r)); destruct (_ && _);
      by repeat split.
  - unfold moderated, Moderation.applyStatus. lazy zeta.
    destruct asg, (Js.truthyStr st), (bool_decide (st = Some "resolved")),
      (Js.truthyStr notes); by repeat split.
Qed.

Lemma Later_sameIdentity r r' : Later r r' → sameIdentity r r'.
Proof.
  induction 1 as [r|r r1 r2 Hch _ IH]; [by repeat split|].
  apply Change_sameIdentity in Hch.
  destruct Hch as (?&?&?&?&?&?), IH as (?&?&?&?&?&?).
  repeat split; congruence.
Qed.

(** No request removes a report or changes who reported it, for which
    campus, where, when, or whether anonymously: a report stored after any
    requests since the server started is still stored, under the same
    identifier, after any further requests, with these fields as they
    were. *)
Theorem reports_are_kept_with_their_identity
    env withinMeters isUri users campuses io n ops more id r :
  let w := run env withinMeters isUri ops (initial users campuses io n) in
  reports w !! id = Some r →
  ∃ r', reports (run env withinMeters isUri more w) !! id = Some r'
        ∧ _id r' = id ∧ reporterId r' = reporterId r
        ∧ ReportSchema.campusId r' = ReportSchema.campusId r
        ∧ location r' = location r ∧ isAnonymous r' = isAnonymous r
        ∧ createdAt r' = createdAt r.
Proof.
  intros w Hr.
  assert (wellKeyed w) as Hw by apply run_wellKeyed, initial_wellKeyed.
  destruct (run_later env withinMeters isUri more w id r Hw Hr)
    as (r' & Hr' & Hl).
  destruct (Later_sameIdentity _ _ Hl) as (Hid & ? & ? & ? & ? & ?).
  exists r'. destruct (Hw _ _ Hr) as [<- _]. by repeat split.
Qed.

(** ** Retracting a report *)


Section Retract.

Variable env : Env.t.
Variable withinMeters : list Q → Q → Q → Z → bool.
Variable isUri : string → bool.


End Retract.

(** ** Nearby search *)

Section Nearby.

Variable withinMeters : list Q → Q → Q → Z → bool.

(** The reports [findNearby] returns are the stored reports that match its
    query. *)
Lemma elem_of_findNearby coll campus lon lat radius filters (x : Report) :
  x ∈ findNearby withinMeters coll campus lon lat radius filters
  ↔ (∃ id, coll !! id = Some x)
    ∧ matches withinMeters
        (findNearbyQuery campus lon lat radius filters) x = true.
Proof.
  unfold findNearby. rewrite merge_sort_Permutation.
  rewrite list_elem_of_filter, list_elem_of_fmap. split.
  - intros [Hm ([id y] & -> & Hin)]. split; [|done].
    exists id. by apply elem_of_map_to_list in Hin.
  - intros [[id Hid] Hm]. split; [done|].
    exists (id, x). split; [done|]. by apply elem_of_map_to_list.
Qed.

Lemma matches_campus q (x : Report) :
  matches withinMeters q x = true → ReportSchema.campusId x = q_campusId q.
Proof.
  unfold matches. rewrite !andb_true_iff. intros [[[[[H _] _] _] _] _].
  by apply Pos.eqb_eq.
Qed.

Lemma matches_default_status campus lon lat radius filters (x : Report) :
  Js.truthyStr (f_status filters) = false →
  matches withinMeters (findNearbyQuery campus lon lat radius filters) x = true →
  status x ∈ ["reported"; "verified"; "investigating"; "resolved"].
Proof.
  intros Hf. unfold matches. rewrite !andb_true_iff.
  intros [[_ Hst] _]. cbn in Hst.
  destruct (f_status filters) as [s|]; cbn in Hf.
  - apply negb_false_iff in Hf. rewrite Hf in Hst.
    by apply bool_decide_eq_true in Hst.
  - by apply bool_decide_eq_true in Hst.
Qed.

End Nearby.

Section RetractComposes.

Variable env : Env.t.
Variable withinMeters : list Q → Q → Q → Z → bool.
Variable isUri : string → bool.

(** A retracted report is hidden, not removed: after the retraction it is
    still stored under its identifier, a nearby search without a status
    filter no longer returns it for any campus, point and radius, and its
    reporter can no longer edit it, however soon after its creation. *)
Theorem retracted_report_is_hidden_not_removed
    users campuses io n ops user i r
    campus lon lat radius filters now (x : Report) :
  let w := run env withinMeters isUri ops (initial users campuses io n) in
  let w' := retracted user r w in
  reports w !! i = Some r →
  Js.truthyStr (f_status filters) = false →
  reports w' !! i = Some (set_status "invalid" r)
  ∧ (x ∈ findNearby withinMeters (reports w') campus lon lat radius filters →
     _id x ≠ i)
  ∧ canEdit (set_status "invalid" r) now (reporterId r) defaultTimeLimit
    = false.
Proof.
  intros w w' Hr Hf.
  assert (wellKeyed w) as Hw by apply run_wellKeyed, initial_wellKeyed.
  destruct (Hw _ _ Hr) as [Hid _].
  assert (reports w' = <[i := set_status "invalid" r]> (reports w)) as Hrep
    by (unfold w', retracted; cbn; by rewrite Hid).
  split; [by rewrite Hrep, lookup_insert_eq|]. split; [|done].
  intros [[j Hj] Hm]%elem_of_findNearby Hx.
  apply (matches_default_status withinMeters) in Hm; [|done].
  rewrite Hrep in Hj. destruct (decide (i = j)) as [->|Hne].
  - rewrite lookup_insert_eq in Hj. simplify_eq. cbn in Hm.
    rewrite !elem_of_cons, elem_of_nil in Hm.
    destruct Hm as [?|[?|[?|[?|[]]]]]; done.
  - rewrite lookup_insert_ne in Hj by done.
    destruct (Hw _ _ Hj) as [Hjd _]. congruence.
Qed.

End RetractComposes.

(** ** Viewing a report *)


Section Views.

Variable env : Env.t.
Variable withinMeters : list Q → Q → Q → Z → bool.
Variable isUri : string → bool.




End Views.

(** ** Commenting *)

Lemma validateModified_set_commentsCount n r :
  validateModified r (set_commentsCount n r) = true.
Proof. apply validateModified_frame; auto. Qed.



(** ** The comment counter *)

Lemma sameCounts_same w w' : reports w' = reports w → sameCounts w w'.
Proof. intros H i. by rewrite H. Qed.

Lemma sameCounts_insert w w' i r r' :
  reports w !! i = Some r → commentsCount r' = commentsCount r →
  reports w' = <[i := r']> (reports w) → sameCounts w w'.
Proof.
  intros Hr Hc Hw j. rewrite Hw. destruct (decide (i = j)) as [->|Hne].
  - rewrite lookup_insert_eq, Hr. cbn. by rewrite Hc.
  - by rewrite lookup_insert_ne.
Qed.

Lemma flagged_commentsCount u r : commentsCount (flagged u r) = commentsCount r.
Proof. unfold flagged. by repeat case_match. Qed.

Lemma moderated_commentsCount st notes asg u now r :
  commentsCount (moderated st notes asg u now r) = commentsCount r.
Proof.
  unfold moderated, Moderation.applyStatus. by repeat case_match.
Qed.

Lemma addVote_commentsCount u v r : commentsCount (addVote u v r) = commentsCount r.
Proof. unfold addVote. by repeat case_match. Qed.

Lemma applyUpdate_commentsCount b now r :
  commentsCount (Reports.applyUpdate b now r) = commentsCount r.
Proof. apply (applyUpdate_frame b now r). Qed.

Section Counter.

Variable env : Env.t.
Variable withinMeters : list Q → Q → Q → Z → bool.
Variable isUri : string → bool.

Lemma deleteReport_sameCounts user req w :
  wellKeyed w → sameCounts w (Reports.deleteReport user req w).2.
Proof.
  intros Hw. unfold Reports.deleteReport. munfold.
  destruct (reports w !! id req) as [r|] eqn:Hr; [|by apply sameCounts_same].
  destruct (Hw _ _ Hr) as [Hid _]. rewrite <- Hid in *.
  destruct (negb _ && negb _); [by apply sameCounts_same|].
  destruct (Report_save_cases w (set_status "invalid" r) r eq_refl Hr)
    as [[_ ->]| ->]; [|by apply sameCounts_same].
  cbn. eapply sameCounts_insert; [exact Hr| |reflexivity]. done.
Qed.

Lemma getReportById_sameCounts user req w :
  wellKeyed w → sameCounts w (Reports.getReportById user req w).2.
Proof.
  intros Hw. unfold Reports.getReportById. munfold.
  destruct (reports w !! id req) as [r|] eqn:Hr; [|by apply sameCounts_same].
  destruct (Hw _ _ Hr) as [Hid _]. rewrite <- Hid in *.
  destruct (Report_save_cases w (incrementViews r) r eq_refl Hr)
    as [[_ ->]| ->]; [|by apply sameCounts_same].
  cbn. eapply sameCounts_insert; [exact Hr| |reflexivity]. done.
Qed.

Lemma voteReport_sameCounts user req w :
  wellKeyed w → sameCounts w (Reports.voteReport user req w).2.
Proof.
  intros Hw. unfold Reports.voteReport. munfold.
  destruct (negb _); [by apply sameCounts_same|].
  destruct (reports w !! id req) as [r|] eqn:Hr; [|by apply sameCounts_same].
  destruct (Hw _ _ Hr) as [Hid _]. rewrite <- Hid in *.
  destruct (Report_save_cases w
              (addVote (UserSchema._id user) (default "" (vote (body req))) r)
              r (addVote_id _ _ _) Hr)
    as [[_ ->]| ->]; [|by apply sameCounts_same].
  cbn. eapply sameCounts_insert; [exact Hr| |reflexivity].
  apply addVote_commentsCount.
Qed.

Lemma reportSpam_sameCounts user req w :
  wellKeyed w → sameCounts w (Reports.reportSpam user req w).2.
Proof.
  intros Hw. destruct (reports w !! id req) as [r|] eqn:Hr.
  - destruct (Hw _ _ Hr) as [Hid _].
    destruct (reportSpam_found user req w r Hr Hid) as (w' & -> & Hrep & Hn).
    eapply sameCounts_insert; [exact Hr| |exact Hrep].
    apply flagged_commentsCount.
  - unfold Reports.reportSpam. munfold. rewrite Hr. by apply sameCounts_same.
Qed.

Lemma updateReport_sameCounts user req w :
  wellKeyed w → sameCounts w (Reports.updateReport user req w).2.
Proof.
  intros Hw. destruct (reports w !! id req) as [r|] eqn:Hr.
  - destruct (Hw _ _ Hr) as [Hid _].
    destruct (canEdit r (now req) (UserSchema._id user) defaultTimeLimit) eqn:Hc.
    + destruct (validateModified r (Reports.applyUpdate (body req) (now req) r))
        eqn:Hv.
      * destruct (updateReport_allowed user req w r Hr Hid Hc Hv)
          as (w' & -> & Hrep & _).
        eapply sameCounts_insert; [exact Hr| |exact Hrep].
        apply applyUpdate_commentsCount.
      * rewrite (updateReport_invalid user req w r Hr Hid Hc Hv).
        by apply sameCounts_same.
    + rewrite (updateReport_forbidden user req w r Hr Hc).
      by apply sameCounts_same.
  - unfold Reports.updateReport. munfold. rewrite Hr. by apply sameCounts_same.
Qed.

Lemma updateReportStatus_sameCounts user req w :
  wellKeyed w → sameCounts w (Moderation.updateReportStatus user req w).2.
Proof.
  intros Hw. destruct (reports w !! id req) as [r|] eqn:Hr.
  - destruct (Hw _ _ Hr) as [Hid _].
    destruct (moderationAccess user r) eqn:Ha.
    + destruct (validateModified r
                  (moderated (Moderation.status (body req))
                     (Moderation.moderatorNotes (body req))
                     (securityAssignee w (Moderation.assignedTo (body req)))
                     (UserSchema._id user) (now req) r)) eqn:Hv.
      * destruct (updateReportStatus_found user req w r Hr Hid Ha Hv)
          as (w' & -> & Hrep & _).
        eapply sameCounts_insert; [exact Hr| |exact Hrep].
        apply moderated_commentsCount.
      * rewrite (updateReportStatus_invalid user req w r Hr Hid Ha Hv).
        by apply sameCounts_same.
    + rewrite (updateReportStatus_denied user req w r Hr Ha).
      by apply sameCounts_same.
  - unfold Moderation.updateReportStatus. munfold. rewrite Hr.
    by apply sameCounts_same.
Qed.

Lemma createReport_reports user req w :
  reports (Reports.createReport env user req w).2 = reports w
  ∨ ∃ r, Created r
         ∧ reports (Reports.createReport env user req w).2
           = <[nextId w := r]> (reports w).
Proof.
  unfold Reports.createReport. unfold tryCatch, Reports.serverError.
  destruct (c_location (body req) ≫= l_coordinates) as [coords|]; [|by left].
  destruct (negb (length coords =? 2)%nat); [by left|].
  munfold.
  match goal with
  | |- context [Report_create ?n ?d w] =>
      destruct (Report_create_cases n d w) as [[e ->]|(r & -> & Hc & _)]
  end.
  - by left.
  - right. exists r. split; [done|].
    destruct (Reports.geNum _ _); destruct (io w) eqn:Hio; cbn;
      rewrite ?Hio; done.
Qed.

Lemma addComment_cases user req w :
  wellKeyed w →
  (reports (Reports.addComment user req w).2 = reports w
   ∧ comments (Reports.addComment user req w).2 = comments w)
  ∨ ∃ r c,
      reports w !! id req = Some r
      ∧ Comments.visibleOn (id req) c = true
      ∧ comments (Reports.addComment user req w).2 = comments w ++ [c]
      ∧ reports (Reports.addComment user req w).2
        = <[id req := set_commentsCount (commentsCount r + 1) r]> (reports w).
Proof.
  intros Hw. unfold Reports.addComment, Comment_create. munfold.
  destruct (negb (Js.truthyStr _) || _); [by left|].
  destruct (reports w !! id req) as [r|] eqn:Hr; [|by left].
  destruct (Hw _ _ Hr) as [Hid _].
  destruct (negb (validContent _)); [by left|].
  rewrite (Report_save_ok _ _ r);
    [ | by cbn; rewrite Hid | apply validateModified_set_commentsCount ].
  right. eexists r, _. split; [done|].
  destruct (io w) eqn:Hio; cbn; rewrite ?Hio;
    destruct (Pos.eqb (reporterId r) (UserSchema._id user)); cbn;
    rewrite Hid; (split; [|split; reflexivity]);
    unfold Comments.visibleOn; cbn; by rewrite Pos.eqb_refl.
Qed.

(** The handlers other than [addComment] leave the comments as they are. *)
#[local] Instance sameComments_preorder : PreOrder sameComments.
Proof.
  split; [by intros w|]. intros w1 w2 w3 H1 H2. unfold sameComments in *.
  by rewrite H2.
Qed.

Lemma quiet_handlers_keep_comments :
  (∀ user req, respects sameComments (Reports.createReport env user req))
  ∧ (∀ user req, respects sameComments (Reports.updateReport user req))
  ∧ (∀ user req, respects sameComments (Reports.deleteReport user req))
  ∧ (∀ user req, respects sameComments (Reports.voteReport user req))
  ∧ (∀ user req, respects sameComments (Reports.reportSpam user req))
  ∧ (∀ user req, respects sameComments (Reports.getReportById user req))
  ∧ (∀ user req,
       respects sameComments (Reports.getNearbyReports withinMeters user req))
  ∧ (∀ user req, respects sameComments (Moderation.updateReportStatus user req)).
Proof.
  repeat match goal with |- _ ∧ _ => split end; intros user req;
    unfold Reports.createReport, Reports.updateReport, Reports.deleteReport,
      Reports.voteReport, Reports.reportSpam, Reports.getReportById,
      Reports.getNearbyReports, Moderation.updateReportStatus;
    respects_auto; reflexivity.
Qed.

End Counter.

Lemma countByReport_snoc i l c :
  Comments.countByReport i (l ++ [c])
  = (Comments.countByReport i l
     + if Comments.visibleOn i c then 1 else 0)%nat.
Proof.
  unfold Comments.countByReport. rewrite filter_app, length_app.
  f_equal. destruct (Comments.visibleOn i c) eqn:Hv.
  - by rewrite filter_cons_True.
  - rewrite filter_cons_False; [done|]. by rewrite Hv.
Qed.

Lemma visibleOn_report i c :
  Comments.visibleOn i c = true → CommentSchema.reportId c = i.
Proof.
  unfold Comments.visibleOn. intros [H _]%andb_true_iff. by apply Pos.eqb_eq.
Qed.

Lemma countByReport_unreferenced i l :
  (∀ c, c ∈ l → CommentSchema.reportId c ≠ i) →
  Comments.countByReport i l = 0%nat.
Proof.
  intros H. unfold Comments.countByReport.
  induction l as [|c l IH]; [done|].
  rewrite filter_cons_False.
  - apply IH. intros c' Hin. apply H. by apply elem_of_cons; right.
  - intros Hv. eapply H; [|by apply visibleOn_report]. by apply elem_of_cons; left.
Qed.

Lemma counted_quiet w w' :
  counted w → sameCounts w w' → comments w' = comments w → counted w'.
Proof.
  intros [Hc Hs] Hsame Hcm. split.
  - intros i r' Hr'. specialize (Hsame i). rewrite Hr' in Hsame.
    destruct (reports w !! i) as [r|] eqn:Hr; [|done].
    cbn in Hsame. injection Hsame as Heq. rewrite Heq, Hcm. by apply Hc.
  - intros c Hin. rewrite Hcm in Hin. destruct (Hs c Hin) as [r Hr].
    specialize (Hsame (CommentSchema.reportId c)). rewrite Hr in Hsame.
    destruct (reports w' !! _); [eauto|done].
Qed.

Lemma counted_create w w' r :
  wellKeyed w → counted w → Created r →
  reports w' = <[nextId w := r]> (reports w) →
  comments w' = comments w → counted w'.
Proof.
  intros Hw [Hc Hs] Hcr Hrep Hcm. split.
  - intros i r' Hr'. rewrite Hrep in Hr'. rewrite Hcm.
    destruct (decide (nextId w = i)) as [<-|Hne].
    + rewrite lookup_insert_eq in Hr'. injection Hr' as <-.
      rewrite countByReport_unreferenced.
      * apply Hcr.
      * intros c Hin Heq. destruct (Hs c Hin) as [r0 Hr0].
        rewrite Heq in Hr0. destruct (Hw _ _ Hr0) as [_ Hlt]. lia.
    + rewrite lookup_insert_ne in Hr' by done. by apply Hc.
  - intros c Hin. rewrite Hcm in Hin. rewrite Hrep.
    destruct (decide (nextId w = CommentSchema.reportId c)) as [<-|Hne].
    + rewrite lookup_insert_eq. eauto.
    + rewrite lookup_insert_ne by done. by apply Hs.
Qed.

Lemma counted_comment w w' i r c :
  counted w → reports w !! i = Some r →
  Comments.visibleOn i c = true →
  comments w' = comments w ++ [c] →
  reports w' = <[i := set_commentsCount (commentsCount r + 1) r]> (reports w) →
  counted w'.
Proof.
  intros [Hc Hs] Hr Hv Hcm Hrep. split.
  - intros j r' Hr'. rewrite Hrep in Hr'. rewrite Hcm, countByReport_snoc.
    destruct (decide (i = j)) as [<-|Hne].
    + rewrite lookup_insert_eq in Hr'. injection Hr' as <-.
      rewrite Hv. cbn. rewrite (Hc _ _ Hr). lia.
    + rewrite lookup_insert_ne in Hr' by done.
      destruct (Comments.visibleOn j c) eqn:Hvj.
      * apply visibleOn_report in Hv, Hvj. congruence.
      * rewrite Nat.add_0_r. by apply Hc.
  - intros c' Hin. rewrite Hrep. rewrite Hcm in Hin.
    apply elem_of_app in Hin as [Hin|Hin%list_elem_of_singleton].
    + destruct (Hs c' Hin) as [r0 Hr0].
      destruct (decide (i = CommentSchema.reportId c')) as [<-|Hne].
      * rewrite lookup_insert_eq. eauto.
      * rewrite lookup_insert_ne by done. eauto.
    + subst c'. rewrite (visibleOn_report _ _ Hv), lookup_insert_eq. eauto.
Qed.

#[local] Instance keeps_preorder I : PreOrder (keeps I).
Proof.
  split; [intros w H; exact H|]. intros w1 w2 w3 H1 H2 H. apply H2, H1, H.
Qed.

Section Tallied.

Variable env : Env.t.
Variable withinMeters : list Q → Q → Q → Z → bool.
Variable isUri : string → bool.

Ltac quiet Hevolves Hcounts Hcomments :=
  intros w [Hw Hc]; split;
  [ eapply Evolves_wellKeyed; [exact Hw | apply Hevolves; exact Hw]
  | eapply counted_quiet; [exact Hc | apply Hcounts; exact Hw | apply Hcomments] ].

Lemma handlers_keep_tallied :
  (∀ user req, respects (keeps tallied) (Reports.createReport env user req))
  ∧ (∀ user req, respects (keeps tallied) (Reports.updateReport user req))
  ∧ (∀ user req, respects (keeps tallied) (Reports.deleteReport user req))
  ∧ (∀ user req, respects (keeps tallied) (Reports.voteReport user req))
  ∧ (∀ user req, respects (keeps tallied) (Reports.addComment user req))
  ∧ (∀ user req, respects (keeps tallied) (Reports.reportSpam user req))
  ∧ (∀ user req, respects (keeps tallied) (Reports.getReportById user req))
  ∧ (∀ user req,
       respects (keeps tallied) (Reports.getNearbyReports withinMeters user req))
  ∧ (∀ user req,
       respects (keeps tallied) (Moderation.updateReportStatus user req)).
Proof.
  destruct (quiet_handlers_keep_comments env withinMeters)
    as (Hcreate & Hupdate & Hdelete & Hvote & Hspam & Hview & Hnear & Hmod).
  repeat match goal with |- _ ∧ _ => split end; intros user req.
  - intros w [Hw Hc].
    destruct (createReport_effect env user req w)
      as (resp & w' & lines & Heq & _ & _ & _ & Hev & _).
    split.
    + eapply Evolves_wellKeyed; [exact Hw|]. by rewrite Heq.
    + destruct (createReport_reports env user req w) as [Hs|(r & Hcr & Hs)].
      * eapply counted_quiet; [exact Hc|by apply sameCounts_same|apply Hcreate].
      * eapply counted_create; [exact Hw|exact Hc|exact Hcr|exact Hs|].
        apply Hcreate.
  - quiet updateReport_evolves updateReport_sameCounts Hupdate.
  - quiet deleteReport_evolves deleteReport_sameCounts Hdelete.
  - quiet voteReport_evolves voteReport_sameCounts Hvote.
  - intros w [Hw Hc]. split.
    + eapply Evolves_wellKeyed; [exact Hw|]. by apply addComment_evolves.
    + destruct (addComment_cases user req w Hw)
        as [[Hs Hcm]|(r & c & Hr & Hv & Hcm & Hs)].
      * eapply counted_quiet; [exact Hc|by apply sameCounts_same|exact Hcm].
      * by eapply counted_comment.
  - quiet reportSpam_evolves reportSpam_sameCounts Hspam.
  - quiet getReportById_evolves getReportById_sameCounts Hview.
  - intros w H. by rewrite getNearbyReports_state.
  - quiet updateReportStatus_evolves updateReportStatus_sameCounts Hmod.
Qed.

Lemma step_tallied op : respects (keeps tallied) (step env withinMeters isUri op).
Proof.
  destruct handlers_keep_tallied
    as (Hcreate & Hupdate & Hdelete & Hvote & Hcomment & Hspam & Hview & Hnear
        & Hmod).
  destruct op as [req|req|req|req|req|req|req|req|req]; cbn;
    unfold postReport, patchReport, deleteReport, postVote, postComment,
      postReportSpam, getReport, getNearby, patchModerationReport;
    (destruct (Auth.authenticate req) as [res|user]; [respects_auto|]);
    try done.
  - destruct (Auth.requireVerifiedEmail user); [respects_auto|].
    apply respects_bind; [apply _| |intros [res|]; [respects_auto|]].
    + respects_auto. by intros H.
    + apply respects_bind; [apply _| |intros [res|req']; [respects_auto|done]].
      respects_auto; by intros H.
  - apply respects_bind; [apply _| |intros [res|req']; [respects_auto|done]].
    respects_auto; by intros H.
  - apply respects_bind; [apply _| |intros [res|req']; [respects_auto|done]].
    respects_auto; by intros H.
  - apply respects_bind; [apply _| |intros [res|req']; [respects_auto|done]].
    respects_auto; by intros H.
  - apply respects_bind; [apply _| |intros [res|req']; [respects_auto|done]].
    respects_auto; by intros H.
  - destruct (Auth.requireRole _ user); [respects_auto|done].
Qed.

Lemma run_tallied ops w :
  tallied w → tallied (run env withinMeters isUri ops w).
Proof.
  revert w. induction ops as [|op ops IH]; intros w Hw; [done|].
  cbn. apply IH. by apply step_tallied.
Qed.

Lemma initial_tallied users campuses io n : tallied (initial users campuses io n).
Proof.
  split; [apply initial_wellKeyed|]. split.
  - intros i r Hr. cbn in Hr. by rewrite lookup_empty in Hr.
  - intros c Hin. cbn in Hin. by apply elem_of_nil in Hin.
Qed.

(** The comment counter of a report is exact.  Whatever requests were
    served since the server started, the [commentsCount] of every stored
    report is the number of comments [Comment.countByReport] counts for it,
    which is the number [Comment.findByReport] lists and
    [GET /reports/:id/comments] answers; and every stored comment is on a
    stored report. *)
Theorem comment_counter_is_exact users campuses io n ops i r :
  let w := run env withinMeters isUri ops (initial users campuses io n) in
  reports w !! i = Some r →
  commentsCount r = Z.of_nat (Comments.countByReport i (comments w))
  ∧ length (Comments.findByReport i (comments w))
    = Comments.countByReport i (comments w)
  ∧ ∀ c, c ∈ comments w → is_Some (reports w !! CommentSchema.reportId c).
Proof.
  intros w Hr.
  destruct (run_tallied ops _ (initial_tallied users campuses io n))
    as [_ [Hc Hs]].
  split; [by apply Hc|]. split; [|exact Hs].
  unfold Comments.findByReport, Comments.countByReport.
  by rewrite merge_sort_Permutation.
Qed.

End Tallied.

(** ** Creating a report from a validated body *)





Section Creation.

Variable env : Env.t.
Variable isUri : string → bool.



End Creation.

(** ** The gates of [POST /reports] *)

Section CreationGates.

Variable env : Env.t.
Variable withinMeters : list Q → Q → Q → Z → bool.
Variable isUri : string → bool.


End CreationGates.

(** ** The vote counts *)

Lemma filter_ne_snoc (u : ObjectId) (l : list ObjectId) :
  filter (λ id, id ≠ u) (l ++ [u]) = filter (λ id, id ≠ u) l.
Proof.
  rewrite filter_app, filter_cons_False by (intros H; by apply H).
  by rewrite filter_nil, app_nil_r.
Qed.

Lemma filter_ne_length (u : ObjectId) (l : list ObjectId) :
  NoDup l →
  Z.of_nat (length (filter (λ id, id ≠ u) l)) = Z.of_nat (length l) - loss u l.
Proof.
  unfold loss. induction 1 as [|x l Hx Hl IH]; [done|].
  destruct (decide (x = u)) as [->|Hne].
  - rewrite filter_cons_False by (intros H; by apply H).
    rewrite filter_ne_absent by done.
    rewrite bool_decide_eq_true_2 by (apply elem_of_cons; by left).
    cbn [length]. lia.
  - rewrite filter_cons_True by done. cbn [length]. rewrite !Nat2Z.inj_succ, IH.
    case_bool_decide as H1; case_bool_decide as H2; try lia.
    + exfalso. apply H2. apply elem_of_cons. by right.
    + exfalso. apply elem_of_cons in H2 as [?|?]; [congruence|done].
Qed.

Lemma gain_length (u : ObjectId) (l : list ObjectId) :
  Z.of_nat (length (if bool_decide (u ∈ l) then l else l ++ [u]))
  = Z.of_nat (length l) + gain u l.
Proof.
  unfold gain. case_bool_decide; [lia|]. rewrite length_app. cbn. lia.
Qed.

Lemma NoDup_filter_ne (u : ObjectId) (l : list ObjectId) :
  NoDup l → NoDup (filter (λ id, id ≠ u) l).
Proof. apply NoDup_filter. Qed.

Lemma addVote_oneVoteEach u v r : oneVoteEach r → oneVoteEach (addVote u v r).
Proof.
  unfold oneVoteEach. rewrite addVote_votes.
  intros (Hc & Hx & Hd)%NoDup_app.
  destruct (String.eqb v "confirm"); cbn; apply NoDup_app.
  - split; [|split; [|by apply NoDup_filter]].
    + case_bool_decide as Hin; [done|]. apply NoDup_app.
      split; [done|]. split; [|apply NoDup_singleton].
      intros x Hxin ->%list_elem_of_singleton. done.
    + intros x Hxin [Hd1 Hne]%list_elem_of_filter.
      case_bool_decide; [by apply (Hx x)|].
      apply elem_of_app in Hxin as [?|?%list_elem_of_singleton];
        [by apply (Hx x)|done].
  - split; [by apply NoDup_filter|]. split.
    + intros x [Hne Hc1]%list_elem_of_filter Hxin.
      case_bool_decide; [by apply (Hx x)|].
      apply elem_of_app in Hxin as [?|?%list_elem_of_singleton];
        [by apply (Hx x)|done].
    + case_bool_decide as Hin; [done|]. apply NoDup_app.
      split; [done|]. split; [|apply NoDup_singleton].
      intros x Hxin ->%list_elem_of_singleton. done.
Qed.

Lemma Change_oneVoteEach r r' : Change r r' → oneVoteEach r → oneVoteEach r'.
Proof.
  intros [Hv|(u & v & ->)]%Change_votes Hd.
  - unfold oneVoteEach. by rewrite Hv.
  - by apply addVote_oneVoteEach.
Qed.

Lemma Created_oneVoteEach r : Created r → oneVoteEach r.
Proof.
  intros (_ & _ & _ & Hv & _). unfold oneVoteEach. rewrite Hv. cbn.
  apply NoDup_nil_2.
Qed.

(** Every user counts once in the vote counts.  Whatever requests were
    served since the server started, no user is listed twice among the
    confirms and disputes of a stored report, so [confirmCount] plus
    [disputeCount] is the number of users holding a vote; and a further
    vote of [u] moves [netVotes] by what [u] gains on one side plus what
    [u] loses on the other: by 0 when [u] repeats a vote, by 1 when [u]
    had not voted, by 2 when [u] changes sides. *)
Theorem each_user_counts_once
    env withinMeters isUri users campuses io n ops i r u :
  reports (run env withinMeters isUri ops (initial users campuses io n)) !! i
  = Some r →
  NoDup (confirms (votes r) ++ disputes (votes r))
  ∧ netVotes (addVote u "confirm" r)
    = netVotes r + gain u (confirms (votes r)) + loss u (disputes (votes r))
  ∧ netVotes (addVote u "dispute" r)
    = netVotes r - gain u (disputes (votes r)) - loss u (confirms (votes r)).
Proof.
  intros Hr.
  assert (oneVoteEach r) as Hone.
  { eapply (reachable_invariant env withinMeters isUri oneVoteEach);
      [apply Created_oneVoteEach | apply Change_oneVoteEach | exact Hr]. }
  split; [exact Hone|].
  apply NoDup_app in Hone as (Hc & _ & Hd).
  unfold netVotes. rewrite !addVote_votes. cbn.
  rewrite !gain_length, !filter_ne_length by done. lia.
Qed.

(** [removeVote] withdraws the vote of a user and no other: the user is
    then in neither list, everybody else is where they were, and on a
    report where the user held no vote it undoes [addVote]. *)
Theorem removeVote_withdraws_one_vote u v r :
  (∀ x, x ∈ confirms (votes (removeVote u r))
        ↔ x ∈ confirms (votes r) ∧ x ≠ u)
  ∧ (∀ x, x ∈ disputes (votes (removeVote u r))
          ↔ x ∈ disputes (votes r) ∧ x ≠ u)
  ∧ removeVote u (addVote u v r) = removeVote u r
  ∧ (u ∉ confirms (votes r) → u ∉ disputes (votes r) →
     removeVote u (addVote u v r) = r).
Proof.
  assert (removeVote u (addVote u v r) = removeVote u r) as Hundo.
  { unfold removeVote. rewrite addVote_votes.
    destruct (String.eqb v "confirm") eqn:Hv; cbn;
      case_bool_decide; rewrite ?filter_ne_snoc, ?filter_ne_idem;
      unfold addVote; rewrite Hv; reflexivity. }
  split; [|split; [|split; [exact Hundo|]]].
  - intros x. cbn. rewrite list_elem_of_filter. tauto.
  - intros x. cbn. rewrite list_elem_of_filter. tauto.
  - intros Hc Hd. rewrite Hundo. unfold removeVote.
    rewrite !filter_ne_absent by done.
    by destruct r as [? ? ? ? ? ? ? ? ? ? ? ? ? ? ? [? ?] ? ? ? ? ? ? ? ?].
Qed.

(** ** The sockets *)

Lemma join_rooms c s x :
  x ∈ Sockets.rooms (Sockets.join c s) ↔ x ∈ Sockets.rooms s ∨ x = c.
Proof.
  cbn. case_bool_decide as Hin.
  - split; [by left|]. by intros [?| ->].
  - rewrite elem_of_app, list_elem_of_singleton. done.
Qed.

Lemma on_rooms s m x :
  x ∈ Sockets.rooms (Sockets.on s m)
  ↔ match m with
    | Sockets.JoinReport r => x ∈ Sockets.rooms s ∨ x = Sockets.Report r
    | Sockets.LeaveReport r => x ∈ Sockets.rooms s ∧ x ≠ Sockets.Report r
    | _ => x ∈ Sockets.rooms s
    end.
Proof.
  destruct m as [| |r|r]; cbn -[Sockets.join]; [done|done|apply join_rooms|].
  cbn. rewrite list_elem_of_filter. tauto.
Qed.

(** The listeners touch the report rooms only. *)
Lemma messages_keep_other_rooms s messages x :
  (∀ r, x ≠ Sockets.Report r) →
  x ∈ Sockets.rooms (foldl Sockets.on s messages) ↔ x ∈ Sockets.rooms s.
Proof.
  intros Hx. revert s. induction messages as [|m ms IH]; intros s; [done|].
  cbn [foldl]. rewrite IH, on_rooms.
  destruct m as [| |r|r]; [done|done| |].
  - split; [intros [?|?]; [done|by destruct (Hx r)]|by left].
  - split; [by intros [? _]|]. intros ?. split; [done|apply Hx].
Qed.

Lemma connection_rooms s x :
  Sockets.rooms s = [] →
  x ∈ Sockets.rooms (Sockets.connection s)
  ↔ x = Sockets.Campus (Sockets.campusId s)
    ∨ (Sockets.role s ∈ ["moderator"; "admin"; "super-admin"]
       ∧ x = Sockets.Role (Sockets.role s) (Sockets.campusId s)).
Proof.
  intros Hs. unfold Sockets.connection. cbn [Sockets.role Sockets.campusId Sockets.join].
  case_bool_decide as Hrole.
  - rewrite join_rooms, join_rooms, Hs, elem_of_nil. cbn. tauto.
  - rewrite join_rooms, Hs, elem_of_nil. tauto.
Qed.


(** The report rooms are open to every campus: [join_report] checks
    nothing, so a connected client of any campus that asks for the room of
    a report receives the comments and the updates emitted for that
    report, until it leaves the room; a client that never asked receives
    the comments of no report. *)
Theorem report_rooms_are_open_to_every_campus user messages s i c w :
  Sockets.session user messages = Some s →
  io w = true →
  (∀ e, e ∈ Sockets.emittedBy (SocketService.emitNewComment i c) w →
        Sockets.receives (Sockets.on s (Sockets.JoinReport i)) (room e) = true
        ∧ Sockets.receives (Sockets.on s (Sockets.LeaveReport i)) (room e)
          = false)
  ∧ ((∀ m, m ∈ messages → m ≠ Sockets.JoinReport i) →
     Sockets.receives s (ReportRoom i) = false).
Proof.
  intros Hs Hio. split.
  - intros e. unfold Sockets.emittedBy, SocketService.emitNewComment. munfold.
    rewrite Hio. cbn. rewrite drop_app_length.
    intros ->%list_elem_of_singleton. cbn [room]. split.
    + apply bool_decide_eq_true. cbn [Sockets.channel].
      apply (on_rooms s (Sockets.JoinReport i)). by right.
    + apply bool_decide_eq_false. cbn [Sockets.channel].
      rewrite (on_rooms s (Sockets.LeaveReport i)). by intros [_ ?].
  - intros Hm. apply bool_decide_eq_false. cbn [Sockets.channel].
    unfold Sockets.session in Hs.
    destruct (Sockets.handshake user) as [s0|] eqn:Hh; [|done].
    cbn in Hs. injection Hs as <-.
    assert (Sockets.rooms s0 = []) as Hempty.
    { unfold Sockets.handshake in Hh. destruct user as [u|]; [|done].
      destruct (negb (isActive u)); [done|]. by injection Hh as <-. }
    assert (Sockets.Report i ∉ Sockets.rooms (Sockets.connection s0)) as Hc.
    { rewrite connection_rooms by done. by intros [?|[_ ?]]. }
    revert Hc Hm. generalize (Sockets.connection s0). clear.
    induction messages as [|m ms IH] using rev_ind; intros s Hc Hm; [done|].
    rewrite foldl_app. cbn [foldl]. rewrite on_rooms.
    assert (Sockets.Report i ∉ Sockets.rooms (foldl Sockets.on s ms)) as IH'.
    { apply IH; [done|]. intros m' Hin. apply Hm, elem_of_app. by left. }
    destruct m as [| |r|r]; try done.
    + intros [?|Heq]; [done|]. injection Heq as <-.
      apply (Hm (Sockets.JoinReport i)); [|done].
      apply elem_of_app. right. by apply list_elem_of_singleton.
    + by intros [? _].
Qed.

(** The role rooms: a moderator or an admin of the campus is reached by
    [emitModeratorAction], a super-admin is not.  A super-admin is put in
    the room [super-admin:<campus>], to which nothing is ever emitted, and
    no message of the client changes the role rooms of its socket. *)
Theorem super_admin_gets_no_moderator_action user messages s :
  Sockets.session (Some user) messages = Some s →
  let reached :=
    existsb (Sockets.receives s)
      (Sockets.moderatorActionRooms (UserSchema.campusId user)) in
  (role user = "moderator" ∨ role user = "admin" → reached = true)
  ∧ (role user = "super-admin" → reached = false)
  ∧ ∀ room, Sockets.receives s room = true →
            room = CampusRoom (UserSchema.campusId user)
            ∨ room = ModeratorRoom (UserSchema.campusId user)
              ∧ role user = "moderator"
            ∨ room = AdminRoom (UserSchema.campusId user)
              ∧ role user = "admin"
            ∨ ∃ r, room = ReportRoom r ∧ Sockets.JoinReport r ∈ messages.
Proof.
  unfold Sockets.session, Sockets.handshake.
  destruct (negb (isActive user)); [done|]. cbn [mbind option_bind].
  intros [= <-].
  set (s0 := {| Sockets.userId := _; Sockets.rooms := [] |}).
  assert (∀ x, (∀ r, x ≠ Sockets.Report r) →
            x ∈ Sockets.rooms (foldl Sockets.on (Sockets.connection s0) messages)
            ↔ x = Sockets.Campus (UserSchema.campusId user)
              ∨ (role user ∈ ["moderator"; "admin"; "super-admin"]
                 ∧ x = Sockets.Role (role user) (UserSchema.campusId user)))
    as Hrooms.
  { intros x Hx. rewrite messages_keep_other_rooms by done.
    by rewrite connection_rooms. }
  cbn [Sockets.moderatorActionRooms existsb]. unfold Sockets.receives.
  cbn [Sockets.channel]. rewrite orb_false_r.
  split; [|split].
  - intros Hrole. apply orb_true_iff.
    destruct Hrole as [Hrole|Hrole]; [left|right];
      apply bool_decide_eq_true, Hrooms; try done; right; rewrite Hrole;
      (split; [|done]); rewrite !elem_of_cons; auto.
  - intros Hrole. apply orb_false_iff.
    split; apply bool_decide_eq_false; rewrite Hrooms by done;
      rewrite Hrole; by intros [?|[_ ?]].
  - intros room Hin%bool_decide_eq_true.
    destruct room as [c|r|c|c]; cbn [Sockets.channel] in Hin.
    + apply Hrooms in Hin as [Heq|[_ ?]]; [|done|done].
      left. by injection Heq as ->.
    + right. right. right. exists r. split; [done|].
      assert (Sockets.Report r ∉ Sockets.rooms (Sockets.connection s0)) as Hc.
      { rewrite connection_rooms by done. by intros [?|[_ ?]]. }
      revert Hin Hc. generalize (Sockets.connection s0). clear.
      induction messages as [|m ms IH] using rev_ind; intros s Hin Hc; [done|].
      rewrite foldl_app in Hin. cbn [foldl] in Hin. rewrite on_rooms in Hin.
      apply elem_of_app.
      destruct m as [| |r'|r'].
      * left. by apply (IH s).
      * left. by apply (IH s).
      * destruct Hin as [Hin|Heq]; [left; by apply (IH s)|].
        injection Heq as <-. right. by apply list_elem_of_singleton.
      * destruct Hin as [Hin _]. left. by apply (IH s).
    + apply Hrooms in Hin as [?|[_ Heq]]; [done| |done].
      right. left. by injection Heq as -> ->.
    + apply Hrooms in Hin as [?|[_ Heq]]; [done| |done].
      right. right. left. by injection Heq as -> ->.
Qed.

(** One update of a report is delivered twice to a client that is in the
    room of the campus and in the room of the report: [emitReportUpdate]
    emits the same event to each of the two rooms.  While the socket server
    is not initialised it emits nothing. *)
Theorem report_update_is_delivered_twice s campus i updates w :
  Sockets.receives s (CampusRoom campus) = true →
  Sockets.receives s (ReportRoom i) = true →
  let sent := Sockets.emittedBy (SocketService.emitReportUpdate campus i updates) w in
  if io w
  then length (filter (λ e, Sockets.receives s (room e) = true) sent) = 2%nat
       ∧ Forall (λ e, event e = "report_update" ∧ payload e = updates) sent
  else sent = [].
Proof.
  intros Hc Hr. unfold Sockets.emittedBy, SocketService.emitReportUpdate.
  munfold. destruct (io w); cbn.
  - rewrite <- app_assoc, drop_app_length. cbn [app].
    rewrite filter_cons_True by (cbn; exact Hc).
    rewrite filter_cons_True by (cbn; exact Hr).
    split; [done|]. by repeat constructor.
  - by rewrite drop_all.
Qed.

(** ** One-time passwords *)





(** ** The audit log *)


Section Audit.

Variable env : Env.t.
Variable withinMeters : list Q → Q → Q → Z → bool.
Variable isUri : string → bool.




End Audit.

(** ** Stored reports satisfy the schema *)

Lemma validateModified_inv old r :
  validateModified old r = true →
  (title r = title old ∨ validTitle (title r) = true)
  ∧ (description r = description old ∨ validDescription (description r) = true)
  ∧ (category r = category old ∨ validCategory (category r) = true)
  ∧ (severity r = severity old ∨ validSeverity (severity r) = true)
  ∧ (mediaUrls r = mediaUrls old ∨ validMediaUrls (mediaUrls r) = true)
  ∧ (status r = status old ∨ validStatus (status r) = true)
  ∧ (moderatorNotes r = moderatorNotes old
     ∨ validModeratorNotes (moderatorNotes r) = true).
Proof.
  unfold validateModified, validOrSame. rewrite !andb_true_iff, !orb_true_iff.
  rewrite !bool_decide_eq_true. intuition auto.
Qed.

Lemma schemaValid_saved old r :
  schemaValid old → validateModified old r = true →
  location r = location old → schemaValid r.
Proof.
  intros (Ht & Hd & Hc & Hs & Hm & Hst & Hn & Hl)
    (Ht' & Hd' & Hc' & Hs' & Hm' & Hst' & Hn')%validateModified_inv Hloc.
  unfold schemaValid. rewrite Hloc.
  repeat split; try done;
    match goal with
    | H : _ = _ ∨ _ |- _ => destruct H as [->|?]; done
    end.
Qed.

Lemma Saved_schemaValid w w' :
  Saved w w' →
  (∀ i r, reports w !! i = Some r → schemaValid r) →
  ∀ i r, reports w' !! i = Some r → schemaValid r.
Proof.
  intros [Hs|[(r0 & r' & Hr0 & Hid & Hv & Hloc & Hs)|(r' & _ & Hv & Hs)]]
    Hall i r Hr; rewrite Hs in Hr.
  - eauto.
  - destruct (decide (_id r0 = i)) as [<-|Hne].
    + rewrite lookup_insert_eq in Hr. injection Hr as <-.
      eapply schemaValid_saved; eauto.
    + rewrite lookup_insert_ne in Hr by done. eauto.
  - destruct (decide (nextId w = i)) as [<-|Hne].
    + rewrite lookup_insert_eq in Hr. by injection Hr as <-.
    + rewrite lookup_insert_ne in Hr by done. eauto.
Qed.

Lemma validateModified_flagged u r : validateModified r (flagged u r) = true.
Proof.
  apply validateModified_frame; unfold flagged; repeat case_match; auto.
Qed.

Lemma flagged_location u r : location (flagged u r) = location r.
Proof. unfold flagged. by repeat case_match. Qed.

Lemma moderated_location st notes asg u now r :
  location (moderated st notes asg u now r) = location r.
Proof. unfold moderated, Moderation.applyStatus. by repeat case_match. Qed.

Lemma addVote_location u v r : location (addVote u v r) = location r.
Proof. unfold addVote. by repeat case_match. Qed.

Lemma applyUpdate_location b now r :
  location (Reports.applyUpdate b now r) = location r.
Proof. apply (applyUpdate_frame b now r). Qed.

Section Saving.

Variable env : Env.t.
Variable withinMeters : list Q → Q → Q → Z → bool.
Variable isUri : string → bool.

Ltac saved Hr Hv :=
  right; left; eexists _, _;
  split; [exact Hr|]; split; [|split; [exact Hv|split; [|reflexivity]]].

Lemma deleteReport_saved user req w :
  wellKeyed w → Saved w (Reports.deleteReport user req w).2.
Proof.
  intros Hw. unfold Reports.deleteReport. munfold.
  destruct (reports w !! id req) as [r|] eqn:Hr; [|by left].
  destruct (Hw _ _ Hr) as [Hid _]. rewrite <- Hid in *.
  destruct (negb _ && negb _); [by left|].
  destruct (Report_save_cases w (set_status "invalid" r) r eq_refl Hr)
    as [[Hv ->]| ->]; [|by left].
  cbn. saved Hr Hv; done.
Qed.

Lemma getReportById_saved user req w :
  wellKeyed w → Saved w (Reports.getReportById user req w).2.
Proof.
  intros Hw. unfold Reports.getReportById. munfold.
  destruct (reports w !! id req) as [r|] eqn:Hr; [|by left].
  destruct (Hw _ _ Hr) as [Hid _]. rewrite <- Hid in *.
  destruct (Report_save_cases w (incrementViews r) r eq_refl Hr)
    as [[Hv ->]| ->]; [|by left].
  cbn. saved Hr Hv; done.
Qed.

Lemma voteReport_saved user req w :
  wellKeyed w → Saved w (Reports.voteReport user req w).2.
Proof.
  intros Hw. unfold Reports.voteReport. munfold.
  destruct (negb _); [by left|].
  destruct (reports w !! id req) as [r|] eqn:Hr; [|by left].
  destruct (Hw _ _ Hr) as [Hid _]. rewrite <- Hid in *.
  destruct (Report_save_cases w
              (addVote (UserSchema._id user) (default "" (vote (body req))) r)
              r (addVote_id _ _ _) Hr)
    as [[Hv ->]| ->]; [|by left].
  cbn. saved Hr Hv; [apply addVote_id|apply addVote_location].
Qed.

Lemma reportSpam_saved user req w :
  wellKeyed w → Saved w (Reports.reportSpam user req w).2.
Proof.
  intros Hw. destruct (reports w !! id req) as [r|] eqn:Hr.
  - destruct (Hw _ _ Hr) as [Hid _].
    destruct (reportSpam_found user req w r Hr Hid) as (w' & -> & Hrep & Hn).
    rewrite <- Hid in *. unfold Saved. cbn. rewrite Hrep.
    saved Hr (validateModified_flagged (UserSchema._id user) r);
      [apply flagged_id|apply flagged_location].
  - unfold Reports.reportSpam. munfold. rewrite Hr. by left.
Qed.

Lemma addComment_saved user req w :
  wellKeyed w → Saved w (Reports.addComment user req w).2.
Proof.
  intros Hw.
  destruct (addComment_cases user req w Hw)
    as [[Hs _]|(r & c & Hr & _ & _ & Hs)]; [by left|].
  destruct (Hw _ _ Hr) as [Hid _]. rewrite <- Hid in *. unfold Saved. rewrite Hs.
  saved Hr (validateModified_set_commentsCount (commentsCount r + 1) r); done.
Qed.

Lemma updateReport_saved user req w :
  wellKeyed w → Saved w (Reports.updateReport user req w).2.
Proof.
  intros Hw. destruct (reports w !! id req) as [r|] eqn:Hr.
  - destruct (Hw _ _ Hr) as [Hid _].
    destruct (canEdit r (now req) (UserSchema._id user) defaultTimeLimit) eqn:Hc.
    + destruct (validateModified r (Reports.applyUpdate (body req) (now req) r))
        eqn:Hv.
      * destruct (updateReport_allowed user req w r Hr Hid Hc Hv)
          as (w' & -> & Hrep & _).
        rewrite <- Hid in *. unfold Saved. cbn. rewrite Hrep.
        saved Hr Hv; [apply applyUpdate_id|apply applyUpdate_location].
      * rewrite (updateReport_invalid user req w r Hr Hid Hc Hv). by left.
    + rewrite (updateReport_forbidden user req w r Hr Hc). by left.
  - unfold Reports.updateReport. munfold. rewrite Hr. by left.
Qed.

Lemma updateReportStatus_saved user req w :
  wellKeyed w → Saved w (Moderation.updateReportStatus user req w).2.
Proof.
  intros Hw. destruct (reports w !! id req) as [r|] eqn:Hr.
  - destruct (Hw _ _ Hr) as [Hid _].
    destruct (moderationAccess user r) eqn:Ha.
    + destruct (validateModified r
                  (moderated (Moderation.status (body req))
                     (Moderation.moderatorNotes (body req))
                     (securityAssignee w (Moderation.assignedTo (body req)))
                     (UserSchema._id user) (now req) r)) eqn:Hv.
      * destruct (updateReportStatus_found user req w r Hr Hid Ha Hv)
          as (w' & -> & Hrep & _).
        rewrite <- Hid in *. unfold Saved. cbn. rewrite Hrep.
        saved Hr Hv; [apply moderated_id|apply moderated_location].
      * rewrite (updateReportStatus_invalid user req w r Hr Hid Ha Hv).
        by left.
    + rewrite (updateReportStatus_denied user req w r Hr Ha). by left.
  - unfold Moderation.updateReportStatus. munfold. rewrite Hr. by left.
Qed.

Lemma Report_create_valid now doc w :
  (∃ e, Report_create now doc w = (Thrown e, w))
  ∨ (∃ r, Report_create now doc w
          = (Ok r, set_reports (<[nextId w := r]>) (set_nextId Pos.succ w))
        ∧ Created r ∧ schemaValid r).
Proof.
  unfold Report_create. munfold.
  destruct (n_category doc), (n_severity doc), (n_title doc),
    (n_description doc); try (left; eauto; fail).
  destruct (_ && _) eqn:Hv; [|left; eauto].
  right. eexists. split; [reflexivity|]. split; [by repeat split|].
  rewrite !andb_true_iff in Hv.
  destruct Hv as [[[[[? ?] ?] ?] ?] ?]. by repeat split.
Qed.

Lemma createReport_saved user req w :
  Saved w (Reports.createReport env user req w).2.
Proof.
  unfold Reports.createReport. unfold tryCatch, Reports.serverError.
  destruct (c_location (body req) ≫= l_coordinates) as [coords|]; [|by left].
  destruct (negb (length coords =? 2)%nat); [by left|].
  munfold.
  match goal with
  | |- context [Report_create ?n ?d w] =>
      destruct (Report_create_valid n d w) as [[e ->]|(r & -> & Hc & Hv)]
  end.
  - by left.
  - right. right. exists r. split; [done|]. split; [done|].
    destruct (Reports.geNum _ _); destruct (io w) eqn:Hio; cbn;
      rewrite ?Hio; done.
Qed.

End Saving.

(** ** Notifications are valid *)

Lemma length_append s1 s2 :
  String.length (String.append s1 s2)
  = (String.length s1 + String.length s2)%nat.
Proof.
  induction s1 as [|c s1 IH]; [done|].
  change (String c s1 +:+ s2) with (String c (s1 +:+ s2)).
  cbn [String.length]. by rewrite IH.
Qed.

Lemma append_nonempty c s1 s2 : String.eqb (String.append (String c s1) s2) "" = false.
Proof. done. Qed.

Lemma statusEnum_length s : s ∈ statusEnum → (String.length s ≤ 13)%nat.
Proof.
  unfold statusEnum. rewrite !elem_of_cons, elem_of_nil.
  intros [->|[->|[->|[->|[->|[->|[]]]]]]]; cbn; lia.
Qed.

Lemma commentNotification_valid req r c :
  schemaValid r → Notifications.valid (commentNotification req r c) = true.
Proof.
  intros (Ht & _). unfold validTitle in Ht.
  apply andb_true_iff in Ht as [_ Hlen%Nat.leb_le].
  unfold Notifications.valid, commentNotification.
  cbn [NotificationSchema.type NotificationSchema.title
       NotificationSchema.message NotificationSchema.priority].
  rewrite append_nonempty, length_append.
  repeat (apply andb_true_intro; split); try done.
  apply Nat.leb_le. cbn. lia.
Qed.

Lemma moderated_status st notes asg u now r :
  status (moderated st notes asg u now r)
  = if Js.truthyStr st then default "" st else status r.
Proof.
  unfold moderated, Moderation.applyStatus. by repeat case_match.
Qed.

Lemma statusNotification_valid st notes asg u now r :
  let r' := moderated st notes asg u now r in
  validateModified r r' = true → status r' ≠ status r →
  Notifications.valid (statusNotification st r') = true.
Proof.
  intros r' (_ & _ & _ & _ & _ & Hst & _)%validateModified_inv Hne.
  destruct Hst as [?|Hst]; [done|].
  unfold r' in Hst, Hne. rewrite moderated_status in Hst, Hne.
  destruct (Js.truthyStr st) eqn:Ht; [|done].
  destruct st as [s|]; [|done]. cbn in Hst.
  apply bool_decide_eq_true, statusEnum_length in Hst.
  unfold Notifications.valid, statusNotification.
  cbn [NotificationSchema.type NotificationSchema.title
       NotificationSchema.message NotificationSchema.priority
       from_option Datatypes.id].
  rewrite append_nonempty, length_append.
  repeat (apply andb_true_intro; split); try done.
  - apply Nat.leb_le. cbn. lia.
  - destruct (bool_decide (Some s = Some "resolved")); reflexivity.
Qed.

Section WellFormed.

Variable env : Env.t.
Variable withinMeters : list Q → Q → Q → Z → bool.
Variable isUri : string → bool.

#[local] Instance sameNotifications_preorder : PreOrder sameNotifications.
Proof.
  split; [by intros w|]. intros w1 w2 w3 H1 H2. unfold sameNotifications in *.
  by rewrite H2.
Qed.

Lemma silent_handlers_keep_notifications :
  (∀ user req, respects sameNotifications (Reports.createReport env user req))
  ∧ (∀ user req, respects sameNotifications (Reports.updateReport user req))
  ∧ (∀ user req, respects sameNotifications (Reports.deleteReport user req))
  ∧ (∀ user req, respects sameNotifications (Reports.voteReport user req))
  ∧ (∀ user req, respects sameNotifications (Reports.reportSpam user req))
  ∧ (∀ user req, respects sameNotifications (Reports.getReportById user req))
  ∧ (∀ user req,
       respects sameNotifications
         (Reports.getNearbyReports withinMeters user req)).
Proof.
  repeat match goal with |- _ ∧ _ => split end; intros user req;
    unfold Reports.createReport, Reports.updateReport, Reports.deleteReport,
      Reports.voteReport, Reports.reportSpam, Reports.getReportById,
      Reports.getNearbyReports;
    respects_auto; reflexivity.
Qed.

Lemma addComment_notifications user req w :
  wellKeyed w →
  notifications (Reports.addComment user req w).2 = notifications w
  ∨ ∃ r, reports w !! id req = Some r
         ∧ notifications (Reports.addComment user req w).2
           = notifications w ++ [commentNotification req r (nextId w)].
Proof.
  intros Hw. unfold Reports.addComment, Comment_create. munfold.
  destruct (negb (Js.truthyStr _) || _); [by left|].
  destruct (reports w !! id req) as [r|] eqn:Hr; [|by left].
  destruct (Hw _ _ Hr) as [Hid _].
  destruct (negb (validContent _)); [by left|].
  rewrite (Report_save_ok _ _ r);
    [ | by cbn; rewrite Hid | apply validateModified_set_commentsCount ].
  destruct (io w) eqn:Hio; cbn; rewrite ?Hio;
    destruct (Pos.eqb (reporterId r) (UserSchema._id user)); cbn;
    first [by left | right; exists r; split; [done|]; reflexivity].
Qed.

Lemma updateReportStatus_notifications user req w :
  wellKeyed w →
  Forall (λ n, Notifications.valid n = true) (notifications w) →
  Forall (λ n, Notifications.valid n = true)
    (notifications (Moderation.updateReportStatus user req w).2).
Proof.
  intros Hw Hn. destruct (reports w !! id req) as [r|] eqn:Hr.
  - destruct (Hw _ _ Hr) as [Hid _].
    destruct (moderationAccess user r) eqn:Ha.
    + destruct (validateModified r
                  (moderated (Moderation.status (body req))
                     (Moderation.moderatorNotes (body req))
                     (securityAssignee w (Moderation.assignedTo (body req)))
                     (UserSchema._id user) (now req) r)) eqn:Hv.
      * destruct (updateReportStatus_found user req w r Hr Hid Ha Hv)
          as (w' & -> & _ & _ & _ & Hnot).
        cbn. rewrite Hnot. apply Forall_app. split; [done|].
        destruct (negb (String.eqb _ _)) eqn:Hne; cbn [andb]; [|done].
        destruct (negb (Pos.eqb _ _)); [|done].
        apply Forall_singleton. apply statusNotification_valid; [done|].
        apply negb_true_iff, String.eqb_neq in Hne. congruence.
      * by rewrite (updateReportStatus_invalid user req w r Hr Hid Ha Hv).
    + by rewrite (updateReportStatus_denied user req w r Hr Ha).
  - unfold Moderation.updateReportStatus. munfold. by rewrite Hr.
Qed.

Ltac silent Hevolves Hsaved Hsilent :=
  intros w (Hw & Hv & Hn); split;
  [ eapply Evolves_wellKeyed; [exact Hw | apply Hevolves; exact Hw]
  | split;
    [ eapply Saved_schemaValid; [apply Hsaved; exact Hw | exact Hv]
    | rewrite Hsilent; exact Hn ] ].

Lemma handlers_keep_wellFormed :
  (∀ user req, respects (keeps wellFormed) (Reports.createReport env user req))
  ∧ (∀ user req, respects (keeps wellFormed) (Reports.updateReport user req))
  ∧ (∀ user req, respects (keeps wellFormed) (Reports.deleteReport user req))
  ∧ (∀ user req, respects (keeps wellFormed) (Reports.voteReport user req))
  ∧ (∀ user req, respects (keeps wellFormed) (Reports.addComment user req))
  ∧ (∀ user req, respects (keeps wellFormed) (Reports.reportSpam user req))
  ∧ (∀ user req, respects (keeps wellFormed) (Reports.getReportById user req))
  ∧ (∀ user req,
       respects (keeps wellFormed)
         (Reports.getNearbyReports withinMeters user req))
  ∧ (∀ user req,
       respects (keeps wellFormed) (Moderation.updateReportStatus user req)).
Proof.
  destruct silent_handlers_keep_notifications
    as (Hcreate & Hupdate & Hdelete & Hvote & Hspam & Hview & Hnear).
  repeat match goal with |- _ ∧ _ => split end; intros user req.
  - intros w (Hw & Hv & Hn).
    destruct (createReport_effect env user req w)
      as (resp & w' & lines & Heq & _ & _ & _ & Hev & _).
    split; [|split].
    + eapply Evolves_wellKeyed; [exact Hw|]. by rewrite Heq.
    + eapply Saved_schemaValid; [apply createReport_saved|exact Hv].
    + rewrite Hcreate. exact Hn.
  - silent updateReport_evolves updateReport_saved Hupdate.
  - silent deleteReport_evolves deleteReport_saved Hdelete.
  - silent voteReport_evolves voteReport_saved Hvote.
  - intros w (Hw & Hv & Hn). split; [|split].
    + eapply Evolves_wellKeyed; [exact Hw|]. by apply addComment_evolves.
    + eapply Saved_schemaValid; [by apply addComment_saved|exact Hv].
    + destruct (addComment_notifications user req w Hw) as [->|(r & Hr & ->)];
        [exact Hn|].
      apply Forall_app. split; [exact Hn|]. apply Forall_singleton.
      apply commentNotification_valid. by apply (Hv _ _ Hr).
  - silent reportSpam_evolves reportSpam_saved Hspam.
  - silent getReportById_evolves getReportById_saved Hview.
  - intros w H. by rewrite getNearbyReports_state.
  - intros w (Hw & Hv & Hn). split; [|split].
    + eapply Evolves_wellKeyed; [exact Hw|].
      by apply updateReportStatus_evolves.
    + eapply Saved_schemaValid; [by apply updateReportStatus_saved|exact Hv].
    + by apply updateReportStatus_notifications.
Qed.

Lemma step_wellFormed op :
  respects (keeps wellFormed) (step env withinMeters isUri op).
Proof.
  destruct handlers_keep_wellFormed
    as (Hcreate & Hupdate & Hdelete & Hvote & Hcomment & Hspam & Hview & Hnear
        & Hmod).
  destruct op as [req|req|req|req|req|req|req|req|req]; cbn;
    unfold postReport, patchReport, deleteReport, postVote, postComment,
      postReportSpam, getReport, getNearby, patchModerationReport;
    (destruct (Auth.authenticate req) as [res|user]; [respects_auto|]);
    try done.
  - destruct (Auth.requireVerifiedEmail user); [respects_auto|].
    apply respects_bind; [apply _| |intros [res|]; [respects_auto|]].
    + respects_auto. by intros H.
    + apply respects_bind; [apply _| |intros [res|req']; [respects_auto|done]].
      respects_auto; by intros H.
  - apply respects_bind; [apply _| |intros [res|req']; [respects_auto|done]].
    respects_auto; by intros H.
  - apply respects_bind; [apply _| |intros [res|req']; [respects_auto|done]].
    respects_auto; by intros H.
  - apply respects_bind; [apply _| |intros [res|req']; [respects_auto|done]].
    respects_auto; by intros H.
  - apply respects_bind; [apply _| |intros [res|req']; [respects_auto|done]].
    respects_auto; by intros H.
  - destruct (Auth.requireRole _ user); [respects_auto|done].
Qed.

Lemma run_wellFormed ops w :
  wellFormed w → wellFormed (run env withinMeters isUri ops w).
Proof.
  revert w. induction ops as [|op ops IH]; intros w Hw; [done|].
  cbn. apply IH. by apply step_wellFormed.
Qed.

Lemma initial_wellFormed users campuses io n :
  wellFormed (initial users campuses io n).
Proof.
  split; [apply initial_wellKeyed|]. split; [|constructor].
  intros i r Hr. cbn in Hr. by rewrite lookup_empty in Hr.
Qed.

(** What is stored passed the validators.  Whatever requests were served
    since the server started, with whatever bodies (the moderation route
    validates none), every stored report satisfies the validators of its
    schema and every notification those of the schema of notifications: the
    message built from the title of a report or from a status never
    exceeds the 500 characters allowed, so creating a notification
    cannot fail after the change it announces has been stored. *)
Theorem stored_documents_satisfy_their_schemas users campuses io n ops :
  let w := run env withinMeters isUri ops (initial users campuses io n) in
  (∀ i r, reports w !! i = Some r →
     validTitle (title r) = true ∧ validDescription (description r) = true
     ∧ validCategory (category r) = true ∧ validSeverity (severity r) = true
     ∧ validMediaUrls (mediaUrls r) = true ∧ validStatus (status r) = true
     ∧ validModeratorNotes (moderatorNotes r) = true
     ∧ validCoordinates (coordinates (location r)) = true)
  ∧ Forall (λ n, Notifications.valid n = true) (notifications w).
Proof.
  intros w.
  destruct (run_wellFormed ops _ (initial_wellFormed users campuses io n))
    as (_ & Hv & Hn).
  split; [exact Hv|exact Hn].
Qed.

End WellFormed.

(** ** Passwords *)



(** ** Tokens *)

Section Tokens.

Variable secret : string.
Variable accessExpiry refreshExpiry : Z.

(** The tokens for email verification and password reset can never be
    verified: they are signed without an audience, and [verifyToken], which
    [verifySpecialToken] calls first, demands the audience of the API.
    Whatever the expected type, the answer is an error: the expiry when
    the token has expired, an invalid token otherwise. *)
Theorem special_tokens_never_verify issued now userId expectedType token :
  token = Jwt.generateVerificationToken secret issued userId
  ∨ token = Jwt.generateResetToken secret issued userId →
  Jwt.verifySpecialToken secret now token expectedType
  = inl (if Jwt.exp token <=? now then "Token has expired"
         else "Invalid token").
Proof.
  intros [-> | ->];
    unfold Jwt.verifySpecialToken, Jwt.verifyToken, Jwt.verify; cbn;
    rewrite String.eqb_refl; cbn;
    (destruct (_ <=? _); [done|by rewrite bool_decide_eq_false_2]).
Qed.

(** The pair of tokens of an active user that is not banned.  The access
    token authenticates the user on the routes until it expires and cannot
    be used to refresh; the refresh token is refused by the routes, for its
    type, but the handshake of the socket server does not look at the
    type: the refresh token opens a socket for as long as it is valid, also
    after the access token has expired. *)
Theorem refresh_token_opens_a_socket issued now users user :
  users !! UserSchema._id user = Some user →
  isActive user = true → isBanned user = false →
  let pair := Jwt.generateTokenPair secret accessExpiry refreshExpiry issued user in
  (Jwt.authenticate secret now users (Some pair.1) = inr user
   ↔ now < issued + accessExpiry)
  ∧ Jwt.refresh secret accessExpiry refreshExpiry now users (Some pair.1)
    = inl (if issued + accessExpiry <=? now then "Token has expired"
           else "Invalid token type")
  ∧ (now < issued + refreshExpiry →
     Jwt.authenticate secret now users (Some pair.2)
     = inl (json 401 false "Invalid token type" DNone)
     ∧ is_Some (Jwt.handshake secret now users (Some pair.2))
     ∧ Jwt.refresh secret accessExpiry refreshExpiry now users (Some pair.2)
       = inr (Jwt.generateTokenPair secret accessExpiry refreshExpiry now user)).
Proof.
  intros Hu Ha Hb pair. unfold pair. cbn [fst snd Jwt.generateTokenPair].
  unfold Jwt.authenticate, Jwt.bearer, Jwt.refresh, Jwt.handshake,
    Jwt.verifyToken, Jwt.verify, Auth.authenticate, Sockets.handshake,
    Jwt.generateAccessToken, Jwt.generateRefreshToken, Jwt.sign.
  cbn -[lookup]. rewrite String.eqb_refl.
  rewrite !bool_decide_eq_true_2 by done. cbn -[lookup].
  destruct (Z.leb_spec (issued + accessExpiry) now);
    destruct (Z.leb_spec (issued + refreshExpiry) now); cbn -[lookup];
    rewrite ?Hu; cbn -[lookup]; rewrite ?Ha, ?Hb; cbn -[lookup];
    (split; [split; [done||lia|lia||done]|split; [done|]]);
    intros Hlt; first [lia|done].
Qed.

End Tokens.

(** ** Moderator updates without a status *)


(** ** The administration of users *)

Lemma authenticate_ok {B} (req : Request B) u :
  tokenUser req = Some u → isActive u = true → isBanned u = false →
  Auth.authenticate req = inr u.
Proof. intros Ht Ha Hb. unfold Auth.authenticate. by rewrite Ht, Ha, Hb. Qed.

Lemma requireRole_admin u :
  role u = "admin" ∨ role u = "super-admin" →
  Auth.requireRole ["admin"; "super-admin"] u = None.
Proof.
  intros H. unfold Auth.requireRole. rewrite bool_decide_eq_true_2; [done|].
  rewrite !elem_of_cons. tauto.
Qed.

(** An admin can take over any campus.  [updateUser] checks the campus of
    the target and nothing about the role that is asked for, so an admin
    may give the role [super-admin] to any user of the campus, the admin
    included; the next request of that admin is checked against the new
    role, which passes the campus check for every user.  Here the admin,
    refused at first for a user of another campus, promotes themself and
    then bans that user; both updates are logged as [change_user_role]. *)
Theorem admin_can_take_over_any_campus actor target a t now now' s :
  Admin.accounts s !! actor = Some a →
  Admin.accounts s !! target = Some t →
  actor ≠ target →
  role (Admin.user a) = "admin" →
  isActive (Admin.user a) = true → isBanned (Admin.user a) = false →
  UserSchema.campusId (Admin.user t) ≠ UserSchema.campusId (Admin.user a) →
  let refused := Admin.patchUser actor now target Admin.ban s in
  let promoted := Admin.patchUser actor now actor Admin.promote s in
  let banned := Admin.patchUser actor now' target Admin.ban promoted.2 in
  refused = ({| Admin.code := 403; Admin.message := "Access denied";
                Admin.data := None |}, s)
  ∧ Admin.code promoted.1 = 200
  ∧ Admin.code banned.1 = 200
  ∧ (∃ t', Admin.accounts banned.2 !! target = Some t'
           ∧ isBanned (Admin.user t') = true
           ∧ Admin.bannedAt t' = Some now')
  ∧ Admin.action <$> Admin.log banned.2
    = (Admin.action <$> Admin.log s)
      ++ ["change_user_role"; "change_user_role"].
Proof.
  intros Ha Ht Hne Hrole Hact Hban Hcampus refused promoted banned.
  assert (Pos.eqb (UserSchema.campusId (Admin.user t))
            (UserSchema.campusId (Admin.user a)) = false) as Hc
    by by apply Pos.eqb_neq.
  assert (refused = ({| Admin.code := 403; Admin.message := "Access denied";
                        Admin.data := None |}, s)) as Hrefused.
  { unfold refused, Admin.patchUser.
    rewrite (authenticate_ok _ (Admin.user a)); [|by cbn; rewrite Ha|done..].
    rewrite requireRole_admin by auto.
    unfold Admin.updateUser. by rewrite Ht, Hc, Hrole. }
  split; [exact Hrefused|].
  set (a' := Admin.applyBody now Admin.promote a).
  assert (role (Admin.user a') = "super-admin") as Hrole' by done.
  assert (isActive (Admin.user a') = true) as Hact' by done.
  assert (isBanned (Admin.user a') = false) as Hban' by done.
  set (s1 :=
         {| Admin.accounts := <[actor := a']> (Admin.accounts s);
            Admin.log := Admin.log s ++
              [ {| Admin.actorId := UserSchema._id (Admin.user a);
                   Admin.action := "change_user_role";
                   Admin.entityType := "user";
                   Admin.entityId := UserSchema._id (Admin.user a');
                   Admin.p_role := Some "super-admin";
                   Admin.p_isActive := None;
                   Admin.p_isBanned := None |} ] |}).
  assert (promoted
          = ({| Admin.code := 200; Admin.message := "User updated successfully";
                Admin.data := Some (Admin.user a') |}, s1)) as Hpromoted.
  { unfold promoted, Admin.patchUser.
    rewrite (authenticate_ok _ (Admin.user a)); [|by cbn; rewrite Ha|done..].
    rewrite requireRole_admin by auto.
    unfold Admin.updateUser. rewrite Ha, Pos.eqb_refl. cbn [negb andb].
    fold a'. rewrite Hrole'.
    rewrite (bool_decide_eq_true_2 ("super-admin" ∈ Admin.roleEnum))
      by (unfold Admin.roleEnum; rewrite !elem_of_cons; tauto).
    by rewrite orb_true_r. }
  rewrite Hpromoted. split; [done|]. cbn [snd].
  assert (Admin.accounts s1 !! actor = Some a') as Ha1
    by apply lookup_insert_eq.
  assert (Admin.accounts s1 !! target = Some t) as Ht1
    by (cbn; by rewrite lookup_insert_ne).
  unfold banned. rewrite Hpromoted. cbn [snd].
  unfold Admin.patchUser.
  rewrite (authenticate_ok _ (Admin.user a')); [|by cbn [tokenUser]; rewrite Ha1|done..].
  rewrite requireRole_admin by auto.
  unfold Admin.updateUser. rewrite Ht1, Hrole'. cbn [String.eqb negb andb].
  rewrite andb_false_r.
  rewrite (bool_decide_eq_true_2
             (role (Admin.user (Admin.applyBody now' Admin.ban t))
              = role (Admin.user t))) by done.
  cbn [orb negb fst snd Admin.code Admin.accounts Admin.log].
  split; [done|]. split.
  - eexists. rewrite lookup_insert_eq. split; [reflexivity|]. done.
  - unfold s1. cbn [Admin.log]. rewrite !fmap_app, <- app_assoc. done.
Qed.

(** * The theorems at work on the sample data *)

Lemma rejected_accounts_change_nothing_witness :
  let op := View (Sample.request Cases.banned 0 1000 ()) in
  ∃ resp,
    Cases.handle op Sample.reported = (Ok resp, Sample.reported)
    ∧ success resp = false ∧ code resp = 403.
Proof.
  intros op.
  apply (rejected_accounts_change_nothing Sample.production Sample.anywhere
           Sample.anyUri op Sample.reported).
  intros user [= <-]. by right.
Defined.

Lemma moderation_requires_moderator_witness :
  let req := Sample.request Sample.alice 0 1000 Cases.assignOnly in
  Cases.handle (ModeratorUpdate req) Sample.reported
  = (Ok (json 403 false "Insufficient permissions" DNone), Sample.reported).
Proof.
  intros req.
  apply (moderation_requires_moderator Sample.production Sample.anywhere
           Sample.anyUri req Sample.alice Sample.reported); reflexivity.
Defined.

Lemma reports_are_kept_with_their_identity_witness :
  let more :=
    [ Vote (Sample.request Sample.bob 60000 1000 Cases.confirm);
      Retract (Sample.request Sample.alice 70000 1000 ()) ] in
  ∃ r r',
    reports Sample.reported !! 1000%positive = Some r
    ∧ reports (Cases.serve more Sample.reported) !! 1000%positive = Some r'
    ∧ reporterId r' = reporterId r ∧ createdAt r' = createdAt r.
Proof.
  intros more.
  destruct (reports Sample.reported !! 1000%positive) as [r|] eqn:Hr;
    [|by vm_compute in Hr].
  destruct (reports_are_kept_with_their_identity Sample.production
              Sample.anywhere Sample.anyUri ∅ ∅ true 1000 [Cases.report]
              more 1000 r Hr)
    as (r' & Hr' & _ & Hrep & _ & _ & _ & Hcr).
  exists r, r'. split; [reflexivity|]. split; [exact Hr'|].
  split; [exact Hrep|exact Hcr].
Defined.


Lemma retracted_report_is_hidden_not_removed_witness :
  ∃ r,
    reports Sample.reported !! 1000%positive = Some r
    ∧ reports (retracted Sample.alice r Sample.reported) !! 1000%positive
      = Some (set_status "invalid" r)
    ∧ canEdit (set_status "invalid" r) 0 (reporterId r) defaultTimeLimit
      = false.
Proof.
  destruct (reports Sample.reported !! 1000%positive) as [r|] eqn:Hr;
    [|by vm_compute in Hr].
  destruct (retracted_report_is_hidden_not_removed Sample.production
              Sample.anywhere Sample.anyUri ∅ ∅ true 1000 [Cases.report]
              Sample.alice 1000 r 100 0%Q 0%Q 1000
              {| f_category := None; f_severity := None; f_status := None;
                 f_since := None |} 0 r Hr eq_refl)
    as (Hstored & _ & Hedit).
  exists r. split; [reflexivity|]. split; [exact Hstored|exact Hedit].
Defined.



Lemma comment_counter_is_exact_witness :
  ∃ r,
    reports Cases.discussed !! 1000%positive = Some r
    ∧ commentsCount r
      = Z.of_nat (Comments.countByReport 1000 (comments Cases.discussed)).
Proof.
  destruct (reports Cases.discussed !! 1000%positive) as [r|] eqn:Hr;
    [|by vm_compute in Hr].
  exists r. split; [reflexivity|].
  apply (comment_counter_is_exact Sample.production Sample.anywhere
           Sample.anyUri ∅ ∅ true 1000 _ 1000 r Hr).
Defined.



Lemma each_user_counts_once_witness :
  ∃ r,
    reports Cases.discussed !! 1000%positive = Some r
    ∧ NoDup (confirms (votes r) ++ disputes (votes r))
    ∧ netVotes (addVote 2 "dispute" r)
      = netVotes r - gain 2 (disputes (votes r))
        - loss 2 (confirms (votes r)).
Proof.
  destruct (reports Cases.discussed !! 1000%positive) as [r|] eqn:Hr;
    [|by vm_compute in Hr].
  destruct (each_user_counts_once Sample.production Sample.anywhere
              Sample.anyUri ∅ ∅ true 1000 _ 1000 r 2%positive Hr)
    as (Hnodup & _ & Hnet).
  exists r. split; [reflexivity|]. split; [exact Hnodup|exact Hnet].
Defined.

Lemma removeVote_withdraws_one_vote_witness :
  ∃ r,
    reports Sample.reported !! 1000%positive = Some r
    ∧ removeVote 2 (addVote 2 "confirm" r) = r.
Proof.
  destruct (reports Sample.reported !! 1000%positive) as [r|] eqn:Hr;
    [|by vm_compute in Hr].
  exists r. split; [reflexivity|].
  apply (removeVote_withdraws_one_vote 2%positive "confirm" r);
    vm_compute in Hr; injection Hr as <-; apply not_elem_of_nil.
Defined.


Lemma report_rooms_are_open_to_every_campus_witness :
  ∃ s,
    Sockets.session (Some Sample.alice) [] = Some s
    ∧ Sockets.receives s (ReportRoom 7) = false
    ∧ ∀ c e,
        e ∈ Sockets.emittedBy (SocketService.emitNewComment 7 c) Sample.reported →
        Sockets.receives (Sockets.on s (Sockets.JoinReport 7)) (room e) = true.
Proof.
  destruct (Sockets.session (Some Sample.alice) []) as [s|] eqn:Hs;
    [|by vm_compute in Hs].
  exists s. split; [reflexivity|]. split.
  - apply (report_rooms_are_open_to_every_campus (Some Sample.alice) [] s 7
             (newComment Sample.bob
                (Sample.request Sample.bob 0 7 Cases.hello) Sample.reported)
             Sample.reported Hs eq_refl).
    intros m Hm. by apply elem_of_nil in Hm.
  - intros c e He.
    by apply (report_rooms_are_open_to_every_campus (Some Sample.alice) [] s 7
                c Sample.reported Hs eq_refl).
Defined.

Lemma super_admin_gets_no_moderator_action_witness :
  ∃ s,
    Sockets.session (Some Cases.superAdmin) [Sockets.JoinReport 7] = Some s
    ∧ existsb (Sockets.receives s) (Sockets.moderatorActionRooms 100) = false.
Proof.
  destruct (Sockets.session (Some Cases.superAdmin) [Sockets.JoinReport 7])
    as [s|] eqn:Hs; [|by vm_compute in Hs].
  exists s. split; [reflexivity|].
  by apply (super_admin_gets_no_moderator_action Cases.superAdmin
              [Sockets.JoinReport 7] s Hs).
Defined.

Lemma report_update_is_delivered_twice_witness :
  let updates := EModerated "verified" None None None None in
  ∃ s,
    Sockets.session (Some Sample.alice) [Sockets.JoinReport 1000] = Some s
    ∧ let sent :=
        Sockets.emittedBy (SocketService.emitReportUpdate 100 1000 updates)
          Sample.reported in
      if io Sample.reported
      then length (filter (λ e, Sockets.receives s (room e) = true) sent)
           = 2%nat
           ∧ Forall (λ e, event e = "report_update" ∧ payload e = updates) sent
      else sent = [].
Proof.
  intros updates.
  destruct (Sockets.session (Some Sample.alice) [Sockets.JoinReport 1000])
    as [s|] eqn:Hs; [|by vm_compute in Hs].
  exists s. split; [reflexivity|].
  apply (report_update_is_delivered_twice s 100 1000 updates Sample.reported);
    vm_compute in Hs; injection Hs as <-; reflexivity.
Defined.


Lemma stored_documents_satisfy_their_schemas_witness :
  ∃ r,
    reports Cases.discussed !! 1000%positive = Some r
    ∧ validTitle (title r) = true
    ∧ validCoordinates (coordinates (location r)) = true.
Proof.
  destruct (reports Cases.discussed !! 1000%positive) as [r|] eqn:Hr;
    [|by vm_compute in Hr].
  destruct (proj1 (stored_documents_satisfy_their_schemas Sample.production
                     Sample.anywhere Sample.anyUri ∅ ∅ true 1000 _)
              1000%positive r Hr)
    as (Ht & _ & _ & _ & _ & _ & _ & Hc).
  exists r. split; [reflexivity|]. split; [exact Ht|exact Hc].
Defined.


Lemma special_tokens_never_verify_witness :
  let token := Jwt.generateVerificationToken "secret" 0 1 in
  Jwt.verifySpecialToken "secret" 10 token "email-verification"
  = inl (if Jwt.exp token <=? 10 then "Token has expired"
         else "Invalid token").
Proof.
  intros token.
  apply (special_tokens_never_verify "secret" 0 10 1%positive).
  by left.
Defined.

Lemma refresh_token_opens_a_socket_witness :
  let users : gmap ObjectId User := {[ 1%positive := Sample.alice ]} in
  let pair := Jwt.generateTokenPair "secret" 900 604800 0 Sample.alice in
  Jwt.authenticate "secret" 1000 users (Some pair.2)
  = inl (json 401 false "Invalid token type" DNone)
  ∧ is_Some (Jwt.handshake "secret" 1000 users (Some pair.2)).
Proof.
  intros users pair.
  destruct (refresh_token_opens_a_socket "secret" 900 604800 0 1000 users
              Sample.alice)
    as (_ & _ & H); [reflexivity|reflexivity|reflexivity|].
  destruct H as (Hauth & Hsock & _); [lia|]. split; [exact Hauth|exact Hsock].
Defined.




Lemma admin_can_take_over_any_campus_witness :
  let promoted := Admin.patchUser 10 1 10 Admin.promote MoreCases.registry in
  let banned := Admin.patchUser 10 2 20 Admin.ban promoted.2 in
  Admin.patchUser 10 1 20 Admin.ban MoreCases.registry
  = ({| Admin.code := 403; Admin.message := "Access denied";
        Admin.data := None |}, MoreCases.registry)
  ∧ Admin.code promoted.1 = 200 ∧ Admin.code banned.1 = 200.
Proof.
  intros promoted banned.
  destruct (admin_can_take_over_any_campus 10 20 MoreCases.admin
              MoreCases.outsider 1 2 MoreCases.registry)
    as (Hrefused & Hpromoted & Hbanned & _); try done.
Defined.
